(** * OptiCV front end: reconciliation, section enhancement, date checks
    and resume preview

  A shallow embedding of the TypeScript sources of the OptiCV front end
  (lib/types.ts, lib/api.ts, app/optimize/page.tsx, the resume form, the
  create page, components/ui/react-datepicker.tsx and
  components/resume-preview.tsx) together with the properties the
  specification states about them.

  Conventions of the embedding.
  - A JavaScript string is a [string], the bytes of its UTF-8 encoding; a
    value that may be [undefined] or [null] is an [option] ([None] stands
    for both).  A field is an option where the interface in lib/types.ts
    marks it optional or where the code guards it with [||], [&&], [!] or
    [??]; the other fields are typed as the interfaces declare them.
  - [toLowerCase] is the function of the JavaScript engine, a parameter of
    the development ([Js.Engine]); the examples run on [Js.ascii_engine].
  - An exception ([throw], a rejected promise) is the [Thrown] case of
    [Outcome]; [await] and sequencing are its bind.
  - React state is a record; a handler is a function from the state at the
    call to the state once the handler has finished.  [alert] appends to the
    [alerts] field.  [console.error] is diagnostic output and is not part
    of the state.
  - The backend is a function from the request to the outcome of [fetch],
    one per endpoint, a variable of the sections below. *)

From Stdlib Require Import ZArith NArith Ascii String List Bool Lia.
From stdpp Require Import base option list strings gmap pretty.

Local Open Scope string_scope.
Local Open Scope Z_scope.

(** ** JavaScript strings and truthiness *)

Module Js.

(** [s] as a condition: the empty string is falsy. *)
Definition nonempty (s : string) : bool := negb (String.eqb s "").

(** [v] as a condition when [v] may be undefined, null or a string. *)
Definition truthy (v : option string) : bool :=
  match v with
  | Some s => nonempty s
  | None => false
  end.

(** [a || b] on strings that may be undefined. *)
Definition or (a b : option string) : option string :=
  if truthy a then a else b.

(** [v || d] with a string literal [d]. *)
Definition or_str (v : option string) (d : string) : string :=
  match v with
  | Some s => if nonempty s then s else d
  | None => d
  end.

(** [v ?? d]: only undefined and null are replaced. *)
Definition nullish {A} (v : option A) (d : A) : A :=
  match v with
  | Some a => a
  | None => d
  end.

(** The code of a byte.  A string is held as the bytes of its UTF-8
    encoding: a character of ASCII is one byte below 128, every other
    character is two to four bytes from 128 on. *)
Definition code (c : ascii) : nat := nat_of_ascii c.

Definition is_ascii (c : ascii) : bool := (code c <? 128)%nat.

(** The text has characters of ASCII only. *)
Fixpoint ascii_text (s : string) : bool :=
  match s with
  | EmptyString => true
  | String c r => is_ascii c && ascii_text r
  end.

Definition is_upper (c : ascii) : bool :=
  let n := code c in (65 <=? n)%nat && (n <=? 90)%nat.

Definition lower_ascii (c : ascii) : ascii :=
  if is_upper c then ascii_of_nat (code c + 32) else c.

(** The letters A to Z lowered, every other byte kept. *)
Fixpoint lower (s : string) : string :=
  match s with
  | EmptyString => EmptyString
  | String c r => String (lower_ascii c) (lower r)
  end.

(** [String.prototype.toLowerCase] follows the case mappings of the Unicode
    Character Database the engine ships, special cases included.  The
    function is taken from the engine; the one thing the development relies
    on is what it does to text of ASCII characters, where it lowers the
    letters A to Z and keeps every other character. *)
Class Engine := {
  toLowerCase : string -> string;
  toLowerCase_ascii :
    forall s, ascii_text s = true -> toLowerCase s = lower s;
}.

(** The engine restricted to text of ASCII characters: the engine of the
    examples, whose text is ASCII. *)
Definition ascii_engine : Engine :=
  {| toLowerCase := lower; toLowerCase_ascii := fun _ _ => eq_refl |}.

(** [s.startsWith(p)]. *)
Definition startsWith (s p : string) : bool := String.prefix p s.

(** [s.split(sep)] for a separator that is one character, or a character
    class: the pieces between the separators, in order.  The result is
    never empty: a string without separator is its own single piece. *)
Fixpoint split_acc (is_sep : ascii -> bool) (cur : string) (s : string)
  : list string :=
  match s with
  | EmptyString => [String.rev cur]
  | String c r =>
      if is_sep c then String.rev cur :: split_acc is_sep EmptyString r
      else split_acc is_sep (String c cur) r
  end.

Definition split (is_sep : ascii -> bool) (s : string) : list string :=
  split_acc is_sep EmptyString s.

Definition is_newline (c : ascii) : bool := Ascii.eqb c "010"%char.

(** [arr.join(sep)]. *)
Fixpoint join (sep : string) (l : list string) : string :=
  match l with
  | [] => ""
  | [x] => x
  | x :: r => x +:+ sep +:+ join sep r
  end.

(** White space of [trim], [parseInt] and the regular expression class
    [\s]: the WhiteSpace and LineTerminator characters of ECMAScript, here
    by their UTF-8 bytes.
    - U+0009 to U+000D (tab, line feed, vertical tab, form feed, carriage
      return) and U+0020 (space): one byte, 9 to 13 and 32;
    - U+00A0 (no-break space): 194 160;
    - U+1680: 225 154 128;
    - U+2000 to U+200A: 226 128 128 to 226 128 138;
    - U+2028, U+2029, U+202F: 226 128 168, 226 128 169, 226 128 175;
    - U+205F: 226 129 159;
    - U+3000: 227 128 128;
    - U+FEFF (byte order mark): 239 187 191. *)
Definition space1 (a : ascii) : bool :=
  let n := code a in
  (((9 <=? n) && (n <=? 13)) || (n =? 32))%nat.

Definition space2 (a b : ascii) : bool :=
  ((code a =? 194) && (code b =? 160))%nat.

Definition space3 (a b c : ascii) : bool :=
  let z := code c in
  (((code a =? 225) && (code b =? 154) && (z =? 128))
   || ((code a =? 226) && (code b =? 128)
       && (((128 <=? z) && (z <=? 138))
           || (z =? 168) || (z =? 169) || (z =? 175)))
   || ((code a =? 226) && (code b =? 129) && (z =? 159))
   || ((code a =? 227) && (code b =? 128) && (z =? 128))
   || ((code a =? 239) && (code b =? 187) && (z =? 191)))%nat.

(** What follows the white-space character [s] starts with, when it starts
    with one. *)
Definition leading_space (s : string) : option string :=
  match s with
  | EmptyString => None
  | String a r1 =>
      if space1 a then Some r1
      else match r1 with
           | String b r2 =>
               if space2 a b then Some r2
               else match r2 with
                    | String c r3 => if space3 a b c then Some r3 else None
                    | EmptyString => None
                    end
           | EmptyString => None
           end
  end.

(** [s.trimStart()], and the white space [parseInt] and [\s*] skip. *)
Fixpoint trimStart (s : string) : string :=
  match s with
  | EmptyString => s
  | String a r1 =>
      if space1 a then trimStart r1
      else match r1 with
           | String b r2 =>
               if space2 a b then trimStart r2
               else match r2 with
                    | String c r3 => if space3 a b c then trimStart r3 else s
                    | EmptyString => s
                    end
           | EmptyString => s
           end
  end.

(** [s.trimEnd()]: a string of white space only becomes empty; of any other
    string the first byte stays and the rest is trimmed. *)
Fixpoint trimEnd (s : string) : string :=
  match s with
  | EmptyString => EmptyString
  | String a r =>
      if String.eqb (trimStart s) "" then EmptyString
      else String a (trimEnd r)
  end.

(** [s.trim()]. *)
Definition trim (s : string) : string := trimEnd (trimStart s).

(** The underscore that stands for a run of white space, written when the
    run begins. *)
Definition mark (in_run : bool) (rest : string) : string :=
  if in_run then rest else String "_"%char rest.

(** [s.replace(/\s+/g, "_")]: every maximal run of white space becomes
    one underscore; [in_run] tells that the previous character was white
    space. *)
Fixpoint underscore_from (in_run : bool) (s : string) : string :=
  match s with
  | EmptyString => EmptyString
  | String a r1 =>
      if space1 a then mark in_run (underscore_from true r1)
      else match r1 with
           | String b r2 =>
               if space2 a b then mark in_run (underscore_from true r2)
               else match r2 with
                    | String c r3 =>
                        if space3 a b c
                        then mark in_run (underscore_from true r3)
                        else String a (underscore_from false r1)
                    | EmptyString => String a (underscore_from false r1)
                    end
           | EmptyString => String a (underscore_from false r1)
           end
  end.

Definition underscore_spaces (s : string) : string :=
  underscore_from false s.

(** [arr.filter((_, idx) => keep(idx))], counting from [idx]. *)
Fixpoint filter_index {A} (keep : nat -> bool) (idx : nat) (l : list A)
  : list A :=
  match l with
  | [] => []
  | x :: r =>
      if keep idx then x :: filter_index keep (S idx) r
      else filter_index keep (S idx) r
  end.

End Js.

(** ** Exceptions and promises *)

Record Error := { message : string }.

Inductive Outcome (A : Type) : Type :=
| Returned (a : A)
| Thrown (e : Error).
Arguments Returned {A} a.
Arguments Thrown {A} e.

Definition bind {A B} (c : Outcome A) (k : A -> Outcome B) : Outcome B :=
  match c with
  | Returned a => k a
  | Thrown e => Thrown e
  end.

Notation "'await' x <- c ; k" := (bind c (fun x => k))
  (at level 10, x name, c at level 100, k at level 200).

(** The statements of a [try] block that set state, run one after the other:
    a statement that throws ends the block, and the state is the one the
    statements before it have reached. *)
Fixpoint run {S} (statements : list (S -> Outcome S)) (st : S)
  : S * option Error :=
  match statements with
  | [] => (st, None)
  | statement :: rest =>
      match statement st with
      | Returned st' => run rest st'
      | Thrown e => (st, Some e)
      end
  end.

(** ** lib/types.ts *)

Module ExperienceEntry.
Record t := {
  job_title : string;
  company : string;
  location : option string;
  start_date : string;
  end_date : option string;
  responsibilities : list string;
}.
End ExperienceEntry.

Module EducationEntry.
Record t := {
  degree : string;
  institution : string;
  location : option string;
  graduation_date : string;
  gpa : option string;
  relevant_coursework : option (list string);
}.
End EducationEntry.

Module ProjectEntry.
(** [title] and [technologies] are guarded by the code that reads them
    ([p.title || ""], [proj.technologies || []]). *)
Record t := {
  title : option string;
  description : string;
  technologies : option (list string);
  link : option string;
}.

Definition with_link (l : option string) (p : t) : t :=
  {| title := title p; description := description p;
     technologies := technologies p; link := l |}.
End ProjectEntry.

Module ResumeData.
(** The collections are options: the interface declares them as arrays,
    the code that receives a resume from the backend or from a sample
    payload guards them against null and undefined.  An entry of
    [projects] may be null ([if (!p) return p]). *)
Record t := {
  full_name : string;
  phone : string;
  email : string;
  linkedin : option string;
  location : option string;
  target_role : string;
  summary : option string;
  skills : option (list string);
  experience : option (list ExperienceEntry.t);
  education : option (list EducationEntry.t);
  projects : option (list (option ProjectEntry.t));
  certifications : option (list string);
}.

Definition with_summary (v : option string) (r : t) : t :=
  {| full_name := full_name r; phone := phone r; email := email r;
     linkedin := linkedin r; location := location r;
     target_role := target_role r; summary := v; skills := skills r;
     experience := experience r; education := education r;
     projects := projects r; certifications := certifications r |}.

Definition with_skills (v : option (list string)) (r : t) : t :=
  {| full_name := full_name r; phone := phone r; email := email r;
     linkedin := linkedin r; location := location r;
     target_role := target_role r; summary := summary r; skills := v;
     experience := experience r; education := education r;
     projects := projects r; certifications := certifications r |}.

Definition with_contact (li loc : option string) (r : t) : t :=
  {| full_name := full_name r; phone := phone r; email := email r;
     linkedin := li; location := loc;
     target_role := target_role r; summary := summary r;
     skills := skills r;
     experience := experience r; education := education r;
     projects := projects r; certifications := certifications r |}.

Definition with_projects (v : option (list (option ProjectEntry.t)))
  (r : t) : t :=
  {| full_name := full_name r; phone := phone r; email := email r;
     linkedin := linkedin r; location := location r;
     target_role := target_role r; summary := summary r;
     skills := skills r;
     experience := experience r; education := education r;
     projects := v; certifications := certifications r |}.
End ResumeData.

Module ATSScore.
Record t := {
  overall_score : Z;
  keyword_match : Z;
  section_completeness : Z;
  role_alignment : Z;
  formatting_score : Z;
  content_quality : Z;
  explanation : string;
  missing_keywords : list string;
  suggestions : list string;
}.
End ATSScore.

Record GenerateResponse := {
resume_data : ResumeData.t;
ats_score : option ATSScore.t;
}.

(** What the enhance endpoint answers; the field is read as
  [res.enhanced_content], guarded once by [|| ""]. *)
Record EnhanceResponse := {
enhanced_content : option string;
}.

(** ** lib/api.ts *)

Module Api.

(** The part of a fetch [Response] the wrapper reads: [text] is the outcome
    of [res.text()], [json] the outcome of [res.json()]. *)
Record Response (A : Type) := {
  ok : bool;
  status : N;
  statusText : string;
  text : Outcome string;
  json : Outcome A;
}.
Arguments ok {A} _.
Arguments status {A} _.
Arguments statusText {A} _.
Arguments text {A} _.
Arguments json {A} _.

(** [res.text().catch(() => "<unreadable response>")]. *)
Definition text_or_unreadable {A} (res : Response A) : string :=
  match text res with
  | Returned t => t
  | Thrown _ => "<unreadable response>"
  end.

(** The template string of the error [checkedFetch] throws. *)
Definition api_message {A} (res : Response A) : string :=
  "API " +:+ pretty (status res) +:+ " " +:+ statusText res +:+ ": "
  +:+ text_or_unreadable res.

Definition checkedFetch {A} (fetched : Outcome (Response A))
  : Outcome (Response A) :=
  await res <- fetched;
  if negb (ok res) then Thrown {| message := api_message res |}
  else Returned res.

Record GenerateInput := {
  gi_full_name : string;
  gi_phone : string;
  gi_email : string;
  gi_linkedin : option string;
  gi_location : option string;
  gi_target_role : string;
  gi_job_description : option string;
  gi_existing_resume_text : option string;
}.

Record EnhanceInput := {
  section_name : string;
  current_content : string;
  ei_target_role : string;
  ei_job_description : option string;
}.

Section Backend.
(** [fetch] on the generate and on the enhance endpoint: the request
    body is the input record the wrapper serializes. *)
Variable fetch_generate : GenerateInput -> Outcome (Response GenerateResponse).
Variable fetch_enhance : EnhanceInput -> Outcome (Response EnhanceResponse).

Definition generateResume (input : GenerateInput)
  : Outcome GenerateResponse :=
  await res <- checkedFetch (fetch_generate input);
  json res.

Definition enhanceSection (sectionName currentContent targetRole : string)
  (jobDescription : option string) : Outcome EnhanceResponse :=
  await res <- checkedFetch (fetch_enhance
    {| section_name := sectionName; current_content := currentContent;
       ei_target_role := targetRole;
       ei_job_description := jobDescription |});
  json res.
End Backend.

End Api.

(** ** app/optimize/page.tsx *)

Module OptimizePage.
Import Api.

(** The state of the page the two handlers read and write ([file],
    [loading], [downloading] and [originalScore] belong to the other
    handlers), and the alerts shown so far. *)
Record State := {
  jd : string;
  optimizing : bool;
  enhancingSection : option string;
  original : option ResumeData.t;
  optimized : option ResumeData.t;
  optimizedScore : option ATSScore.t;
  alerts : list string;
}.

Definition setOptimizing (b : bool) (st : State) : State :=
  {| jd := jd st; optimizing := b; enhancingSection := enhancingSection st;
     original := original st; optimized := optimized st;
     optimizedScore := optimizedScore st; alerts := alerts st |}.

Definition setEnhancingSection (v : option string) (st : State) : State :=
  {| jd := jd st; optimizing := optimizing st; enhancingSection := v;
     original := original st; optimized := optimized st;
     optimizedScore := optimizedScore st; alerts := alerts st |}.

Definition setOptimized (v : option ResumeData.t) (st : State) : State :=
  {| jd := jd st; optimizing := optimizing st;
     enhancingSection := enhancingSection st;
     original := original st; optimized := v;
     optimizedScore := optimizedScore st; alerts := alerts st |}.

Definition setOptimizedScore (v : option ATSScore.t) (st : State) : State :=
  {| jd := jd st; optimizing := optimizing st;
     enhancingSection := enhancingSection st;
     original := original st; optimized := optimized st;
     optimizedScore := v; alerts := alerts st |}.

Definition alert (msg : string) (st : State) : State :=
  {| jd := jd st; optimizing := optimizing st;
     enhancingSection := enhancingSection st;
     original := original st; optimized := optimized st;
     optimizedScore := optimizedScore st; alerts := alerts st ++ [msg] |}.

(** [jd || undefined]. *)
Definition jd_or_undefined (s : string) : option string :=
  if Js.nonempty s then Some s else None.

Section Handlers.
Context {engine : Js.Engine}.

(** [p.title.toLowerCase()] of an original project and
    [(p.title || "").toLowerCase()] of a rewritten one. *)
Definition key (p : ProjectEntry.t) : string :=
  Js.toLowerCase (Js.or_str (ProjectEntry.title p) "").

(** The body of [original.projects.forEach]: a titled project is stored
    under its lower-cased title, replacing what the map held there. *)
Definition byTitle_set (m : gmap string ProjectEntry.t) (p : ProjectEntry.t)
  : gmap string ProjectEntry.t :=
  if Js.truthy (ProjectEntry.title p) then <[key p := p]> m else m.

(** [original.projects.forEach(...)] from the map [m] on; reading [p.title]
    of a null entry throws. *)
Fixpoint byTitle_from (m : gmap string ProjectEntry.t)
  (ps : list (option ProjectEntry.t)) : Outcome (gmap string ProjectEntry.t) :=
  match ps with
  | [] => Returned m
  | None :: _ =>
      Thrown {| message := "Cannot read properties of null (reading 'title')" |}
  | Some p :: ps' => byTitle_from (byTitle_set m p) ps'
  end.

Definition byTitle (ps : list (option ProjectEntry.t))
  : Outcome (gmap string ProjectEntry.t) :=
  byTitle_from ∅ ps.

(** The callback of [merged.projects.map]. *)
Definition patch (m : gmap string ProjectEntry.t) (p : option ProjectEntry.t)
  : option ProjectEntry.t :=
  match p with
  | None => None
  | Some p =>
      match m !! key p with
      | Some orig =>
          if negb (Js.truthy (ProjectEntry.link p))
             && Js.truthy (ProjectEntry.link orig)
          then Some (ProjectEntry.with_link (ProjectEntry.link orig) p)
          else Some p
      | None => Some p
      end
  end.

(** Lines 62 to 79 of [handleOptimize]: the rewrite with the contact
    fields and project links of the original merged back. *)
Definition merge_back (orig rewritten : ResumeData.t) : Outcome ResumeData.t :=
  let merged :=
    ResumeData.with_contact
      (Some (Js.or_str (Js.or (ResumeData.linkedin rewritten)
                              (ResumeData.linkedin orig)) ""))
      (Some (Js.or_str (Js.or (ResumeData.location rewritten)
                              (ResumeData.location orig)) ""))
      rewritten in
  match ResumeData.projects orig, ResumeData.projects merged with
  | Some ops, Some mps =>
      await m <- byTitle ops;
      Returned (ResumeData.with_projects (Some (map (patch m) mps)) merged)
  | _, _ => Returned merged
  end.

Variable JSON_stringify : ResumeData.t -> string.
Variable fetch_generate : GenerateInput -> Outcome (Response GenerateResponse).
Variable fetch_enhance : EnhanceInput -> Outcome (Response EnhanceResponse).

(** The argument of [generateResume] in [handleOptimize]. *)
Definition optimize_input (orig : ResumeData.t) (jd : string)
  : GenerateInput :=
  {| gi_full_name := ResumeData.full_name orig;
     gi_phone := ResumeData.phone orig;
     gi_email := ResumeData.email orig;
     gi_linkedin := None;
     gi_location := None;
     gi_target_role := ResumeData.target_role orig;
     gi_job_description := jd_or_undefined jd;
     gi_existing_resume_text := Some (JSON_stringify orig) |}.

(** The [try] block of [handleOptimize]. *)
Definition optimize_try (orig : ResumeData.t) (st : State) : Outcome State :=
  await res <- generateResume fetch_generate (optimize_input orig (jd st));
  await merged <- merge_back orig (resume_data res);
  Returned (setOptimizedScore (ats_score res) (setOptimized (Some merged) st)).

Definition handleOptimize (st : State) : State :=
  match original st with
  | None => st
  | Some orig =>
      let st1 := setOptimizing true st in
      let st2 :=
        match optimize_try orig st1 with
        | Returned st' => st'
        | Thrown e => alert ("Optimization failed: " +:+ message e) st1
        end in
      setOptimizing false st2
  end.

(** [(res.enhanced_content || "").split("\n").filter(Boolean)]. *)
Definition skills_of_content (c : option string) : list string :=
  filter (fun s => Js.nonempty s = true) (Js.split Js.is_newline (Js.or_str c "")).

(** The [try] block of [handleEnhance]; the early [return] when nothing
    has been optimized yet leaves the state as it is. *)
Definition enhance_try (orig : ResumeData.t) (section content : string)
  (st : State) : Outcome State :=
  await res <- enhanceSection fetch_enhance section content
                 (ResumeData.target_role orig) (jd_or_undefined (jd st));
  match optimized st with
  | None => Returned st
  | Some opt =>
      let updated := opt in
      let updated :=
        if String.eqb section "summary"
        then ResumeData.with_summary (enhanced_content res) updated
        else updated in
      let updated :=
        if String.eqb section "skills"
        then ResumeData.with_skills
               (Some (skills_of_content (enhanced_content res))) updated
        else updated in
      Returned (setOptimized (Some updated) st)
  end.

Definition handleEnhance (section content : string) (st : State) : State :=
  match original st with
  | None => st
  | Some orig =>
      let st1 := setEnhancingSection (Some section) st in
      let st2 :=
        match enhance_try orig section content st1 with
        | Returned st' => st'
        | Thrown e => alert ("Enhancement failed: " +:+ message e) st1
        end in
      setEnhancingSection None st2
  end.

End Handlers.
End OptimizePage.

(** ** The resume form (raw JSON editor) *)

Module ResumeForm.
Import Api.

(** What [res.json()] of the sample payload gives: any field may be
    missing or null. *)
Record Sample := {
  s_full_name : option string;
  s_phone : option string;
  s_email : option string;
  s_target_role : option string;
  s_summary : option string;
  s_skills : option (list string);
  s_experience : option (list ExperienceEntry.t);
  s_education : option (list EducationEntry.t);
  s_projects : option (list (option ProjectEntry.t));
  s_certifications : option (list string);
}.

Definition emptyResume : ResumeData.t :=
  {| ResumeData.full_name := "";
     ResumeData.phone := "";
     ResumeData.email := "";
     ResumeData.linkedin := None;
     ResumeData.location := None;
     ResumeData.target_role := "";
     ResumeData.summary := Some "";
     ResumeData.skills := Some [];
     ResumeData.experience := Some [];
     ResumeData.education := Some [];
     ResumeData.projects := Some [];
     ResumeData.certifications := Some [] |}.

Record State := {
  data : ResumeData.t;
  alerts : list string;
}.

Definition initial : State := {| data := emptyResume; alerts := [] |}.

(** The object literal [loadSample] passes to [setData]. *)
Definition resume_of_sample (sample : Sample) : ResumeData.t :=
  {| ResumeData.full_name := Js.nullish (s_full_name sample) "";
     ResumeData.phone := Js.nullish (s_phone sample) "";
     ResumeData.email := Js.nullish (s_email sample) "";
     ResumeData.linkedin := None;
     ResumeData.location := None;
     ResumeData.target_role := Js.nullish (s_target_role sample) "";
     ResumeData.summary := Some (Js.nullish (s_summary sample) "");
     ResumeData.skills := Some (Js.nullish (s_skills sample) []);
     ResumeData.experience := Some (Js.nullish (s_experience sample) []);
     ResumeData.education := Some (Js.nullish (s_education sample) []);
     ResumeData.projects := Some (Js.nullish (s_projects sample) []);
     ResumeData.certifications :=
       Some (Js.nullish (s_certifications sample) []) |}.

Section Handlers.
(** [fetch("/test_payload.json")] and [JSON.parse]. *)
Variable fetch_sample : Outcome (Response Sample).
Variable JSON_parse : string -> Outcome ResumeData.t.

Definition loadSample_try : Outcome ResumeData.t :=
  await res <- fetch_sample;
  if negb (ok res) then
    Thrown {| message := "Failed to load sample: " +:+ pretty (status res) |}
  else
    await sample <- json res;
    Returned (resume_of_sample sample).

Definition loadSample (st : State) : State :=
  match loadSample_try with
  | Returned d => {| data := d; alerts := alerts st |}
  | Thrown e =>
      {| data := data st;
         alerts := alerts st
                   ++ ["Failed to load sample payload: " +:+ message e] |}
  end.

Definition onChangeTextarea (value : string) (st : State) : State :=
  match JSON_parse value with
  | Returned parsed => {| data := parsed; alerts := alerts st |}
  | Thrown _ => st
  end.

Definition clear (st : State) : State :=
  {| data := emptyResume; alerts := alerts st |}.

End Handlers.
End ResumeForm.

(** ** The create page: form entries *)

Module EduEntry.
Record t := {
  degree : string;
  institution : string;
  location : string;
  graduation_date : string;
  gpa : string;
}.

(** [keyof EduEntry]. *)
Inductive key :=
| k_degree | k_institution | k_location | k_graduation_date | k_gpa.

(** [{ ...e, [field]: value }]. *)
Definition set (field : key) (value : string) (e : t) : t :=
  {| degree := match field with k_degree => value | _ => degree e end;
     institution :=
       match field with k_institution => value | _ => institution e end;
     location := match field with k_location => value | _ => location e end;
     graduation_date :=
       match field with
       | k_graduation_date => value
       | _ => graduation_date e
       end;
     gpa := match field with k_gpa => value | _ => gpa e end |}.
End EduEntry.

Module ExpEntry.
Record t := {
  job_title : string;
  company : string;
  location : string;
  start_date : string;
  end_date : string;
  responsibilities : string;
}.

(** [keyof ExpEntry]. *)
Inductive key :=
| k_job_title | k_company | k_location
| k_start_date | k_end_date | k_responsibilities.

(** [{ ...e, [field]: value }]. *)
Definition set (field : key) (value : string) (e : t) : t :=
  {| job_title := match field with k_job_title => value | _ => job_title e end;
     company := match field with k_company => value | _ => company e end;
     location := match field with k_location => value | _ => location e end;
     start_date :=
       match field with k_start_date => value | _ => start_date e end;
     end_date := match field with k_end_date => value | _ => end_date e end;
     responsibilities :=
       match field with
       | k_responsibilities => value
       | _ => responsibilities e
       end |}.

Definition is_date (field : key) : bool :=
  match field with
  | k_start_date | k_end_date => true
  | _ => false
  end.
End ExpEntry.

Module ProjEntry.
Record t := {
  title : string;
  description : string;
  technologies : string;
  link : string;
}.

(** [keyof ProjEntry]. *)
Inductive key := k_title | k_description | k_technologies | k_link.

(** [{ ...p, [field]: value }]. *)
Definition set (field : key) (value : string) (p : t) : t :=
  {| title := match field with k_title => value | _ => title p end;
     description :=
       match field with k_description => value | _ => description p end;
     technologies :=
       match field with k_technologies => value | _ => technologies p end;
     link := match field with k_link => value | _ => link p end |}.
End ProjEntry.

Definition emptyEdu : EduEntry.t :=
  {| EduEntry.degree := ""; EduEntry.institution := "";
     EduEntry.location := ""; EduEntry.graduation_date := "";
     EduEntry.gpa := "" |}.

Definition emptyExp : ExpEntry.t :=
  {| ExpEntry.job_title := ""; ExpEntry.company := "";
     ExpEntry.location := ""; ExpEntry.start_date := "";
     ExpEntry.end_date := ""; ExpEntry.responsibilities := "" |}.

Definition emptyProj : ProjEntry.t :=
  {| ProjEntry.title := ""; ProjEntry.description := "";
     ProjEntry.technologies := ""; ProjEntry.link := "" |}.

(** ** buildExistingResumeText *)

Module ExistingText.

(** The three characters of the templates outside ASCII, as UTF-8. *)
Definition en_dash : string := "–".
Definition em_dash : string := "—".
Definition bullet : string := "•".

Definition edu_line (e : EduEntry.t) : string :=
  "- " +:+ EduEntry.degree e +:+ " from " +:+ EduEntry.institution e
  +:+ (if Js.nonempty (EduEntry.location e)
       then ", " +:+ EduEntry.location e else "")
  +:+ (if Js.nonempty (EduEntry.graduation_date e)
       then " (" +:+ EduEntry.graduation_date e +:+ ")" else "")
  +:+ (if Js.nonempty (EduEntry.gpa e)
       then " " +:+ em_dash +:+ " GPA: " +:+ EduEntry.gpa e else "").

(** [e.end_date || "Present"]. *)
Definition shown_end (e : ExpEntry.t) : string :=
  Js.or_str (Some (ExpEntry.end_date e)) "Present".

Definition exp_line (e : ExpEntry.t) : string :=
  "- " +:+ ExpEntry.job_title e +:+ " at " +:+ ExpEntry.company e
  +:+ (if Js.nonempty (ExpEntry.location e)
       then ", " +:+ ExpEntry.location e else "")
  +:+ " | " +:+ Js.or_str (Some (ExpEntry.start_date e)) "N/A"
  +:+ " " +:+ en_dash +:+ " " +:+ shown_end e.

Definition exp_bullets (e : ExpEntry.t) : list string :=
  if Js.nonempty (Js.trim (ExpEntry.responsibilities e)) then
    map (fun r => "  " +:+ bullet +:+ " " +:+ Js.trim r)
      (filter (fun r => Js.nonempty r = true)
         (Js.split Js.is_newline (ExpEntry.responsibilities e)))
  else [].

Definition proj_lines (p : ProjEntry.t) : list string :=
  [ "- " +:+ ProjEntry.title p
    +:+ (if Js.nonempty (ProjEntry.link p)
         then " (" +:+ ProjEntry.link p +:+ ")" else "") ]
  ++ (if Js.nonempty (ProjEntry.description p)
      then ["  " +:+ ProjEntry.description p] else [])
  ++ (if Js.nonempty (Js.trim (ProjEntry.technologies p))
      then ["  Technologies: " +:+ ProjEntry.technologies p] else []).

Definition filledEdu (education : list EduEntry.t) : list EduEntry.t :=
  filter (fun e => Js.nonempty (EduEntry.degree e)
                   || Js.nonempty (EduEntry.institution e) = true) education.

Definition filledExp (experience : list ExpEntry.t) : list ExpEntry.t :=
  filter (fun e => Js.nonempty (ExpEntry.job_title e)
                   || Js.nonempty (ExpEntry.company e) = true) experience.

Definition filledProj (projects : list ProjEntry.t) : list ProjEntry.t :=
  filter (fun p => Js.nonempty (ProjEntry.title p) = true) projects.

(** A heading followed by the lines of the entries, when there are any. *)
Definition block {A} (heading : string) (lines : A -> list string)
  (entries : list A) : list string :=
  match entries with
  | [] => []
  | _ => heading :: concat (map lines entries)
  end.

(** The array [parts] at the end of the function. *)
Definition parts (education : list EduEntry.t) (experience : list ExpEntry.t)
  (projects : list ProjEntry.t) : list string :=
  block "EDUCATION:" (fun e => [edu_line e]) (filledEdu education)
  ++ block (String "010"%char "EXPERIENCE:")
       (fun e => exp_line e :: exp_bullets e) (filledExp experience)
  ++ block (String "010"%char "PROJECTS:") proj_lines (filledProj projects).

Definition buildExistingResumeText (education : list EduEntry.t)
  (experience : list ExpEntry.t) (projects : list ProjEntry.t)
  : option string :=
  match parts education experience projects with
  | [] => None
  | ps => Some (Js.join (String "010"%char "") ps)
  end.

End ExistingText.

(** ** Numbers and dates of the date check *)

Module JsDate.

Definition digit_of (c : ascii) : option Z :=
  let n := Z.of_nat (nat_of_ascii c) in
  if (48 <=? n) && (n <=? 57) then Some (n - 48) else None.

Definition hex_digit_of (c : ascii) : option Z :=
  let n := Z.of_nat (nat_of_ascii c) in
  if (48 <=? n) && (n <=? 57) then Some (n - 48)
  else if (97 <=? n) && (n <=? 102) then Some (n - 87)
  else if (65 <=? n) && (n <=? 70) then Some (n - 55)
  else None.

(** The longest prefix of digits, read in the radix; [acc] is the value
    read so far, [None] before the first digit. *)
Fixpoint digits (radix : Z) (digit : ascii -> option Z) (acc : option Z)
  (s : string) : option Z :=
  match s with
  | EmptyString => acc
  | String c r =>
      match digit c with
      | Some d => digits radix digit (Some (radix * Js.nullish acc 0 + d)) r
      | None => acc
      end
  end.

Definition is_x (c : ascii) : bool :=
  Ascii.eqb c "x"%char || Ascii.eqb c "X"%char.

(** [parseInt(s)]: leading white space, an optional sign, an optional
    [0x] prefix, then the longest prefix of digits; [None] is NaN.  The
    value is exact; the rounding of a double starts beyond 2^53, far
    outside the years a [Date] accepts. *)
Definition parseInt (s : string) : option Z :=
  let s := Js.trimStart s in
  let '(sign, s) :=
    match s with
    | String "+"%char r => (1, r)
    | String "-"%char r => (-1, r)
    | _ => (1, s)
    end in
  let magnitude :=
    match s with
    | String "0"%char (String x r) =>
        if is_x x then digits 16 hex_digit_of None r
        else digits 10 digit_of None s
    | _ => digits 10 digit_of None s
    end in
  option_map (Z.mul sign) magnitude.

(** A [Date] built from a year and a month index is the first of a month
    at local midnight.  Its time value is represented by the ordinal of the
    month, [12 * year + monthIndex], which orders such dates as their time
    values do; [None] is the Invalid Date, whose time value is NaN. *)
Definition t := option Z.

(** Time values reach from 20 April -271821 to 13 September 275760: the
    first and the last month whose first day is a valid date. *)
Definition min_month : Z := 12 * (-271821) + 4.
Definition max_month : Z := 12 * 275760 + 8.

(** [new Date(year, monthIndex)]: a year from 0 to 99 means 1900 + year;
    a month index outside 0..11 carries into the year.  ([parseDate] below
    passes years and months that are not negative: a minus sign is one of
    its separators.) *)
Definition make (year monthIndex : option Z) : t :=
  match year, monthIndex with
  | Some y, Some m =>
      let yr := if (0 <=? y) && (y <=? 99) then 1900 + y else y in
      let ordinal := 12 * yr + m in
      if (min_month <=? ordinal) && (ordinal <=? max_month)
      then Some ordinal else None
  | _, _ => None
  end.

(** [a > b] on two dates: false when one of them is invalid. *)
Definition gt (a b : t) : bool :=
  match a, b with
  | Some x, Some y => y <? x
  | _, _ => false
  end.

End JsDate.

(** ** The create page *)

Module CreatePage.
Import Api.

(** The sample payload as [loadSample] of this page reads it: an object
    whose fields may be missing or null, and whose three arrays may hold
    null entries. *)
Record SampleExp := {
  se_job_title : option string;
  se_company : option string;
  se_location : option string;
  se_start_date : option string;
  se_end_date : option string;
  se_responsibilities : option (list string);
}.

Record SampleEdu := {
  sd_degree : option string;
  sd_institution : option string;
  sd_location : option string;
  sd_graduation_date : option string;
  sd_gpa : option string;
}.

Record SampleProj := {
  sp_title : option string;
  sp_description : option string;
  sp_technologies : option (list string);
  sp_link : option string;
}.

Record Sample := {
  s_full_name : option string;
  s_phone : option string;
  s_email : option string;
  s_target_role : option string;
  s_experience : option (list (option SampleExp));
  s_education : option (list (option SampleEdu));
  s_projects : option (list (option SampleProj));
}.

Record State := {
  step : nat;
  loading : bool;
  enhancingSection : option string;
  fullName : string;
  phone : string;
  email : string;
  targetRole : string;
  jobDescription : string;
  showEducation : bool;
  showExperience : bool;
  showProjects : bool;
  education : list EduEntry.t;
  experience : list ExpEntry.t;
  projects : list ProjEntry.t;
  resumeData : option ResumeData.t;
  atsScore : option ATSScore.t;
  summary : option string;
  skills : option string;
  alerts : list string;
}.

Definition initial : State :=
  {| step := 1; loading := false; enhancingSection := None;
     fullName := ""; phone := ""; email := ""; targetRole := "";
     jobDescription := "";
     showEducation := false; showExperience := false; showProjects := false;
     education := [emptyEdu]; experience := [emptyExp];
     projects := [emptyProj];
     resumeData := None; atsScore := None;
     summary := Some ""; skills := Some ""; alerts := [] |}.

Definition setExperience (v : list ExpEntry.t) (st : State) : State :=
  {| step := step st; loading := loading st;
     enhancingSection := enhancingSection st;
     fullName := fullName st; phone := phone st; email := email st;
     targetRole := targetRole st; jobDescription := jobDescription st;
     showEducation := showEducation st; showExperience := showExperience st;
     showProjects := showProjects st;
     education := education st; experience := v; projects := projects st;
     resumeData := resumeData st; atsScore := atsScore st;
     summary := summary st; skills := skills st; alerts := alerts st |}.

Definition setEnhancingSection (v : option string) (st : State) : State :=
  {| step := step st; loading := loading st; enhancingSection := v;
     fullName := fullName st; phone := phone st; email := email st;
     targetRole := targetRole st; jobDescription := jobDescription st;
     showEducation := showEducation st; showExperience := showExperience st;
     showProjects := showProjects st;
     education := education st; experience := experience st;
     projects := projects st;
     resumeData := resumeData st; atsScore := atsScore st;
     summary := summary st; skills := skills st; alerts := alerts st |}.

Definition setSummary (v : option string) (st : State) : State :=
  {| step := step st; loading := loading st;
     enhancingSection := enhancingSection st;
     fullName := fullName st; phone := phone st; email := email st;
     targetRole := targetRole st; jobDescription := jobDescription st;
     showEducation := showEducation st; showExperience := showExperience st;
     showProjects := showProjects st;
     education := education st; experience := experience st;
     projects := projects st;
     resumeData := resumeData st; atsScore := atsScore st;
     summary := v; skills := skills st; alerts := alerts st |}.

Definition setSkills (v : option string) (st : State) : State :=
  {| step := step st; loading := loading st;
     enhancingSection := enhancingSection st;
     fullName := fullName st; phone := phone st; email := email st;
     targetRole := targetRole st; jobDescription := jobDescription st;
     showEducation := showEducation st; showExperience := showExperience st;
     showProjects := showProjects st;
     education := education st; experience := experience st;
     projects := projects st;
     resumeData := resumeData st; atsScore := atsScore st;
     summary := summary st; skills := v; alerts := alerts st |}.

Definition alert (msg : string) (st : State) : State :=
  {| step := step st; loading := loading st;
     enhancingSection := enhancingSection st;
     fullName := fullName st; phone := phone st; email := email st;
     targetRole := targetRole st; jobDescription := jobDescription st;
     showEducation := showEducation st; showExperience := showExperience st;
     showProjects := showProjects st;
     education := education st; experience := experience st;
     projects := projects st;
     resumeData := resumeData st; atsScore := atsScore st;
     summary := summary st; skills := skills st;
     alerts := alerts st ++ [msg] |}.

(** The entries [loadSample] builds from the payload. *)
Definition exp_of_sample (ex : SampleExp) : ExpEntry.t :=
  {| ExpEntry.job_title := Js.or_str (se_job_title ex) "";
     ExpEntry.company := Js.or_str (se_company ex) "";
     ExpEntry.location := Js.or_str (se_location ex) "";
     ExpEntry.start_date := Js.or_str (se_start_date ex) "";
     ExpEntry.end_date := Js.or_str (se_end_date ex) "";
     ExpEntry.responsibilities :=
       Js.join (String "010"%char "")
         (Js.nullish (se_responsibilities ex) []) |}.

Definition edu_of_sample (ed : SampleEdu) : EduEntry.t :=
  {| EduEntry.degree := Js.or_str (sd_degree ed) "";
     EduEntry.institution := Js.or_str (sd_institution ed) "";
     EduEntry.location := Js.or_str (sd_location ed) "";
     EduEntry.graduation_date := Js.or_str (sd_graduation_date ed) "";
     EduEntry.gpa := Js.or_str (sd_gpa ed) "" |}.

Definition proj_of_sample (p : SampleProj) : ProjEntry.t :=
  {| ProjEntry.title := Js.or_str (sp_title p) "";
     ProjEntry.description := Js.or_str (sp_description p) "";
     ProjEntry.technologies :=
       Js.join ", " (Js.nullish (sp_technologies p) []);
     ProjEntry.link := Js.or_str (sp_link p) "" |}.

(** [setFullName(sample.full_name ?? ''); setPhone(sample.phone ?? '');
    setEmail(sample.email ?? ''); setTargetRole(sample.target_role ?? '')]. *)
Definition setContact (sample : Sample) (st : State) : State :=
  {| step := step st; loading := loading st;
     enhancingSection := enhancingSection st;
     fullName := Js.nullish (s_full_name sample) "";
     phone := Js.nullish (s_phone sample) "";
     email := Js.nullish (s_email sample) "";
     targetRole := Js.nullish (s_target_role sample) "";
     jobDescription := jobDescription st;
     showEducation := showEducation st; showExperience := showExperience st;
     showProjects := showProjects st;
     education := education st; experience := experience st;
     projects := projects st;
     resumeData := resumeData st; atsScore := atsScore st;
     summary := summary st; skills := skills st; alerts := alerts st |}.

(** [setExperience(v); setShowExperience(true)] and its two siblings. *)
Definition showExperienceOf (v : list ExpEntry.t) (st : State) : State :=
  {| step := step st; loading := loading st;
     enhancingSection := enhancingSection st;
     fullName := fullName st; phone := phone st; email := email st;
     targetRole := targetRole st; jobDescription := jobDescription st;
     showEducation := showEducation st; showExperience := true;
     showProjects := showProjects st;
     education := education st; experience := v; projects := projects st;
     resumeData := resumeData st; atsScore := atsScore st;
     summary := summary st; skills := skills st; alerts := alerts st |}.

Definition showEducationOf (v : list EduEntry.t) (st : State) : State :=
  {| step := step st; loading := loading st;
     enhancingSection := enhancingSection st;
     fullName := fullName st; phone := phone st; email := email st;
     targetRole := targetRole st; jobDescription := jobDescription st;
     showEducation := true; showExperience := showExperience st;
     showProjects := showProjects st;
     education := v; experience := experience st; projects := projects st;
     resumeData := resumeData st; atsScore := atsScore st;
     summary := summary st; skills := skills st; alerts := alerts st |}.

Definition showProjectsOf (v : list ProjEntry.t) (st : State) : State :=
  {| step := step st; loading := loading st;
     enhancingSection := enhancingSection st;
     fullName := fullName st; phone := phone st; email := email st;
     targetRole := targetRole st; jobDescription := jobDescription st;
     showEducation := showEducation st; showExperience := showExperience st;
     showProjects := true;
     education := education st; experience := experience st; projects := v;
     resumeData := resumeData st; atsScore := atsScore st;
     summary := summary st; skills := skills st; alerts := alerts st |}.

(** [arr.map((x: any) => ({ first: x.first || '', ... }))] over an array of
    the payload: the callback reads the field [first] of every entry, which
    throws on an entry that is null. *)
Fixpoint map_entries {A B} (first : string) (f : A -> B)
  (l : list (option A)) : Outcome (list B) :=
  match l with
  | [] => Returned []
  | None :: _ =>
      Thrown {| message := "Cannot read properties of null (reading '"
                           +:+ first +:+ "')" |}
  | Some x :: r =>
      await r' <- map_entries first f r;
      Returned (f x :: r')
  end.

(** The three [if (sample.xs) { setXs(sample.xs.map(...)); setShowXs(true) }]
    of [loadSample]. *)
Definition loadExperience (sample : Sample) (st : State) : Outcome State :=
  match s_experience sample with
  | Some l =>
      await v <- map_entries "job_title" exp_of_sample l;
      Returned (showExperienceOf v st)
  | None => Returned st
  end.

Definition loadEducation (sample : Sample) (st : State) : Outcome State :=
  match s_education sample with
  | Some l =>
      await v <- map_entries "degree" edu_of_sample l;
      Returned (showEducationOf v st)
  | None => Returned st
  end.

Definition loadProjects (sample : Sample) (st : State) : Outcome State :=
  match s_projects sample with
  | Some l =>
      await v <- map_entries "title" proj_of_sample l;
      Returned (showProjectsOf v st)
  | None => Returned st
  end.

(** [parseDate] of [updateExp]: [d.split(/[-/]/)], two non-empty parts,
    month first; [null] is [None], a [Date] (valid or not) is [Some]. *)
Definition is_date_sep (c : ascii) : bool :=
  Ascii.eqb c "-"%char || Ascii.eqb c "/"%char.

Definition parseDate (d : string) : option JsDate.t :=
  match Js.split is_date_sep d with
  | [p0; p1] =>
      if Js.nonempty p0 && Js.nonempty p1 then
        Some (JsDate.make (JsDate.parseInt p1)
                (option_map (fun m => m - 1) (JsDate.parseInt p0)))
      else None
  | _ => None
  end.

(** [start && end && start > end]: a [Date] object is truthy, [null] is
    not. *)
Definition starts_after (start end_ : option JsDate.t) : bool :=
  match start, end_ with
  | Some s, Some e => JsDate.gt s e
  | _, _ => false
  end.

(** The entry the date branch checks: [{ ...newData[i], [field]: value }].
    Past the end of the array [newData[i]] is undefined and the entry has
    the edited field only; its other fields, undefined, are falsy as the
    empty strings of [emptyExp] are. *)
Definition edited (prev : list ExpEntry.t) (i : nat) (field : ExpEntry.key)
  (value : string) : ExpEntry.t :=
  ExpEntry.set field value (Js.nullish (prev !! i) emptyExp).

Section DateCheck.
Context {engine : Js.Engine}.

(** The condition under which the date branch alerts and returns [prev]. *)
Definition rejects (entry : ExpEntry.t) : bool :=
  Js.nonempty (ExpEntry.start_date entry)
  && Js.nonempty (ExpEntry.end_date entry)
  && negb (String.eqb (Js.toLowerCase (ExpEntry.end_date entry)) "present")
  && starts_after (parseDate (ExpEntry.start_date entry))
                  (parseDate (ExpEntry.end_date entry)).

(** [newData[i] = entry]: an assignment past the end extends the array;
    the holes it leaves are written as [emptyExp]. *)
Definition assign (i : nat) (entry : ExpEntry.t) (l : list ExpEntry.t)
  : list ExpEntry.t :=
  if (i <? length l)%nat then <[i := entry]> l
  else l ++ replicate (i - length l) emptyExp ++ [entry].

Definition updateExp (i : nat) (field : ExpEntry.key) (value : string)
  (st : State) : State :=
  if ExpEntry.is_date field then
    let prev := experience st in
    let entry := edited prev i field value in
    if rejects entry then alert "Start date cannot be after end date." st
    else setExperience (assign i entry prev) st
  else
    setExperience
      (imap (fun idx e => if (idx =? i)%nat then ExpEntry.set field value e
                          else e) (experience st)) st.

End DateCheck.

Definition setLoading (b : bool) (st : State) : State :=
  {| step := step st; loading := b;
     enhancingSection := enhancingSection st;
     fullName := fullName st; phone := phone st; email := email st;
     targetRole := targetRole st; jobDescription := jobDescription st;
     showEducation := showEducation st; showExperience := showExperience st;
     showProjects := showProjects st;
     education := education st; experience := experience st;
     projects := projects st;
     resumeData := resumeData st; atsScore := atsScore st;
     summary := summary st; skills := skills st; alerts := alerts st |}.

(** [setResumeData(rd); setAtsScore(res.ats_score); setSummary(rd.summary)]
    of [handleGenerate]. *)
Definition setGenerated (res : GenerateResponse) (st : State) : State :=
  {| step := step st; loading := loading st;
     enhancingSection := enhancingSection st;
     fullName := fullName st; phone := phone st; email := email st;
     targetRole := targetRole st; jobDescription := jobDescription st;
     showEducation := showEducation st; showExperience := showExperience st;
     showProjects := showProjects st;
     education := education st; experience := experience st;
     projects := projects st;
     resumeData := Some (resume_data res); atsScore := ats_score res;
     summary := ResumeData.summary (resume_data res);
     skills := skills st; alerts := alerts st |}.

Definition setStep (n : nat) (st : State) : State :=
  {| step := n; loading := loading st;
     enhancingSection := enhancingSection st;
     fullName := fullName st; phone := phone st; email := email st;
     targetRole := targetRole st; jobDescription := jobDescription st;
     showEducation := showEducation st; showExperience := showExperience st;
     showProjects := showProjects st;
     education := education st; experience := experience st;
     projects := projects st;
     resumeData := resumeData st; atsScore := atsScore st;
     summary := summary st; skills := skills st; alerts := alerts st |}.

Definition setEducation (v : list EduEntry.t) (st : State) : State :=
  {| step := step st; loading := loading st;
     enhancingSection := enhancingSection st;
     fullName := fullName st; phone := phone st; email := email st;
     targetRole := targetRole st; jobDescription := jobDescription st;
     showEducation := showEducation st; showExperience := showExperience st;
     showProjects := showProjects st;
     education := v; experience := experience st; projects := projects st;
     resumeData := resumeData st; atsScore := atsScore st;
     summary := summary st; skills := skills st; alerts := alerts st |}.

Definition setProjects (v : list ProjEntry.t) (st : State) : State :=
  {| step := step st; loading := loading st;
     enhancingSection := enhancingSection st;
     fullName := fullName st; phone := phone st; email := email st;
     targetRole := targetRole st; jobDescription := jobDescription st;
     showEducation := showEducation st; showExperience := showExperience st;
     showProjects := showProjects st;
     education := education st; experience := experience st; projects := v;
     resumeData := resumeData st; atsScore := atsScore st;
     summary := summary st; skills := skills st; alerts := alerts st |}.

Definition updateEdu (i : nat) (field : EduEntry.key) (value : string)
  (st : State) : State :=
  setEducation
    (imap (fun idx e => if (idx =? i)%nat then EduEntry.set field value e
                        else e) (education st)) st.

Definition updateProj (i : nat) (field : ProjEntry.key) (value : string)
  (st : State) : State :=
  setProjects
    (imap (fun idx p => if (idx =? i)%nat then ProjEntry.set field value p
                        else p) (projects st)) st.

(** [prev.filter((_, idx) => idx !== i)] of the three remove buttons. *)
Definition remove_at {A} (i : nat) (prev : list A) : list A :=
  Js.filter_index (fun idx => negb (idx =? i)%nat) 0 prev.

(** The remove button of an entry is rendered when the list has more than
    one entry. *)
Definition removable {A} (l : list A) : bool := (1 <? length l)%nat.

Definition removeEducation (i : nat) (st : State) : State :=
  setEducation (remove_at i (education st)) st.

Definition removeExperience (i : nat) (st : State) : State :=
  setExperience (remove_at i (experience st)) st.

Definition removeProject (i : nat) (st : State) : State :=
  setProjects (remove_at i (projects st)) st.

(** The add buttons: [[...prev, emptyEdu()]] and its siblings. *)
Definition addEducation (st : State) : State :=
  setEducation (education st ++ [emptyEdu]) st.

Definition addExperience (st : State) : State :=
  setExperience (experience st ++ [emptyExp]) st.

Definition addProject (st : State) : State :=
  setProjects (projects st ++ [emptyProj]) st.

(** [skills.split("\n").filter(Boolean)] of [handleDownload]. *)
Definition skills_lines (skills : string) : list string :=
  filter (fun s => Js.nonempty s = true) (Js.split Js.is_newline skills).

Section Handlers.
Variable fetch_generate : GenerateInput -> Outcome (Response GenerateResponse).
Variable fetch_enhance : EnhanceInput -> Outcome (Response EnhanceResponse).
Variable fetch_sample : Outcome (Response Sample).

Definition jobDescription_or_undefined (st : State) : option string :=
  if Js.nonempty (jobDescription st) then Some (jobDescription st) else None.

(** [loadSample] up to [await res.json()]. *)
Definition loadSample_try : Outcome Sample :=
  await res <- fetch_sample;
  if negb (ok res) then
    Thrown {| message := "Failed to load sample: " +:+ pretty (status res) |}
  else json res.

(** [loadSample]: once the payload is there the setters run in the order of
    the source; the [catch] alerts whatever is thrown and undoes nothing. *)
Definition loadSample (st : State) : State :=
  match loadSample_try with
  | Thrown e => alert ("Failed to load sample payload: " +:+ message e) st
  | Returned sample =>
      match run [ fun st => Returned (setContact sample st);
                  loadExperience sample;
                  loadEducation sample;
                  loadProjects sample ] st with
      | (st', None) => st'
      | (st', Some e) =>
          alert ("Failed to load sample payload: " +:+ message e) st'
      end
  end.

(** The argument of [generateResume] in [handleGenerate]. *)
Definition generate_input (st : State) : GenerateInput :=
  {| gi_full_name := fullName st;
     gi_phone := phone st;
     gi_email := email st;
     gi_linkedin := None;
     gi_location := None;
     gi_target_role := targetRole st;
     gi_job_description := jobDescription_or_undefined st;
     gi_existing_resume_text :=
       ExistingText.buildExistingResumeText
         (education st) (experience st) (projects st) |}.

(** [handleGenerate]: the request fails before any setter runs; once the
    answer is there, the setters up to [setSummary] have run when
    [rd.skills.join] throws on a missing skills list. *)
Definition handleGenerate (st : State) : State :=
  let st1 := setLoading true st in
  let st2 :=
    match generateResume fetch_generate (generate_input st1) with
    | Thrown e => alert ("Generation failed: " +:+ message e) st1
    | Returned res =>
        let st' := setGenerated res st1 in
        match ResumeData.skills (resume_data res) with
        | Some sk =>
            setStep 2 (setSkills (Some (Js.join (String "010"%char "") sk)) st')
        | None =>
            alert ("Generation failed: "
                   +:+ "Cannot read properties of undefined (reading 'join')")
              st'
        end
    end in
  setLoading false st2.

(** The [try] block of [handleEnhance]; the [catch] is empty. *)
Definition enhance_try (section content : string) (st : State)
  : Outcome State :=
  await res <- enhanceSection fetch_enhance section content (targetRole st)
                 (jobDescription_or_undefined st);
  let st := if String.eqb section "summary"
            then setSummary (enhanced_content res) st else st in
  let st := if String.eqb section "skills"
            then setSkills (enhanced_content res) st else st in
  Returned st.

Definition handleEnhance (section content : string) (st : State) : State :=
  let st1 := setEnhancingSection (Some section) st in
  let st2 :=
    match enhance_try section content st1 with
    | Returned st' => st'
    | Thrown _ => st1
    end in
  setEnhancingSection None st2.

End Handlers.
End CreatePage.

(** ** components/resume-preview.tsx *)

Module Preview.

(** The rendered tree: text, and elements with their tag, the [href] of an
    anchor and their children.  [className], [style], [id], [key], [target]
    and [rel] do not change what is shown and are left out. *)
#[local] Set Warnings "-register-all".
Inductive Node :=
| Text (s : string)
| Element (tag : string) (href : option string) (children : list Node).

Definition el (tag : string) (children : list Node) : Node :=
  Element tag None children.

(** [{cond && node}]: a falsy condition renders nothing. *)
Definition when (cond : bool) (n : Node) : list Node :=
  if cond then [n] else [].

(** [{v}] for a string that may be undefined. *)
Definition text_opt (v : option string) : list Node :=
  match v with
  | Some s => [Text s]
  | None => []
  end.

Definition en_dash : string := "–".

Record Props := {
  data : ResumeData.t;
  summaryOverride : option string;
  skillsOverride : option (list string);
}.

(** [exp.end_date || "Present"]. *)
Definition shown_end (exp : ExperienceEntry.t) : string :=
  Js.or_str (ExperienceEntry.end_date exp) "Present".

Definition render_experience (exp : ExperienceEntry.t) : Node :=
  el "div"
    [ el "div"
        [ el "span" [Text (ExperienceEntry.company exp)];
          el "span" (text_opt (ExperienceEntry.location exp)) ];
      el "div"
        [ el "span" [Text (ExperienceEntry.job_title exp)];
          el "span"
            [ Text (ExperienceEntry.start_date exp);
              Text (" " +:+ en_dash +:+ " ");
              Text (shown_end exp) ] ];
      el "ul"
        (map (fun r => el "li" [Text r])
           (ExperienceEntry.responsibilities exp)) ].

(** [proj.link && proj.link.startsWith("http")] as a condition. *)
Definition hasLink (proj : ProjectEntry.t) : bool :=
  Js.truthy (ProjectEntry.link proj)
  && Js.startsWith (Js.or_str (ProjectEntry.link proj) "") "http".

Definition techs (proj : ProjectEntry.t) : string :=
  Js.join ", " (Js.nullish (ProjectEntry.technologies proj) []).

Definition render_project (proj : ProjectEntry.t) : Node :=
  el "div"
    ([ el "div"
         (el "span" (text_opt (ProjectEntry.title proj))
          :: when (hasLink proj)
               (Element "a" (ProjectEntry.link proj) [Text "GitHub Link"])) ]
     ++ when (Js.nonempty (techs proj))
          (el "div" [Text "Technologies: "; Text (techs proj)])
     ++ when (Js.nonempty (ProjectEntry.description proj))
          (el "ul" [el "li" [Text (ProjectEntry.description proj)]])).

(** [skill.replace(/^[•●-]\s*/, "")]: a leading bullet and the white
    space after it are removed. *)
Definition strip_prefix (p s : string) : option string :=
  if String.prefix p s
  then Some (String.substring (String.length p)
               (String.length s - String.length p) s)
  else None.

Definition cleanSkill (skill : string) : string :=
  match strip_prefix "•" skill with
  | Some r => Js.trimStart r
  | None =>
      match strip_prefix "●" skill with
      | Some r => Js.trimStart r
      | None =>
          match strip_prefix "-" skill with
          | Some r => Js.trimStart r
          | None => skill
          end
      end
  end.

Definition render_education (edu : EducationEntry.t) : Node :=
  el "div"
    [ el "div"
        [ el "span" [Text (EducationEntry.institution edu)];
          el "span" (text_opt (EducationEntry.location edu)) ];
      el "div"
        [ el "span" [Text (EducationEntry.degree edu)];
          el "span" [Text (EducationEntry.graduation_date edu)] ] ].

Definition section (heading : string) (body : Node) : Node :=
  el "section" [el "h2" [Text heading]; body].

(** Reading the property [what] of a value that is missing throws; [absent]
    names the value in the message, "undefined" for a collection the resume
    does not have and "null" for a null entry of an array. *)
Definition defined {A} (absent what : string) (v : option A) : Outcome A :=
  match v with
  | Some a => Returned a
  | None =>
      Thrown {| message := "Cannot read properties of " +:+ absent
                           +:+ " (reading '" +:+ what +:+ "')" |}
  end.

(** Reading [what] of every entry of an array, in order. *)
Fixpoint all_defined {A} (what : string) (l : list (option A))
  : Outcome (list A) :=
  match l with
  | [] => Returned []
  | v :: r =>
      await a <- defined "null" what v;
      await r' <- all_defined what r;
      Returned (a :: r')
  end.

(** The component.  The entries of [experience] and [education] and the
    skills are typed as lib/types.ts declares them; what the component reads
    without a guard of the collections themselves, and of the entries of
    [projects], is read through [defined]. *)
Definition ResumePreview (props : Props) : Outcome Node :=
  let d := data props in
  let summary :=
    match summaryOverride props with
    | Some s => Some s
    | None => ResumeData.summary d
    end in
  let skillsList :=
    match skillsOverride props with
    | Some l => Some l
    | None => ResumeData.skills d
    end in
  await experience <- defined "undefined" "length" (ResumeData.experience d);
  await projects <- defined "undefined" "length" (ResumeData.projects d);
  await projects <- all_defined "link" projects;
  await education <- defined "undefined" "length" (ResumeData.education d);
  Returned (el "div"
    ([ el "h1" [Text (ResumeData.full_name d)];
       el "div"
         ([ el "span" [Text (ResumeData.phone d)] ]
          ++ when (Js.nonempty (ResumeData.email d))
               (el "span" [Text " | "; Text (ResumeData.email d)])
          ++ when (Js.truthy (ResumeData.linkedin d))
               (el "span"
                  [Text " | ";
                   Element "a" (ResumeData.linkedin d) [Text "LinkedIn"]])
          ++ when (Js.truthy (ResumeData.location d))
               (el "span" (Text " | " :: text_opt (ResumeData.location d)))) ]
     ++ when (Js.truthy summary)
          (section "Summary" (el "p" (text_opt summary)))
     ++ when (0 <? length experience)%nat
          (section "Experience" (el "div" (map render_experience experience)))
     ++ when (0 <? length projects)%nat
          (section "Projects" (el "div" (map render_project projects)))
     ++ when (0 <? length (Js.nullish skillsList []))%nat
          (section "Skills"
             (el "ul" (map (fun skill => el "li" [Text (cleanSkill skill)])
                         (Js.nullish skillsList []))))
     ++ when (0 <? length education)%nat
          (section "Education" (el "div" (map render_education education)))
     ++ when (0 <? length (Js.nullish (ResumeData.certifications d) []))%nat
          (section "Certifications"
             (el "ul" (map (fun cert => el "li" [Text cert])
                         (Js.nullish (ResumeData.certifications d) [])))))).

(** The anchors of a tree, by their [href]. *)
Fixpoint anchors (n : Node) : list (option string) :=
  match n with
  | Text _ => []
  | Element tag href children =>
      (if String.eqb tag "a" then [href] else [])
      ++ flat_map anchors children
  end.

(** The texts of a tree, in document order. *)
Fixpoint texts (n : Node) : list string :=
  match n with
  | Text s => [s]
  | Element _ _ children => flat_map texts children
  end.

Definition is_anchor (n : Node) : bool :=
  match n with
  | Element tag _ _ => String.eqb tag "a"
  | Text _ => false
  end.

(** The tree without its anchors. *)
Fixpoint without_anchors (n : Node) : Node :=
  match n with
  | Text s => Text s
  | Element tag href children =>
      Element tag href
        ((fix go (l : list Node) : list Node :=
            match l with
            | [] => []
            | c :: r =>
                if is_anchor c then go r else without_anchors c :: go r
            end) children)
  end.

End Preview.


(** ** components/ui/react-datepicker.tsx *)

Module DatePicker.

(** The date the picker holds, as the month (1 to 12) and the year of the
    selected month. *)
Record Selected := { month : Z; year : Z }.

Definition digit_char (d : Z) : ascii := ascii_of_N (Z.to_N (48 + d)).

Definition pad2 (n : Z) : string :=
  String (digit_char (n / 10 mod 10)) (String (digit_char (n mod 10)) "").

Definition pad4 (n : Z) : string :=
  String (digit_char (n / 1000 mod 10))
    (String (digit_char (n / 100 mod 10)) (pad2 n)).

(** [format(date, "MM/yyyy")] of date-fns, for a year of at most four
    digits: the month on two digits, a slash, the year on four. *)
Definition format (date : Selected) : string :=
  pad2 (month date) +:+ "/" +:+ pad4 (year date).

(** What the picker passes to [onChange]:
    [date ? format(date, "MM/yyyy") : ""]. *)
Definition changed (date : option Selected) : string :=
  match date with
  | Some d => format d
  | None => ""
  end.

(** The selection is a month of a year from 100 to 9999. *)
Definition plausible (date : Selected) : Prop :=
  1 <= month date <= 12 /\ 100 <= year date <= 9999.

(** [a] is a later month than [b]. *)
Definition later (a b : Selected) : Prop :=
  year b < year a \/ (year a = year b /\ month b < month a).

End DatePicker.

(** ** Downloads *)

Module Download.
Import Api.

Inductive Format := pdf | docx.

Definition extension (format : Format) : string :=
  match format with
  | pdf => "pdf"
  | docx => "docx"
  end.

(** What [fetch] on the download endpoint gives: the response, and the
    outcome of [res.blob()]. *)
Record Fetched := {
  response : Response unit;
  blob : Outcome string;
}.

(** What the handler hands to the browser: the anchor it clicks, with the
    blob behind its [href] and its [download] name. *)
Record Saved := {
  content : string;
  download : string;
}.

(** A page together with the [downloading] flag and the files saved so
    far. *)
Record Page (S : Type) := {
  page : S;
  downloading : bool;
  saved : list Saved;
}.
Arguments page {S} _.
Arguments downloading {S} _.
Arguments saved {S} _.

Section Backend.
Variable fetch_download : ResumeData.t -> Format -> Outcome Fetched.

Definition downloadResume (resumeData : ResumeData.t) (format : Format)
  : Outcome string :=
  await fetched <- fetch_download resumeData format;
  await res <- checkedFetch (Returned (response fetched));
  blob fetched.

(** [optimized || original]. *)
Definition optimize_data (st : OptimizePage.State) : option ResumeData.t :=
  match OptimizePage.optimized st with
  | Some d => Some d
  | None => OptimizePage.original st
  end.

Definition optimize_name (data : ResumeData.t) (format : Format) : string :=
  Js.underscore_spaces (ResumeData.full_name data)
  +:+ "_optimized." +:+ extension format.

(** [handleDownload] of the optimize page. *)
Definition handleDownload_optimize (format : Format)
  (st : Page OptimizePage.State) : Page OptimizePage.State :=
  match optimize_data (page st) with
  | None => st
  | Some data =>
      match downloadResume data format with
      | Returned b =>
          {| page := page st; downloading := false;
             saved := saved st
                      ++ [{| content := b;
                             download := optimize_name data format |}] |}
      | Thrown e =>
          {| page := OptimizePage.alert ("Download failed: " +:+ message e)
                       (page st);
             downloading := false; saved := saved st |}
      end
  end.

(** The object [handleDownload] of the create page sends: the generated
    resume with the summary and the skills of the two text areas.  Reading
    [split] of skills that are undefined throws. *)
Definition create_payload (rd : ResumeData.t) (st : CreatePage.State)
  : Outcome ResumeData.t :=
  match CreatePage.skills st with
  | Some sk =>
      Returned (ResumeData.with_skills (Some (CreatePage.skills_lines sk))
                  (ResumeData.with_summary (CreatePage.summary st) rd))
  | None =>
      Thrown {| message :=
                  "Cannot read properties of undefined (reading 'split')" |}
  end.

Definition create_name (st : CreatePage.State) (format : Format) : string :=
  Js.underscore_spaces (CreatePage.fullName st) +:+ "." +:+ extension format.

(** [handleDownload] of the create page. *)
Definition handleDownload_create (format : Format)
  (st : Page CreatePage.State) : Page CreatePage.State :=
  match CreatePage.resumeData (page st) with
  | None => st
  | Some rd =>
      match (await updated <- create_payload rd (page st);
             downloadResume updated format) with
      | Returned b =>
          {| page := page st; downloading := false;
             saved := saved st
                      ++ [{| content := b;
                             download := create_name (page st) format |}] |}
      | Thrown e =>
          {| page := CreatePage.alert ("Download failed: " +:+ message e)
                       (page st);
             downloading := false; saved := saved st |}
      end
  end.

End Backend.
End Download.

(** ** The chat page *)

Module ChatPage.
Import Api.

Inductive Role := user | assistant.

Record ChatMessage := {
  role : Role;
  content : string;
}.

Record State := {
  messages : list ChatMessage;
  input : string;
  jd : string;
  resumeContext : string;
  streaming : bool;
  showContext : bool;
}.

Record ChatInput := {
  ci_messages : list ChatMessage;
  ci_job_description : option string;
  ci_resume_context : option string;
}.

(** The body of a chat response as the reader delivers it: the chunks
    decoded before the stream is done, and the error of a [read] that
    rejects, if one does. *)
Record Reader := {
  chunks : list string;
  broken : option Error;
}.

(** What [fetch] on the chat endpoint gives: the response and its body,
    which may be missing ([res.body?.getReader()]). *)
Record Fetched := {
  response : Response unit;
  body : option Reader;
}.

(** A run of the generator [chatStream]: what it yields, and the error it
    throws instead of returning, if it does. *)
Record Stream := {
  yielded : list string;
  thrown : option Error;
}.

Definition sorry : ChatMessage :=
  {| role := assistant;
     content := "Sorry, something went wrong. Please try again." |}.

Section Backend.
Variable fetch_chat : ChatInput -> Outcome Fetched.

Definition chatStream (messages : list ChatMessage)
  (jobDescription resumeContext : option string) : Stream :=
  match (await fetched <- fetch_chat
                 {| ci_messages := messages;
                    ci_job_description := jobDescription;
                    ci_resume_context := resumeContext |};
         await res <- checkedFetch (Returned (response fetched));
         Returned (body fetched)) with
  | Thrown e => {| yielded := []; thrown := Some e |}
  | Returned None => {| yielded := []; thrown := None |}
  | Returned (Some reader) =>
      {| yielded := chunks reader; thrown := broken reader |}
  end.

Definition or_undefined (s : string) : option string :=
  if Js.nonempty s then Some s else None.

(** The messages once the loop over the stream has ended: the answer
    accumulated from the chunks, or the apology when the stream threw. *)
Definition answered (newMessages : list ChatMessage) (stream : Stream)
  : list ChatMessage :=
  match thrown stream with
  | Some _ => newMessages ++ [sorry]
  | None =>
      newMessages
      ++ [{| role := assistant;
             content := fold_left String.append (yielded stream) "" |}]
  end.

Definition sendMessage (text : string) (st : State) : State :=
  if negb (Js.nonempty (Js.trim text)) || streaming st then st
  else
    let userMsg := {| role := user; content := Js.trim text |} in
    let newMessages := (messages st ++ [userMsg])%list in
    {| messages :=
         answered newMessages
           (chatStream newMessages (or_undefined (jd st))
              (or_undefined (resumeContext st)));
       input := "";
       jd := jd st;
       resumeContext := resumeContext st;
       streaming := false;
       showContext := false |}.

End Backend.
End ChatPage.

(** * Vocabulary of the properties *)

(** The project has a non-empty title. *)
Definition titled (p : ProjectEntry.t) : bool :=
  Js.truthy (ProjectEntry.title p).

Section Titles.
Context {engine : Js.Engine}.

(** Case-insensitive equality of two titles: they are equal once lowered by
    [toLowerCase], a missing title counting as the empty one. *)
Definition same_title (p q : ProjectEntry.t) : Prop :=
  Js.toLowerCase (match ProjectEntry.title p with Some t => t | None => "" end)
  = Js.toLowerCase (match ProjectEntry.title q with Some t => t | None => "" end).

(** The project has a link (one that is there and not empty). *)
Definition linked (p : ProjectEntry.t) : bool :=
  Js.truthy (ProjectEntry.link p).

(** [o] is the last project of [ps] that has a non-empty title equal to
    the title of [p], case-insensitively. *)
Definition last_match (ps : list ProjectEntry.t) (o p : ProjectEntry.t)
  : Prop :=
  exists before after,
    ps = (before ++ o :: after)%list
    /\ titled o = true
    /\ same_title o p
    /\ (forall q, In q after -> titled q = true -> ~ same_title q p).

End Titles.

(** Every title of the projects is ASCII text. *)
Definition ascii_titles (ps : option (list (option ProjectEntry.t))) : Prop :=
  forall l p,
    ps = Some l -> In (Some p) l ->
    Js.ascii_text (match ProjectEntry.title p with Some t => t | None => "" end)
    = true.

(** The second entry is the first with, at most, a link filled in where it
    had none. *)
Definition only_link_filled (r m : option ProjectEntry.t) : Prop :=
  match r, m with
  | None, None => True
  | Some p, Some q =>
      ProjectEntry.title q = ProjectEntry.title p
      /\ ProjectEntry.description q = ProjectEntry.description p
      /\ ProjectEntry.technologies q = ProjectEntry.technologies p
      /\ (linked p = true -> q = p)
      /\ (linked q = false -> q = p)
  | _, _ => False
  end.

(** The list a form holds after an array of the payload has been taken:
    the entries of the array, converted, when the payload has the array, and
    the list the form had otherwise. *)
Definition taken {A B} (convert : A -> B) (array : option (list A))
  (held : list B) : list B :=
  match array with
  | Some l => map convert l
  | None => held
  end.


(** The text "API <status> <statusText>: <body>" for a response, with the
    placeholder "<unreadable response>" for a body that cannot be read. *)
Definition failure_text {A} (res : Api.Response A) : string :=
  "API " +:+ pretty (Api.status res) +:+ " " +:+ Api.statusText res +:+ ": "
  +:+ match Api.text res with
      | Returned body => body
      | Thrown _ => "<unreadable response>"
      end.

(** The five collections of a resume are arrays, not null or undefined. *)
Definition collections_present (r : ResumeData.t) : Prop :=
  is_Some (ResumeData.skills r)
  /\ is_Some (ResumeData.experience r)
  /\ is_Some (ResumeData.education r)
  /\ is_Some (ResumeData.projects r)
  /\ is_Some (ResumeData.certifications r).

(** Every subtree of a rendered tree, the tree itself first. *)
Fixpoint descendants (n : Preview.Node) : list Preview.Node :=
  n :: match n with
       | Preview.Text _ => []
       | Preview.Element _ _ children => flat_map descendants children
       end.

(** The section headings of a rendered tree, in document order. *)
Fixpoint headings (n : Preview.Node) : list string :=
  match n with
  | Preview.Text _ => []
  | Preview.Element tag _ children =>
      (if String.eqb tag "h2" then flat_map Preview.texts children else [])
      ++ flat_map headings children
  end.

(** No character of [s] satisfies [f]. *)
Fixpoint free_of (f : ascii -> bool) (s : string) : Prop :=
  match s with
  | EmptyString => True
  | String c r => f c = false /\ free_of f r
  end.

(** The string of the bytes with the codes [l]. *)
Definition bytes (l : list Z) : string :=
  fold_right (fun n s => String (ascii_of_nat (Z.to_nat n)) s) EmptyString l.

(** The white-space characters of ECMAScript, each as its UTF-8 encoding:
    U+0009 to U+000D, U+0020, U+00A0, U+1680, U+2000 to U+200A, U+2028,
    U+2029, U+202F, U+205F, U+3000 and U+FEFF. *)
Definition white_space : list string :=
  [ bytes [9]; bytes [10]; bytes [11]; bytes [12]; bytes [13]; bytes [32];
    bytes [194; 160];
    bytes [225; 154; 128];
    bytes [226; 128; 128]; bytes [226; 128; 129]; bytes [226; 128; 130];
    bytes [226; 128; 131]; bytes [226; 128; 132]; bytes [226; 128; 133];
    bytes [226; 128; 134]; bytes [226; 128; 135]; bytes [226; 128; 136];
    bytes [226; 128; 137]; bytes [226; 128; 138];
    bytes [226; 128; 168]; bytes [226; 128; 169]; bytes [226; 128; 175];
    bytes [226; 129; 159];
    bytes [227; 128; 128];
    bytes [239; 187; 191] ].

(** [s] starts with a white-space character. *)
Definition starts_white (s : string) : Prop :=
  exists w rest, In w white_space /\ s = w +:+ rest.

(** [s] ends with a white-space character. *)
Definition ends_white (s : string) : Prop :=
  exists w rest, In w white_space /\ s = rest +:+ w.

(** [s] has neither leading nor trailing white space. *)
Definition trimmed (s : string) : Prop :=
  ~ starts_white s /\ ~ ends_white s.

(** No white-space character occurs in [s]. *)
Definition spaceless (s : string) : Prop :=
  forall pre w post, In w white_space -> s <> pre +:+ w +:+ post.

(** [s] has no line feed. *)
Definition no_newline (s : string) : Prop := free_of Js.is_newline s.

(** [s] has neither [/] nor [-]. *)
Definition unseparated (s : string) : Prop :=
  free_of CreatePage.is_date_sep s.

(** The byte continues a character of more than one byte. *)
Definition continues (c : ascii) : bool :=
  ((128 <=? Js.code c) && (Js.code c <? 192))%nat.

(** [s] starts with a byte that continues a character. *)
Definition head_continues (s : string) : bool :=
  match s with
  | EmptyString => false
  | String c _ => continues c
  end.

(** [s] consists of white-space characters only. *)
Inductive blank : string -> Prop :=
| blank_empty : blank ""
| blank_more w s : In w white_space -> blank s -> blank (w +:+ s).

(** [t] is [s] without its leading and trailing white space. *)
Definition stripped (s t : string) : Prop :=
  exists before after,
    blank before /\ blank after /\ trimmed t
    /\ s = before +:+ t +:+ after.

(** [s] is one line: it is not empty and has no line feed. *)
Definition one_line (s : string) : Prop :=
  s <> "" /\ no_newline s.

(** The character of the decimal digit [d]. *)
Definition digit (d : Z) : ascii := ascii_of_nat (Z.to_nat (48 + d)).

(** The decimal numeral with the digits [ds], the most significant first,
    and the number it writes. *)
Definition numeral (ds : list Z) : string :=
  fold_right (fun d s => String (digit d) s) EmptyString ds.

Definition number (ds : list Z) : Z :=
  fold_left (fun n d => 10 * n + d) ds 0.

(** [ds] are the digits of a numeral: at least one, each from 0 to 9. *)
Definition decimal (ds : list Z) : Prop :=
  ds <> [] /\ Forall (fun d => 0 <= d <= 9) ds.

(** [s] writes the month [m] and the year [y] in digits, the month first,
    around a slash or a hyphen: "05/2021", "5-2021". *)
Definition month_year (s : string) (m y : Z) : Prop :=
  exists ms ys sep,
    (sep = "/" \/ sep = "-") /\ decimal ms /\ decimal ys
    /\ number ms = m /\ number ys = y
    /\ s = numeral ms +:+ sep +:+ numeral ys.

(** A month of a year from 100 on that a [Date] can hold. *)
Definition dated (m y : Z) : Prop :=
  1 <= m <= 12 /\ 100 <= y <= 275759.



(** * Sample data *)

Module Sample.

Definition project (title : string) (link : option string) : ProjectEntry.t :=
  {| ProjectEntry.title := Some title;
     ProjectEntry.description := "A small web application.";
     ProjectEntry.technologies := Some ["TypeScript"; "React"];
     ProjectEntry.link := link |}.

Definition resume (linkedin location : option string)
  (projects : list (option ProjectEntry.t)) : ResumeData.t :=
  {| ResumeData.full_name := "Ada Lovelace";
     ResumeData.phone := "555-0100";
     ResumeData.email := "ada@example.com";
     ResumeData.linkedin := linkedin;
     ResumeData.location := location;
     ResumeData.target_role := "Software Engineer";
     ResumeData.summary := Some "Engineer with an eye for detail.";
     ResumeData.skills := Some ["TypeScript"; "Rocq"];
     ResumeData.experience := Some [];
     ResumeData.education := Some [];
     ResumeData.projects := Some projects;
     ResumeData.certifications := Some [] |}.

Definition repo : option string := Some "https://github.com/ada/portfolio".
Definition fork : option string := Some "https://github.com/ada/portfolio-2".
Definition elsewhere : option string := Some "https://example.com/portfolio".

(** Two originals share a title; the later one has no link. *)
Definition original_shadowed : ResumeData.t :=
  resume (Some "https://linkedin.com/in/ada") (Some "London")
    [Some (project "Portfolio" repo); Some (project "portfolio" None)].

(** Two originals share a title; both have a link. *)
Definition original_twice : ResumeData.t :=
  resume (Some "https://linkedin.com/in/ada") (Some "London")
    [Some (project "Portfolio" repo); Some (project "PORTFOLIO" fork)].

Definition original_once : ResumeData.t :=
  resume (Some "https://linkedin.com/in/ada") (Some "London")
    [Some (project "Portfolio" repo)].

(** A rewrite that dropped the contact fields and the project link. *)
Definition rewrite_dropped : ResumeData.t :=
  resume None (Some "") [Some (project "portfolio" None)].

(** A rewrite that changed the project link. *)
Definition rewrite_altered : ResumeData.t :=
  resume None None [Some (project "Portfolio" elsewhere)].

Definition ok_response {A} (body : A) : Api.Response A :=
  {| Api.ok := true; Api.status := 200%N; Api.statusText := "OK";
     Api.text := Returned ""; Api.json := Returned body |}.

Definition error_response (A : Type) : Api.Response A :=
  {| Api.ok := false; Api.status := 500%N;
     Api.statusText := "Internal Server Error";
     Api.text := Returned "model unavailable";
     Api.json := Thrown {| message := "Unexpected token" |} |}.

Definition stringify (r : ResumeData.t) : string := ResumeData.full_name r.

Definition backend_answers (rewritten : ResumeData.t)
  : Api.GenerateInput -> Outcome (Api.Response GenerateResponse) :=
  fun _ => Returned (ok_response {| resume_data := rewritten;
                                    ats_score := None |}).

Definition backend_fails (A : Type) {I : Type}
  : I -> Outcome (Api.Response A) :=
  fun _ => Returned (error_response A).

Definition enhance_answers (content : string)
  : Api.EnhanceInput -> Outcome (Api.Response EnhanceResponse) :=
  fun _ => Returned (ok_response {| enhanced_content := Some content |}).

Definition optimize_state (orig : ResumeData.t) : OptimizePage.State :=
  {| OptimizePage.jd := "TypeScript engineer";
     OptimizePage.optimizing := false;
     OptimizePage.enhancingSection := None;
     OptimizePage.original := Some orig;
     OptimizePage.optimized := None;
     OptimizePage.optimizedScore := None;
     OptimizePage.alerts := [] |}.

Definition job (start_date end_date : string) : ExpEntry.t :=
  {| ExpEntry.job_title := "Engineer"; ExpEntry.company := "Analytical Engines";
     ExpEntry.location := "London"; ExpEntry.start_date := start_date;
     ExpEntry.end_date := end_date;
     ExpEntry.responsibilities := "Built the difference engine." |}.

Definition create_state (experience : list ExpEntry.t) : CreatePage.State :=
  CreatePage.setExperience experience CreatePage.initial.

Definition position (end_date : option string) : ExperienceEntry.t :=
  {| ExperienceEntry.job_title := "Engineer";
     ExperienceEntry.company := "Analytical Engines";
     ExperienceEntry.location := Some "London";
     ExperienceEntry.start_date := "01/2020";
     ExperienceEntry.end_date := end_date;
     ExperienceEntry.responsibilities := ["Built the difference engine."] |}.

Definition bare_link : option string := Some "github.com/ada/portfolio".

Definition preview_props : Preview.Props :=
  {| Preview.data :=
       {| ResumeData.full_name := "Ada Lovelace";
          ResumeData.phone := "555-0100";
          ResumeData.email := "ada@example.com";
          ResumeData.linkedin := Some "https://linkedin.com/in/ada";
          ResumeData.location := Some "London";
          ResumeData.target_role := "Software Engineer";
          ResumeData.summary := Some "Engineer with an eye for detail.";
          ResumeData.skills := Some ["TypeScript"; "Rocq"];
          ResumeData.experience := Some [position None];
          ResumeData.education := Some [];
          ResumeData.projects := Some [Some (project "Portfolio" bare_link)];
          ResumeData.certifications := None |};
     Preview.summaryOverride := None;
     Preview.skillsOverride := None |}.

(** A sample payload whose experience array holds a null entry. *)
Definition payload_with_null : CreatePage.Sample :=
  {| CreatePage.s_full_name := Some "Ada Lovelace";
     CreatePage.s_phone := Some "555-0100";
     CreatePage.s_email := None;
     CreatePage.s_target_role := Some "Software Engineer";
     CreatePage.s_experience := Some [None];
     CreatePage.s_education := None;
     CreatePage.s_projects := None |}.

(** A generated resume whose skills are missing. *)
Definition resume_without_skills : ResumeData.t :=
  ResumeData.with_skills None (resume None None []).

Definition line_feed : string := String "010"%char "".

Definition chat_state : ChatPage.State :=
  {| ChatPage.messages := [];
     ChatPage.input := "How do I quantify my achievements?";
     ChatPage.jd := ""; ChatPage.resumeContext := "";
     ChatPage.streaming := false; ChatPage.showContext := true |}.

(** A chat backend whose stream breaks after two chunks. *)
Definition chat_breaks : ChatPage.ChatInput -> Outcome ChatPage.Fetched :=
  fun _ => Returned
    {| ChatPage.response := ok_response tt;
       ChatPage.body :=
         Some {| ChatPage.chunks := ["Use "; "numbers"];
                 ChatPage.broken :=
                   Some {| message := "network error" |} |} |}.

(** A chat backend that streams its answer in two chunks. *)
Definition chat_answers : ChatPage.ChatInput -> Outcome ChatPage.Fetched :=
  fun _ => Returned
    {| ChatPage.response := ok_response tt;
       ChatPage.body :=
         Some {| ChatPage.chunks := ["Use "; "numbers."];
                 ChatPage.broken := None |} |}.

End Sample.

(** * Reconciliation of the rewrite with the original *)

Section Reconciliation.
Import OptimizePage.
Context {engine : Js.Engine}.

Lemma or_str_empty (v : option string) :
  Js.or_str v "" = match v with Some t => t | None => "" end.
Proof.
  destruct v as [t|]; [|reflexivity].
  unfold Js.or_str, Js.nonempty.
  now destruct (String.eqb_spec t "") as [->|_].
Qed.

(** Two titles are the same exactly when the projects have the same key in
    the title map. *)
Lemma same_title_key p q : same_title p q <-> key p = key q.
Proof. unfold same_title, key. now rewrite !or_str_empty. Qed.

Lemma lookup_map {A B} (f : A -> B) (l : list A) (i : nat) :
  map f l !! i = option_map f (l !! i).
Proof.
  revert i; induction l as [|a l IH]; intros [|i]; simpl; auto.
Qed.

Lemma byTitle_from_foldl (ps : list ProjectEntry.t) :
  forall m, byTitle_from m (map Some ps) = Returned (foldl byTitle_set m ps).
Proof.
  induction ps as [|p ps IH]; intros m; simpl; [reflexivity|apply IH].
Qed.

Lemma byTitle_set_other (m : gmap string ProjectEntry.t) q k :
  (titled q = true -> key q <> k) ->
  byTitle_set m q !! k = m !! k.
Proof.
  intros Hq. unfold byTitle_set. fold (titled q).
  destruct (titled q) eqn:E; [|reflexivity].
  apply lookup_insert_ne. auto.
Qed.

Lemma foldl_set_other (qs : list ProjectEntry.t) k :
  (forall q, In q qs -> titled q = true -> key q <> k) ->
  forall m : gmap string ProjectEntry.t,
    foldl byTitle_set m qs !! k = m !! k.
Proof.
  induction qs as [|q qs IH]; intros Hqs m; simpl; [reflexivity|].
  rewrite IH by (intros; apply Hqs; simpl; auto).
  apply byTitle_set_other. apply Hqs. simpl; auto.
Qed.

(** The map holds, under the title of [p], the last titled original with
    that title. *)
Lemma byTitle_last_match ps o p :
  last_match ps o p ->
  exists m, byTitle (map Some ps) = Returned m /\ m !! key p = Some o.
Proof.
  intros (before & after & -> & Ht & Hk & Hafter).
  apply same_title_key in Hk.
  exists (foldl byTitle_set ∅ (before ++ o :: after)). split.
  - apply byTitle_from_foldl.
  - rewrite foldl_app. simpl.
    rewrite foldl_set_other
      by (intros q Hq Htq Hkq; now apply (Hafter q Hq Htq), same_title_key).
    unfold byTitle_set. fold (titled o). rewrite Ht.
    rewrite Hk. apply lookup_insert_eq.
Qed.

(** What [merge_back] returns when no entry of the original is null. *)
Lemma merge_back_projects orig rewritten ps rps :
  ResumeData.projects orig = Some (map Some ps) ->
  ResumeData.projects rewritten = Some rps ->
  exists m merged,
    byTitle (map Some ps) = Returned m
    /\ merge_back orig rewritten = Returned merged
    /\ ResumeData.projects merged = Some (map (patch m) rps).
Proof.
  intros Ho Hr.
  exists (foldl byTitle_set ∅ ps). eexists. split; [apply byTitle_from_foldl|].
  unfold merge_back. simpl. rewrite Ho, Hr.
  unfold byTitle. rewrite byTitle_from_foldl. simpl. split; reflexivity.
Qed.

Lemma patch_key m p p' : patch m (Some p) = Some p' -> key p' = key p.
Proof.
  unfold patch. destruct (m !! key p) as [o|]; [|congruence].
  destruct (_ && _); intros [= <-]; reflexivity.
Qed.

Lemma patch_found m p o :
  m !! key p = Some o ->
  patch m (Some p)
  = Some (if negb (linked p) && linked o
          then ProjectEntry.with_link (ProjectEntry.link o) p else p).
Proof.
  intros H. unfold patch, linked. rewrite H.
  destruct (_ && _); reflexivity.
Qed.

End Reconciliation.

Section ReconciliationClaims.
Import OptimizePage.
Context {engine : Js.Engine}.

(** C1 (amended): when no entry of the original's projects is null, the
    reconciliation completes, and every rewritten project whose own link is
    empty is patched with the link of the last original that has a non-empty
    title equal to its title case-insensitively, provided that original has a
    link; consequently the merged result contains no project with an empty
    link where that last title-matched original had one.  Titles are
    compared as the engine's [toLowerCase] lowers them, whatever their
    characters. *)
Theorem reconciliation_patches_empty_links orig rewritten ps rps :
  ResumeData.projects orig = Some (map Some ps) ->
  ResumeData.projects rewritten = Some rps ->
  exists merged mps,
    merge_back orig rewritten = Returned merged
    /\ ResumeData.projects merged = Some mps
    /\ (forall i p o,
          rps !! i = Some (Some p) -> linked p = false ->
          last_match ps o p -> linked o = true ->
          mps !! i
          = Some (Some (ProjectEntry.with_link (ProjectEntry.link o) p)))
    /\ (forall m o,
          In (Some m) mps -> last_match ps o m -> linked o = true ->
          linked m = true).
Proof.
  intros Ho Hr.
  destruct (merge_back_projects _ _ _ _ Ho Hr) as (bt & merged & Hbt & Hm & Hp).
  exists merged, (map (patch bt) rps). repeat split; try assumption.
  - intros i p o Hi Hlp Hlast Hlo.
    destruct (byTitle_last_match _ _ _ Hlast) as (bt' & Hbt' & Hlk).
    rewrite Hbt in Hbt'. injection Hbt' as <-.
    rewrite lookup_map, Hi. cbn [option_map].
    rewrite (patch_found _ _ _ Hlk), Hlp, Hlo. reflexivity.
  - intros m o Hin Hlast Hlo.
    apply in_map_iff in Hin as ([p|] & Hpatch & _); [|discriminate].
    pose proof (patch_key _ _ _ Hpatch) as Hkey.
    assert (Hlast' : last_match ps o p).
    { destruct Hlast as (b & a & E & Ht & Hs & Ha).
      exists b, a. repeat split; auto.
      - apply same_title_key. apply same_title_key in Hs. congruence.
      - intros q Hq Htq Hsq. apply (Ha q Hq Htq).
        apply same_title_key. apply same_title_key in Hsq. congruence. }
    destruct (byTitle_last_match _ _ _ Hlast') as (bt' & Hbt' & Hlk).
    rewrite Hbt in Hbt'. injection Hbt' as <-.
    rewrite (patch_found _ _ _ Hlk), Hlo in Hpatch.
    injection Hpatch as <-.
    destruct (linked p) eqn:E; simpl; [exact E|exact Hlo].
Qed.

(** C3 (amended): when two or more originals have titles equal
    case-insensitively to that of a rewritten project with an empty link,
    the link patched in is taken from the last of them (last match wins);
    when the last of them has no link, nothing is patched in. *)
Theorem duplicate_titles_last_wins orig rewritten
  before earlier between last after rps i p :
  ResumeData.projects orig
  = Some (map Some (before ++ earlier :: between ++ last :: after)) ->
  titled earlier = true -> same_title earlier p ->
  titled last = true -> same_title last p ->
  (forall q, In q after -> titled q = true -> ~ same_title q p) ->
  ResumeData.projects rewritten = Some rps ->
  rps !! i = Some (Some p) ->
  linked p = false ->
  exists merged mps,
    merge_back orig rewritten = Returned merged
    /\ ResumeData.projects merged = Some mps
    /\ mps !! i
       = Some (Some (if linked last
                     then ProjectEntry.with_link (ProjectEntry.link last) p
                     else p)).
Proof.
  intros Ho _ _ Htl Hsl Hafter Hr Hi Hlp.
  destruct (merge_back_projects _ _ _ _ Ho Hr) as (bt & merged & Hbt & Hm & Hp).
  exists merged, (map (patch bt) rps). repeat split; try assumption.
  assert (Hlast : last_match (before ++ earlier :: between ++ last :: after)
                    last p).
  { exists (before ++ earlier :: between)%list, after.
    rewrite <- app_assoc. simpl. repeat split; auto. }
  destruct (byTitle_last_match _ _ _ Hlast) as (bt' & Hbt' & Hlk).
  rewrite Hbt in Hbt'. injection Hbt' as <-.
  rewrite lookup_map, Hi. cbn [option_map].
  rewrite (patch_found _ _ _ Hlk), Hlp. reflexivity.
Qed.

End ReconciliationClaims.

(** ** ASCII titles

    On titles that are ASCII text every engine lowers alike, so the
    reconciliation of such resumes is the same on every engine: the examples
    below, which are run on [Js.ascii_engine], hold as they are on any. *)

Section AsciiTitles.
Import OptimizePage.
Context {engine : Js.Engine}.

Lemma key_ascii p :
  Js.ascii_text (match ProjectEntry.title p with Some t => t | None => "" end)
  = true ->
  key p = @key Js.ascii_engine p.
Proof.
  intros H. unfold key, Js.or_str. apply Js.toLowerCase_ascii.
  destruct (ProjectEntry.title p) as [t|]; [|reflexivity].
  now destruct (Js.nonempty t).
Qed.

Lemma byTitle_from_ascii ps :
  ascii_titles (Some ps) ->
  forall m, byTitle_from m ps = @byTitle_from Js.ascii_engine m ps.
Proof.
  induction ps as [|[p|] ps IH]; intros H m; [reflexivity| |reflexivity].
  cbn [byTitle_from]. unfold byTitle_set.
  rewrite (key_ascii p) by (apply (H (Some p :: ps)); [reflexivity|now left]).
  apply IH. intros l q [= <-] Hq. apply (H (Some p :: ps)); [reflexivity|].
  now right.
Qed.

Lemma patch_ascii m ps :
  ascii_titles (Some ps) ->
  map (patch m) ps = map (@patch Js.ascii_engine m) ps.
Proof.
  intros H. apply map_ext_in. intros [p|] Hp; [|reflexivity].
  unfold patch. now rewrite (key_ascii p) by (apply (H ps); [reflexivity|exact Hp]).
Qed.

Lemma merge_back_ascii orig rewritten :
  ascii_titles (ResumeData.projects orig) ->
  ascii_titles (ResumeData.projects rewritten) ->
  merge_back orig rewritten = @merge_back Js.ascii_engine orig rewritten.
Proof.
  intros Ho Hr. unfold merge_back.
  cbn [ResumeData.with_contact ResumeData.projects].
  destruct (ResumeData.projects orig) as [ops|]; [|reflexivity].
  destruct (ResumeData.projects rewritten) as [rps|]; [|reflexivity].
  unfold byTitle. rewrite (byTitle_from_ascii ops Ho).
  destruct (@byTitle_from Js.ascii_engine ∅ ops) as [m|e]; [|reflexivity].
  cbn [bind]. now rewrite (patch_ascii m rps Hr).
Qed.

End AsciiTitles.

Section ReconciliationExamples.
Import OptimizePage.
#[local] Existing Instance Js.ascii_engine.

(** C1 (as stated, refuted): two originals share the title "Portfolio"
    case-insensitively, the first has a link and the second has none; the
    rewritten project of that title, its link dropped, stays without a link
    although a title-matched original had one. *)
Lemma shadowed_link_stays_dropped :
  exists merged m o,
    merge_back Sample.original_shadowed Sample.rewrite_dropped = Returned merged
    /\ In (Some m) (Js.nullish (ResumeData.projects merged) [])
    /\ In (Some o)
         (Js.nullish (ResumeData.projects Sample.original_shadowed) [])
    /\ same_title m o
    /\ linked o = true
    /\ linked m = false.
Proof.
  eexists. exists (Sample.project "portfolio" None).
  exists (Sample.project "Portfolio" Sample.repo).
  split; [vm_compute; reflexivity|].
  repeat split; simpl; auto.
Qed.

Lemma reconciliation_patches_empty_links_witness :
  exists merged mps,
    merge_back Sample.original_once Sample.rewrite_dropped = Returned merged
    /\ ResumeData.projects merged = Some mps
    /\ mps !! 0%nat = Some (Some (Sample.project "portfolio" Sample.repo)).
Proof.
  destruct (reconciliation_patches_empty_links
              Sample.original_once Sample.rewrite_dropped
              [Sample.project "Portfolio" Sample.repo]
              [Some (Sample.project "portfolio" None)]
              eq_refl eq_refl)
    as (merged & mps & Hm & Hp & Hpatch & _).
  exists merged, mps. repeat split; try assumption.
  apply (Hpatch 0%nat (Sample.project "portfolio" None)
           (Sample.project "Portfolio" Sample.repo));
    try reflexivity.
  exists [], []. repeat split; simpl; auto; intros q [].
Defined.

(** C3 (as stated, refuted): of two originals titled "Portfolio" and
    "PORTFOLIO", both with a link, the rewritten project receives the link of
    the second, not of the first. *)
Lemma second_of_two_titles_is_taken :
  exists merged patched,
    merge_back Sample.original_twice Sample.rewrite_dropped = Returned merged
    /\ ResumeData.projects merged = Some [Some patched]
    /\ ProjectEntry.link patched = Sample.fork
    /\ ProjectEntry.link patched <> Sample.repo.
Proof.
  eexists. exists (Sample.project "portfolio" Sample.fork).
  split; [vm_compute; reflexivity|].
  repeat split. discriminate.
Qed.

Lemma duplicate_titles_last_wins_witness :
  exists merged mps,
    merge_back Sample.original_twice Sample.rewrite_dropped = Returned merged
    /\ ResumeData.projects merged = Some mps
    /\ mps !! 0%nat = Some (Some (Sample.project "portfolio" Sample.fork)).
Proof.
  apply (duplicate_titles_last_wins
           Sample.original_twice Sample.rewrite_dropped
           [] (Sample.project "Portfolio" Sample.repo) []
           (Sample.project "PORTFOLIO" Sample.fork) []
           [Some (Sample.project "portfolio" None)] 0
           (Sample.project "portfolio" None));
    try reflexivity.
  intros q [].
Defined.

End ReconciliationExamples.

(** * Strings *)

Lemma append_String (c : ascii) (a b : string) :
  String c a +:+ b = String c (a +:+ b).
Proof. reflexivity. Qed.

Lemma append_empty (b : string) : "" +:+ b = b.
Proof. reflexivity. Qed.

Lemma append_assoc (a b c : string) : (a +:+ b) +:+ c = a +:+ (b +:+ c).
Proof.
  induction a as [|x a IH]; [reflexivity|].
  change (String x ((a +:+ b) +:+ c) = String x (a +:+ b +:+ c)).
  now rewrite IH.
Qed.


Lemma prefix_append (p s : string) :
  String.prefix p s = true <-> exists rest, s = p +:+ rest.
Proof.
  revert s; induction p as [|c p IH]; intros [|d s].
  - split; [exists ""; reflexivity|reflexivity].
  - split; [exists (String d s); reflexivity|reflexivity].
  - split; [discriminate|intros [rest H]; discriminate].
  - change (String.prefix (String c p) (String d s))
      with (if ascii_dec c d then String.prefix p s else false).
    destruct (ascii_dec c d) as [->|Hne].
    + rewrite IH. split; intros [rest H]; exists rest.
      * change (String d s = String d (p +:+ rest)). now rewrite H.
      * change (String d s = String d (p +:+ rest)) in H. now injection H.
    + split; [discriminate|]. intros [rest H].
      change (String d s = String c (p +:+ rest)) in H.
      injection H as -> _. now contradiction Hne.
Qed.

(** * White space *)

Lemma append_nil_r (s : string) : s +:+ "" = s.
Proof.
  induction s as [|c s IH]; [reflexivity|].
  rewrite append_String. now rewrite IH.
Qed.

Lemma code_ascii a n : Js.code a = n -> a = ascii_of_nat n.
Proof. intros <-. unfold Js.code. now rewrite ascii_nat_embedding. Qed.

Ltac bool_facts :=
  repeat match goal with
  | H : (_ && _) = true |- _ => apply andb_prop in H; destruct H
  | H : (_ || _) = true |- _ => apply orb_prop in H; destruct H
  | H : (_ =? _)%nat = true |- _ => apply Nat.eqb_eq in H
  | H : (_ <=? _)%nat = true |- _ => apply Nat.leb_le in H
  end.

Ltac known_bytes :=
  repeat match goal with
  | H : Js.code ?a = _ |- _ => apply code_ascii in H; subst a
  end.

Ltac is_white :=
  unfold white_space; solve [repeat (first [left; reflexivity | right])].

Section WhiteSpace.

Lemma trimStart_eq s :
  Js.trimStart s
  = match Js.leading_space s with
    | Some r => Js.trimStart r
    | None => s
    end.
Proof.
  destruct s as [|a [|b [|c r3]]];
    cbn [Js.trimStart Js.leading_space]; try reflexivity.
  - destruct (Js.space1 a); reflexivity.
  - destruct (Js.space1 a); [reflexivity|].
    destruct (Js.space2 a b); reflexivity.
  - destruct (Js.space1 a); [reflexivity|].
    destruct (Js.space2 a b); [reflexivity|].
    destruct (Js.space3 a b c); reflexivity.
Qed.

Lemma underscore_from_eq in_run s :
  Js.underscore_from in_run s
  = match s with
    | EmptyString => EmptyString
    | String a r1 =>
        match Js.leading_space s with
        | Some r => Js.mark in_run (Js.underscore_from true r)
        | None => String a (Js.underscore_from false r1)
        end
    end.
Proof.
  destruct s as [|a [|b [|c r3]]];
    cbn [Js.underscore_from Js.leading_space]; try reflexivity.
  - destruct (Js.space1 a); reflexivity.
  - destruct (Js.space1 a); [reflexivity|].
    destruct (Js.space2 a b); reflexivity.
  - destruct (Js.space1 a); [reflexivity|].
    destruct (Js.space2 a b); [reflexivity|].
    destruct (Js.space3 a b c); reflexivity.
Qed.

(** The white-space characters are what [leading_space] recognizes. *)
Lemma leading_space_white w r :
  In w white_space -> Js.leading_space (w +:+ r) = Some r.
Proof.
  intros H. unfold white_space in H.
  repeat (destruct H as [<-|H]; [reflexivity|]). destruct H.
Qed.

Lemma space1_white a : Js.space1 a = true -> In (String a "") white_space.
Proof.
  unfold Js.space1. intros H. bool_facts.
  - assert (Hn : (Js.code a = 9 \/ Js.code a = 10 \/ Js.code a = 11
                  \/ Js.code a = 12 \/ Js.code a = 13)%nat) by lia.
    destruct Hn as [Hn|[Hn|[Hn|[Hn|Hn]]]]; known_bytes; is_white.
  - known_bytes; is_white.
Qed.

Lemma space2_white a b :
  Js.space2 a b = true -> In (String a (String b "")) white_space.
Proof. unfold Js.space2. intros H. bool_facts. known_bytes. is_white. Qed.

Lemma space3_white a b c :
  Js.space3 a b c = true ->
  In (String a (String b (String c ""))) white_space.
Proof.
  unfold Js.space3. intros H. bool_facts; try (known_bytes; is_white).
  assert (Hn : (Js.code c = 128 \/ Js.code c = 129 \/ Js.code c = 130
                \/ Js.code c = 131 \/ Js.code c = 132 \/ Js.code c = 133
                \/ Js.code c = 134 \/ Js.code c = 135 \/ Js.code c = 136
                \/ Js.code c = 137 \/ Js.code c = 138)%nat) by lia.
  destruct Hn as [Hn|[Hn|[Hn|[Hn|[Hn|[Hn|[Hn|[Hn|[Hn|[Hn|Hn]]]]]]]]]];
    known_bytes; is_white.
Qed.

Lemma leading_space_Some s r :
  Js.leading_space s = Some r ->
  exists w, In w white_space /\ s = w +:+ r.
Proof.
  destruct s as [|a r1]; [discriminate|]. cbn [Js.leading_space].
  destruct (Js.space1 a) eqn:H1.
  { intros [= <-]. exists (String a ""). auto using space1_white. }
  destruct r1 as [|b r2]; [discriminate|].
  destruct (Js.space2 a b) eqn:H2.
  { intros [= <-]. exists (String a (String b "")). auto using space2_white. }
  destruct r2 as [|c r3]; [discriminate|].
  destruct (Js.space3 a b c) eqn:H3; [|discriminate].
  intros [= <-]. exists (String a (String b (String c ""))).
  auto using space3_white.
Qed.

Lemma starts_white_leading s :
  starts_white s <-> exists r, Js.leading_space s = Some r.
Proof.
  split.
  - intros (w & r & Hw & ->). exists r. now apply leading_space_white.
  - intros [r H]. destruct (leading_space_Some _ _ H) as (w & Hw & ->).
    now exists w, r.
Qed.

Lemma not_starts_white s : ~ starts_white s <-> Js.leading_space s = None.
Proof.
  rewrite starts_white_leading. destruct (Js.leading_space s) as [r|].
  - split; [intros H; contradiction H; eauto|discriminate].
  - split; [reflexivity|intros _ [r H]; discriminate].
Qed.


Lemma white_nonempty w : In w white_space -> w <> "".
Proof.
  intros H. unfold white_space in H.
  repeat (destruct H as [<-|H]; [discriminate|]). destruct H.
Qed.

Lemma length_append (p s : string) :
  String.length (p +:+ s) = (String.length p + String.length s)%nat.
Proof.
  induction p as [|c p IH]; [reflexivity|].
  rewrite append_String. cbn [String.length]. now rewrite IH.
Qed.

Lemma white_shorter w r : In w white_space ->
  (String.length r < String.length (w +:+ r))%nat.
Proof.
  intros H. rewrite length_append.
  destruct w as [|a w]; [now apply white_nonempty in H|].
  cbn [String.length]. lia.
Qed.

Lemma trimStart_white w s :
  In w white_space -> Js.trimStart (w +:+ s) = Js.trimStart s.
Proof.
  intros H. now rewrite trimStart_eq, (leading_space_white w s H).
Qed.

Lemma trimStart_blank_append (ws s : string) :
  blank ws -> Js.trimStart (ws +:+ s) = Js.trimStart s.
Proof.
  induction 1 as [|w a Hw _ IH]; [reflexivity|].
  now rewrite append_assoc, trimStart_white.
Qed.

Lemma trimStart_blank (s : string) : blank s -> Js.trimStart s = "".
Proof.
  intros H. rewrite <- (append_nil_r s). now rewrite trimStart_blank_append.
Qed.

Lemma trimStart_fixed s : ~ starts_white s -> Js.trimStart s = s.
Proof.
  intros H. apply not_starts_white in H. now rewrite trimStart_eq, H.
Qed.

Lemma trimStart_steps n :
  forall s, (String.length s <= n)%nat ->
    Js.leading_space (Js.trimStart s) = None
    /\ exists ws, blank ws /\ s = ws +:+ Js.trimStart s.
Proof.
  induction n as [|n IH]; intros s Hn.
  - destruct s; [|cbn in Hn; lia]. split; [reflexivity|].
    exists "". split; [constructor|reflexivity].
  - rewrite trimStart_eq.
    destruct (Js.leading_space s) as [r|] eqn:E.
    + destruct (leading_space_Some _ _ E) as (w & Hw & ->).
      pose proof (white_shorter w r Hw) as Hlt.
      destruct (IH r ltac:(lia)) as (Hnone & ws & Hws & Hr).
      split; [exact Hnone|].
      exists (w +:+ ws). split; [now constructor|].
      rewrite append_assoc. now rewrite <- Hr.
    + split; [exact E|]. exists "". split; [constructor|reflexivity].
Qed.

Lemma trimStart_unstarted s : Js.leading_space (Js.trimStart s) = None.
Proof. apply (trimStart_steps (String.length s) s). lia. Qed.

Lemma trimStart_split s :
  exists ws, blank ws /\ s = ws +:+ Js.trimStart s.
Proof. apply (trimStart_steps (String.length s) s). lia. Qed.

Lemma trimStart_nil_blank s : Js.trimStart s = "" -> blank s.
Proof.
  intros H. destruct (trimStart_split s) as (ws & Hws & Hs).
  rewrite H, append_nil_r in Hs. now subst.
Qed.

Lemma trimStart_idem s : Js.trimStart (Js.trimStart s) = Js.trimStart s.
Proof. now rewrite trimStart_eq, trimStart_unstarted. Qed.

Lemma trimEnd_nil s :
  Js.trimEnd s = "" <-> Js.trimStart s = "".
Proof.
  destruct s as [|a r]; [split; reflexivity|].
  cbn [Js.trimEnd].
  destruct (String.eqb_spec (Js.trimStart (String a r)) "") as [E|E].
  - split; [intros _; exact E|reflexivity].
  - split; [discriminate|intros H; contradiction].
Qed.

(** [trim] gives the empty string exactly on the strings of white space. *)
Lemma trim_nil s : Js.trim s = "" <-> blank s.
Proof.
  unfold Js.trim. rewrite trimEnd_nil, trimStart_idem. split.
  - apply trimStart_nil_blank.
  - apply trimStart_blank.
Qed.

Lemma nonempty_false s : Js.nonempty s = false <-> s = "".
Proof.
  unfold Js.nonempty.
  destruct (String.eqb_spec s ""); cbn; split; congruence.
Qed.

Lemma nonempty_true s : Js.nonempty s = true <-> s <> "".
Proof.
  unfold Js.nonempty.
  destruct (String.eqb_spec s ""); cbn; split; congruence.
Qed.

(** Bytes of the white-space characters: the first never continues a
    character, the others all do. *)
Lemma space1_head a : Js.space1 a = true -> continues a = false.
Proof.
  unfold Js.space1, continues. intros H. bool_facts.
  - replace (128 <=? Js.code a)%nat with false; [reflexivity|].
    symmetry. apply Nat.leb_gt. lia.
  - rewrite H. reflexivity.
Qed.

Lemma space2_bytes a b :
  Js.space2 a b = true -> continues a = false /\ continues b = true.
Proof.
  unfold Js.space2, continues. intros H. bool_facts. rewrite H, H0.
  split; reflexivity.
Qed.

Lemma space3_bytes a b c :
  Js.space3 a b c = true ->
  continues a = false /\ continues b = true /\ continues c = true.
Proof.
  unfold Js.space3, continues. intros H.
  bool_facts;
    repeat match goal with
    | H : Js.code _ = _ |- _ => rewrite H
    end;
    repeat split; try reflexivity;
    apply andb_true_intro; split;
      [apply Nat.leb_le; lia|apply Nat.ltb_lt; lia].
Qed.

Lemma leading_space_head s r :
  Js.leading_space s = Some r -> head_continues s = false.
Proof.
  destruct s as [|a r1]; [discriminate|]. cbn [Js.leading_space head_continues].
  destruct (Js.space1 a) eqn:H1; [intros _; now apply space1_head|].
  destruct r1 as [|b r2]; [discriminate|].
  destruct (Js.space2 a b) eqn:H2; [intros _; now apply space2_bytes in H2|].
  destruct r2 as [|c r3]; [discriminate|].
  destruct (Js.space3 a b c) eqn:H3; [|discriminate].
  intros _. now apply space3_bytes in H3.
Qed.

Lemma blank_head s : blank s -> head_continues s = false.
Proof.
  destruct 1 as [|w r Hw _]; [reflexivity|].
  now apply (leading_space_head _ r), leading_space_white.
Qed.

(** What follows a string that does not start with white space cannot
    make it start with white space, unless it starts in the middle of a
    character. *)
Lemma leading_space_append x y :
  Js.leading_space x = None -> x <> "" -> head_continues y = false ->
  Js.leading_space (x +:+ y) = None.
Proof.
  intros Hx Hne Hy. destruct x as [|a x]; [contradiction|].
  rewrite append_String. cbn [Js.leading_space] in *.
  destruct (Js.space1 a); [discriminate|].
  destruct x as [|b x].
  - rewrite append_empty. destruct y as [|c y]; [reflexivity|].
    cbn [head_continues] in Hy.
    destruct (Js.space2 a c) eqn:H2;
      [apply space2_bytes in H2; destruct H2; congruence|].
    destruct y as [|d y]; [reflexivity|].
    destruct (Js.space3 a c d) eqn:H3; [|reflexivity].
    apply space3_bytes in H3. destruct H3 as (_ & ? & _). congruence.
  - rewrite append_String. destruct (Js.space2 a b); [discriminate|].
    destruct x as [|c x].
    + rewrite append_empty. destruct y as [|d y]; [reflexivity|].
      cbn [head_continues] in Hy.
      destruct (Js.space3 a b d) eqn:H3; [|reflexivity].
      apply space3_bytes in H3. destruct H3 as (_ & _ & ?). congruence.
    + rewrite append_String. now destruct (Js.space3 a b c).
Qed.

Lemma append_nil (a b : string) : a +:+ b = "" -> a = "" /\ b = "".
Proof.
  destruct a; [rewrite append_empty; now intros ->|].
  rewrite append_String. discriminate.
Qed.

(** Two ways of cutting the same string: one cut is within the first part
    of the other. *)
Lemma append_split (w s x b : string) :
  w +:+ s = x +:+ b ->
  (exists x', x = w +:+ x' /\ s = x' +:+ b)
  \/ (exists y, y <> "" /\ w = x +:+ y /\ b = y +:+ s).
Proof.
  revert x; induction w as [|c w IH]; intros x H.
  - left. exists x. split; [reflexivity|exact H].
  - destruct x as [|d x].
    + right. exists (String c w). repeat split; [discriminate|].
      now rewrite append_empty in H.
    + rewrite !append_String in H. injection H as <- H.
      destruct (IH x H) as [(x' & -> & ->)|(y & Hy & -> & ->)].
      * left. exists x'. split; reflexivity.
      * right. exists y. repeat split; assumption.
Qed.

(** The bytes of a white-space character after the first continue it. *)
Lemma white_tail w x y :
  In w white_space -> w = x +:+ y -> x <> "" -> y <> "" ->
  head_continues y = true.
Proof.
  intros Hw -> Hx Hy.
  assert (Hl : Js.leading_space ((x +:+ y) +:+ "") = Some "")
    by now apply leading_space_white.
  rewrite append_nil_r in Hl. clear Hw.
  destruct x as [|a x]; [contradiction|]. rewrite append_String in Hl.
  cbn [Js.leading_space] in Hl.
  destruct (Js.space1 a).
  { injection Hl as Hl. apply append_nil in Hl as [_ ->]. contradiction. }
  destruct x as [|b x].
  - rewrite append_empty in Hl. destruct y as [|c y]; [contradiction|].
    cbn [head_continues].
    destruct (Js.space2 a c) eqn:H2; [now apply space2_bytes in H2|].
    destruct y as [|d y]; [discriminate|].
    destruct (Js.space3 a c d) eqn:H3; [|discriminate].
    now apply space3_bytes in H3.
  - rewrite append_String in Hl.
    destruct (Js.space2 a b).
    { injection Hl as Hl. apply append_nil in Hl as [_ ->]. contradiction. }
    destruct x as [|c x].
    + rewrite append_empty in Hl. destruct y as [|d y]; [contradiction|].
      cbn [head_continues].
      destruct (Js.space3 a b d) eqn:H3; [|discriminate].
      now apply space3_bytes in H3.
    + rewrite append_String in Hl.
      destruct (Js.space3 a b c); [|discriminate].
      injection Hl as Hl. apply append_nil in Hl as [_ ->]. contradiction.
Qed.

Lemma blank_append a b : blank a -> blank b -> blank (a +:+ b).
Proof.
  induction 1 as [|w a Hw _ IH]; intros Hb; [exact Hb|].
  rewrite append_assoc. constructor; auto.
Qed.

(** What is left of a string of white space when a string of white space
    is taken off its end is a string of white space. *)
Lemma blank_prefix x b : blank (x +:+ b) -> blank b -> blank x.
Proof.
  intros H Hb. remember (x +:+ b) as t eqn:Ht.
  revert x Ht. induction H as [|w s Hw Hs IH]; intros x Ht.
  - symmetry in Ht. apply append_nil in Ht as [-> _]. constructor.
  - destruct (append_split _ _ _ _ Ht) as [(x' & -> & ->)|(y & Hy & -> & Hby)].
    + constructor; [exact Hw|]. now apply IH.
    + destruct x as [|c x]; [constructor|].
      assert (Hc : head_continues y = true)
        by (apply (white_tail _ (String c x) y Hw eq_refl);
            [discriminate|exact Hy]).
      pose proof (blank_head b Hb) as Hh. rewrite Hby in Hh.
      destruct y as [|d y]; [contradiction|].
      rewrite append_String in Hh. cbn [head_continues] in *. congruence.
Qed.

Lemma blank_ends x : blank x -> x = "" \/ ends_white x.
Proof.
  induction 1 as [|w s Hw Hs IH]; [now left|]. right.
  destruct IH as [->|(w' & r & Hw' & ->)].
  - exists w, "". split; [exact Hw|]. now rewrite append_nil_r.
  - exists w', (w +:+ r). split; [exact Hw'|]. now rewrite append_assoc.
Qed.

Lemma trimEnd_blank b : blank b -> Js.trimEnd b = "".
Proof. intros H. apply trimEnd_nil. now apply trimStart_blank. Qed.

Lemma trimEnd_spec s b :
  ~ ends_white s -> blank b -> Js.trimEnd (s +:+ b) = s.
Proof.
  intros Hs Hb. induction s as [|a r IH]; [now apply trimEnd_blank|].
  rewrite append_String. cbn [Js.trimEnd]. rewrite <- append_String.
  destruct (String.eqb_spec (Js.trimStart (String a r +:+ b)) "") as [E|_].
  - apply trimStart_nil_blank in E.
    destruct (blank_ends _ (blank_prefix _ _ E Hb)) as [?|?];
      [discriminate|contradiction].
  - f_equal. apply IH. intros (w & rest & Hw & ->).
    apply Hs. exists w, (String a rest). split; [exact Hw|reflexivity].
Qed.

(** [trim] takes off the white space around a string that neither starts
    nor ends with white space. *)
Lemma trim_spec a s b :
  blank a -> blank b -> trimmed s -> Js.trim (a +:+ s +:+ b) = s.
Proof.
  intros Ha Hb [Hs He]. unfold Js.trim.
  rewrite trimStart_blank_append by assumption.
  destruct s as [|c s].
  - rewrite append_empty, (trimStart_blank b Hb). reflexivity.
  - rewrite trimStart_fixed; [now apply trimEnd_spec|].
    apply not_starts_white. apply leading_space_append.
    + now apply not_starts_white.
    + discriminate.
    + now apply blank_head.
Qed.

Lemma trim_trimmed s : trimmed s -> Js.trim s = s.
Proof.
  intros H. rewrite <- (append_nil_r s) at 1.
  now apply (trim_spec "" s ""); [constructor|constructor|].
Qed.

Lemma trimEnd_split s :
  exists b, blank b /\ s = Js.trimEnd s +:+ b /\ ~ ends_white (Js.trimEnd s).
Proof.
  induction s as [|a r (b & Hb & Hr & He)].
  - exists "". split; [constructor|]. split; [reflexivity|].
    intros (w & rest & Hw & H). symmetry in H.
    apply append_nil in H as [_ ->]. now apply (white_nonempty "").
  - cbn [Js.trimEnd].
    destruct (String.eqb_spec (Js.trimStart (String a r)) "") as [E|E].
    + exists (String a r). split; [now apply trimStart_nil_blank|].
      split; [reflexivity|].
      intros (w & rest & Hw & H). symmetry in H.
      apply append_nil in H as [_ ->]. now apply (white_nonempty "").
    + exists b. split; [exact Hb|]. split.
      * rewrite append_String. now rewrite <- Hr.
      * intros (w & rest & Hw & H). destruct rest as [|c rest].
        -- rewrite append_empty in H. apply E, trimStart_blank.
           rewrite Hr, <- append_String, H. apply blank_append; [|exact Hb].
           rewrite <- (append_nil_r w). constructor; [exact Hw|constructor].
        -- rewrite append_String in H. injection H as _ H.
           apply He. now exists w, rest.
Qed.

Lemma trim_stripped s : stripped s (Js.trim s).
Proof.
  destruct (trimStart_split s) as (a & Ha & Hs).
  destruct (trimEnd_split (Js.trimStart s)) as (b & Hb & Ht & He).
  exists a, b. split; [exact Ha|]. split; [exact Hb|]. split.
  - split; [|exact He]. intros (w & rest & Hw & H).
    pose proof (trimStart_unstarted s) as Hu. apply not_starts_white in Hu.
    apply Hu. exists w, (rest +:+ b). split; [exact Hw|].
    rewrite Ht. unfold Js.trim in H. rewrite H. now rewrite append_assoc.
  - unfold Js.trim. now rewrite <- Ht.
Qed.

Lemma stripped_trim s t : stripped s t -> t = Js.trim s.
Proof.
  intros (a & b & Ha & Hb & Ht & ->). symmetry. now apply trim_spec.
Qed.

(** ** Strings without white space *)

Lemma spaceless_nil : spaceless "".
Proof.
  intros pre w post Hw H. symmetry in H.
  apply append_nil in H as [_ H]. apply append_nil in H as [H _].
  now apply white_nonempty in Hw.
Qed.

Lemma spaceless_cons a r :
  spaceless (String a r) <-> ~ starts_white (String a r) /\ spaceless r.
Proof.
  split.
  - intros H. split.
    + intros (w & rest & Hw & E). now apply (H "" w rest Hw).
    + intros pre w post Hw ->. now apply (H (String a pre) w post Hw).
  - intros [Hs Hr] pre w post Hw E. destruct pre as [|c pre].
    + apply Hs. now exists w, post.
    + rewrite append_String in E. injection E as _ E.
      now apply (Hr pre w post Hw).
Qed.

Lemma underscore_from_same (s : string) :
  spaceless s -> Js.underscore_from false s = s.
Proof.
  induction s as [|a r IH]; intros Hs; [reflexivity|].
  apply spaceless_cons in Hs as [Hh Hr]. apply not_starts_white in Hh.
  rewrite underscore_from_eq, Hh. now rewrite IH.
Qed.

Lemma space2_lead a b : Js.space2 a b = true -> Js.is_ascii a = false.
Proof.
  unfold Js.space2, Js.is_ascii. intros H. bool_facts. now rewrite H.
Qed.

Lemma space3_lead a b c : Js.space3 a b c = true -> Js.is_ascii a = false.
Proof.
  unfold Js.space3, Js.is_ascii. intros H.
  bool_facts;
    match goal with H : Js.code a = _ |- _ => now rewrite H end.
Qed.

(** An ASCII character that is not white space starts no white space. *)
Lemma leading_space_ascii a r :
  Js.is_ascii a = true -> Js.space1 a = false ->
  Js.leading_space (String a r) = None.
Proof.
  intros Ha H1. cbn [Js.leading_space]. rewrite H1.
  destruct r as [|b r]; [reflexivity|].
  destruct (Js.space2 a b) eqn:H2;
    [apply space2_lead in H2; congruence|].
  destruct r as [|c r]; [reflexivity|].
  destruct (Js.space3 a b c) eqn:H3; [|reflexivity].
  apply space3_lead in H3. congruence.
Qed.

Lemma ascii_head_continues a r :
  Js.is_ascii a = true -> head_continues (String a r) = false.
Proof.
  unfold Js.is_ascii. intros Ha. apply Nat.ltb_lt in Ha.
  cbn. unfold continues.
  replace (128 <=? Js.code a)%nat with false; [reflexivity|].
  symmetry. apply Nat.leb_gt. lia.
Qed.

(** A white-space character of more than one byte is broken by an
    underscore in its place of a byte. *)
Lemma leading_space_underscore a r1 :
  Js.leading_space (String a r1) = None ->
  Js.leading_space (String a (Js.underscore_from false r1)) = None.
Proof.
  intros H.
  assert (Hu : forall x, head_continues (String "_"%char x) = false)
    by reflexivity.
  cbn [Js.leading_space] in *.
  destruct (Js.space1 a); [discriminate|].
  rewrite underscore_from_eq.
  destruct r1 as [|b r2]; [reflexivity|].
  destruct (Js.leading_space (String b r2)) as [x|] eqn:E1.
  - cbn [Js.mark].
    destruct (Js.space2 a "_"%char) eqn:H2;
      [apply space2_bytes in H2 as [_ H2]; discriminate|].
    destruct (Js.underscore_from true x) as [|c y]; [reflexivity|].
    destruct (Js.space3 a "_"%char c) eqn:H3; [|reflexivity].
    apply space3_bytes in H3 as (_ & H3 & _). discriminate.
  - destruct (Js.space2 a b); [discriminate|].
    rewrite underscore_from_eq.
    destruct r2 as [|c r3]; [reflexivity|].
    destruct (Js.leading_space (String c r3)) as [x|] eqn:E2.
    + cbn [Js.mark].
      destruct (Js.space3 a b "_"%char) eqn:H3; [|reflexivity].
      apply space3_bytes in H3 as (_ & _ & H3). discriminate.
    + destruct (Js.space3 a b c); [discriminate|reflexivity].
Qed.

Lemma underscore_from_steps n :
  forall s in_run, (String.length s <= n)%nat ->
    spaceless (Js.underscore_from in_run s).
Proof.
  induction n as [|n IH]; intros s in_run Hn.
  - destruct s; [apply spaceless_nil|cbn in Hn; lia].
  - rewrite underscore_from_eq. destruct s as [|a r1]; [apply spaceless_nil|].
    destruct (Js.leading_space (String a r1)) as [r|] eqn:E.
    + destruct (leading_space_Some _ _ E) as (w & Hw & Hs).
      pose proof (white_shorter w r Hw) as Hlt. rewrite <- Hs in Hlt.
      assert (Hr : spaceless (Js.underscore_from true r))
        by (apply IH; lia).
      destruct in_run; [exact Hr|]. cbn [Js.mark].
      apply spaceless_cons. split; [|exact Hr].
      apply not_starts_white. now apply leading_space_ascii.
    + apply spaceless_cons. split.
      * apply not_starts_white. now apply leading_space_underscore.
      * apply IH. cbn [String.length] in Hn. lia.
Qed.

(** The result of [replace(/\s+/g, "_")] has no white space. *)
Lemma underscore_from_spaceless s in_run :
  spaceless (Js.underscore_from in_run s).
Proof. apply (underscore_from_steps (String.length s)). lia. Qed.

(** Appending a string that starts with a character of ASCII brings in no
    white space between the two. *)
Lemma spaceless_append x y :
  spaceless x -> spaceless y -> head_continues y = false ->
  spaceless (x +:+ y).
Proof.
  intros Hx Hy Hh. induction x as [|a x IH]; [exact Hy|].
  apply spaceless_cons in Hx as [Hs Hx].
  rewrite append_String. apply spaceless_cons. split; [|now apply IH].
  apply not_starts_white. rewrite <- append_String.
  apply leading_space_append; [now apply not_starts_white|discriminate|exact Hh].
Qed.

End WhiteSpace.

Ltac no_white_space :=
  repeat (apply spaceless_cons; split;
          [apply not_starts_white; reflexivity|]);
  apply spaceless_nil.

(** * Lines: split, join and filter *)

Section Lines.

Lemma rev_app_rev_app (x y z : string) :
  String.rev_app (String.rev_app x y) z = String.rev_app y (x +:+ z).
Proof.
  revert y; induction x as [|c x IH]; intros y; [reflexivity|].
  cbn [String.rev_app]. rewrite IH. reflexivity.
Qed.

Lemma rev_rev_app (x : string) : String.rev (String.rev_app x "") = x.
Proof.
  unfold String.rev. rewrite rev_app_rev_app. cbn [String.rev_app].
  apply append_nil_r.
Qed.

Lemma split_acc_free f (x s cur : string) :
  free_of f x ->
  Js.split_acc f cur (x +:+ s) = Js.split_acc f (String.rev_app x cur) s.
Proof.
  revert cur; induction x as [|c x IH]; intros cur Hx; [reflexivity|].
  destruct Hx as [Hc Hx]. rewrite append_String.
  cbn [Js.split_acc String.rev_app]. rewrite Hc. now apply IH.
Qed.

Lemma split_free f (x : string) : free_of f x -> Js.split f x = [x].
Proof.
  intros Hx. unfold Js.split.
  rewrite <- (append_nil_r x) at 1. rewrite split_acc_free by assumption.
  cbn [Js.split_acc]. now rewrite rev_rev_app.
Qed.

Lemma split_acc_line (x s cur : string) :
  no_newline x ->
  Js.split_acc Js.is_newline cur (x +:+ s)
  = Js.split_acc Js.is_newline (String.rev_app x cur) s.
Proof. apply split_acc_free. Qed.

Lemma split_one_line (x : string) :
  no_newline x -> Js.split Js.is_newline x = [x].
Proof. apply split_free. Qed.

Lemma split_first_line (x rest : string) :
  no_newline x ->
  Js.split Js.is_newline (x +:+ Sample.line_feed +:+ rest)
  = x :: Js.split Js.is_newline rest.
Proof.
  intros Hx. unfold Js.split. rewrite split_acc_line by assumption.
  unfold Sample.line_feed. rewrite append_String, append_empty.
  cbn [Js.split_acc]. change (Js.is_newline "010") with true. cbn iota.
  now rewrite rev_rev_app.
Qed.

(** [join] is the concatenation with a separator of the standard
    library. *)
Lemma join_concat sep (l : list string) : Js.join sep l = String.concat sep l.
Proof.
  induction l as [|x [|y l] IH]; [reflexivity|reflexivity|].
  change (Js.join sep (x :: y :: l)) with (x +:+ sep +:+ Js.join sep (y :: l)).
  now rewrite IH.
Qed.

(** Splitting the lines joined by line feeds gives the lines back. *)
Lemma split_join (l : list string) :
  Forall no_newline l -> l <> [] ->
  Js.split Js.is_newline (Js.join Sample.line_feed l) = l.
Proof.
  induction l as [|x l IH]; intros Hl Hne; [contradiction|].
  apply Forall_cons in Hl as [Hx Hl].
  destruct l as [|y l]; [now apply split_one_line|].
  change (Js.join Sample.line_feed (x :: y :: l))
    with (x +:+ Sample.line_feed +:+ Js.join Sample.line_feed (y :: l)).
  rewrite split_first_line by assumption. f_equal.
  apply IH; [assumption|discriminate].
Qed.

Lemma filter_nonempty_all (l : list string) :
  Forall (fun s => s <> "") l ->
  filter (fun s => Js.nonempty s = true) l = l.
Proof.
  induction 1 as [|x l Hx _ IH]; [reflexivity|].
  rewrite filter_cons_True, IH; [reflexivity|].
  unfold Js.nonempty. now destruct (String.eqb_spec x "").
Qed.

(** The lines of the text that joins them are the lines themselves. *)
Lemma lines_of_joined (l : list string) :
  Forall one_line l ->
  filter (fun s => Js.nonempty s = true)
    (Js.split Js.is_newline (Js.join Sample.line_feed l)) = l.
Proof.
  intros Hl. destruct l as [|x l]; [reflexivity|].
  rewrite split_join; [|eapply Forall_impl; [exact Hl|now intros ? []]
                        |discriminate].
  apply filter_nonempty_all. eapply Forall_impl; [exact Hl|now intros ? []].
Qed.

End Lines.

(** * The optimize handler *)

Section OptimizeClaims.
Import OptimizePage Api.
Context {engine : Js.Engine}.
Variable JSON_stringify : ResumeData.t -> string.
Variable fetch_generate : GenerateInput -> Outcome (Response GenerateResponse).

Lemma handleOptimize_success st orig res merged :
  original st = Some orig ->
  generateResume fetch_generate (optimize_input JSON_stringify orig (jd st))
  = Returned res ->
  merge_back orig (resume_data res) = Returned merged ->
  handleOptimize JSON_stringify fetch_generate st
  = setOptimizing false
      (setOptimizedScore (ats_score res)
         (setOptimized (Some merged) (setOptimizing true st))).
Proof.
  intros Ho Hg Hm. unfold handleOptimize, optimize_try. rewrite Ho.
  cbn [jd setOptimizing]. rewrite Hg. cbn [bind]. rewrite Hm. reflexivity.
Qed.


Lemma merge_back_total orig rewritten :
  (forall ops, ResumeData.projects orig = Some ops ->
               exists ps, ops = map Some ps) ->
  exists merged, merge_back orig rewritten = Returned merged.
Proof.
  intros Hwf. unfold merge_back.
  destruct (ResumeData.projects orig) as [ops|]; [|eauto].
  destruct (Hwf ops eq_refl) as [ps ->].
  destruct (ResumeData.projects (ResumeData.with_contact _ _ rewritten));
    [|eauto].
  unfold byTitle. rewrite byTitle_from_foldl. cbn [bind]. eauto.
Qed.

Lemma merge_back_contact orig rewritten merged :
  merge_back orig rewritten = Returned merged ->
  ResumeData.linkedin merged
  = Some (Js.or_str (Js.or (ResumeData.linkedin rewritten)
                           (ResumeData.linkedin orig)) "")
  /\ ResumeData.location merged
     = Some (Js.or_str (Js.or (ResumeData.location rewritten)
                              (ResumeData.location orig)) "").
Proof.
  unfold merge_back.
  destruct (ResumeData.projects orig) as [ops|];
    [|intros [= <-]; split; reflexivity].
  destruct (ResumeData.projects (ResumeData.with_contact _ _ rewritten));
    [|intros [= <-]; split; reflexivity].
  destruct (byTitle ops); cbn [bind]; [|discriminate].
  intros [= <-]; split; reflexivity.
Qed.

Lemma patch_linked m p : linked p = true -> patch m (Some p) = Some p.
Proof.
  intros H. unfold patch. fold (linked p). rewrite H.
  destruct (m !! key p); reflexivity.
Qed.

(** C2 (amended): for every optimize invocation whose generation call
    succeeds, on an original without null project entries, a result is
    stored in which a linkedin or location the rewrite dropped (absent or
    empty) is the original's value (the empty string when the original has
    none), and the dropped link of a rewritten project is the link of the
    last original with the same non-empty title case-insensitively when that
    original has one; a project that comes back with a link, changed or not,
    is kept as rewritten. *)
Theorem optimize_restores_dropped_fields st orig res :
  original st = Some orig ->
  generateResume fetch_generate (optimize_input JSON_stringify orig (jd st))
  = Returned res ->
  (forall ops, ResumeData.projects orig = Some ops ->
               exists ps, ops = map Some ps) ->
  exists merged,
    optimized (handleOptimize JSON_stringify fetch_generate st) = Some merged
    /\ (Js.truthy (ResumeData.linkedin (resume_data res)) = false ->
        ResumeData.linkedin merged
        = Some (Js.or_str (ResumeData.linkedin orig) ""))
    /\ (Js.truthy (ResumeData.location (resume_data res)) = false ->
        ResumeData.location merged
        = Some (Js.or_str (ResumeData.location orig) ""))
    /\ (forall ps rps i p,
          ResumeData.projects orig = Some (map Some ps) ->
          ResumeData.projects (resume_data res) = Some rps ->
          rps !! i = Some (Some p) ->
          exists mps,
            ResumeData.projects merged = Some mps
            /\ (linked p = true -> mps !! i = Some (Some p))
            /\ (linked p = false ->
                forall o, last_match ps o p -> linked o = true ->
                  mps !! i
                  = Some (Some (ProjectEntry.with_link
                                  (ProjectEntry.link o) p)))).
Proof.
  intros Ho Hg Hwf.
  destruct (merge_back_total orig (resume_data res) Hwf) as [merged Hm].
  exists merged. rewrite (handleOptimize_success _ _ _ _ Ho Hg Hm).
  destruct (merge_back_contact _ _ _ Hm) as [Hli Hloc].
  split; [reflexivity|]. split; [|split].
  - intros Hd. rewrite Hli. unfold Js.or. now rewrite Hd.
  - intros Hd. rewrite Hloc. unfold Js.or. now rewrite Hd.
  - intros ps rps i p Hps Hrps Hi.
    destruct (merge_back_projects _ _ _ _ Hps Hrps)
      as (bt & merged' & Hbt & Hm' & Hp).
    rewrite Hm in Hm'. injection Hm' as <-.
    exists (map (patch bt) rps). split; [exact Hp|]. split.
    + intros Hl. rewrite lookup_map, Hi. cbn [option_map].
      now rewrite patch_linked.
    + intros Hl o Hlast Hlo.
      destruct (byTitle_last_match _ _ _ Hlast) as (bt' & Hbt' & Hlk).
      rewrite Hbt in Hbt'. injection Hbt' as <-.
      rewrite lookup_map, Hi. cbn [option_map].
      rewrite (patch_found _ _ _ Hlk), Hl, Hlo. reflexivity.
Qed.

End OptimizeClaims.

Section OptimizeExamples.
Import OptimizePage.
#[local] Existing Instance Js.ascii_engine.

(** C2 (as stated, refuted): the rewrite changed the link of the project
    "Portfolio"; the merged result keeps the changed link, it does not equal
    the original's. *)
Lemma altered_link_is_kept :
  exists merged m o r,
    optimized (handleOptimize Sample.stringify
                 (Sample.backend_answers Sample.rewrite_altered)
                 (Sample.optimize_state Sample.original_once))
    = Some merged
    /\ ResumeData.projects Sample.original_once = Some [Some o]
    /\ ResumeData.projects Sample.rewrite_altered = Some [Some r]
    /\ ResumeData.projects merged = Some [Some m]
    /\ same_title r o
    /\ linked o = true
    /\ ProjectEntry.link r <> ProjectEntry.link o
    /\ ProjectEntry.link m <> ProjectEntry.link o.
Proof.
  eexists. exists (Sample.project "Portfolio" Sample.elsewhere).
  exists (Sample.project "Portfolio" Sample.repo).
  exists (Sample.project "Portfolio" Sample.elsewhere).
  split; [vm_compute; reflexivity|].
  repeat split; discriminate.
Qed.

Lemma optimize_restores_dropped_fields_witness :
  exists merged,
    OptimizePage.optimized
      (OptimizePage.handleOptimize Sample.stringify
         (Sample.backend_answers Sample.rewrite_dropped)
         (Sample.optimize_state Sample.original_once))
    = Some merged
    /\ ResumeData.linkedin merged = Some "https://linkedin.com/in/ada"
    /\ ResumeData.location merged = Some "London"
    /\ exists mps,
         ResumeData.projects merged = Some mps
         /\ mps !! 0%nat
            = Some (Some (Sample.project "portfolio" Sample.repo)).
Proof.
  destruct (optimize_restores_dropped_fields Sample.stringify
              (Sample.backend_answers Sample.rewrite_dropped)
              (Sample.optimize_state Sample.original_once)
              Sample.original_once
              {| resume_data := Sample.rewrite_dropped; ats_score := None |}
              eq_refl eq_refl)
    as (merged & Hopt & Hli & Hloc & Hproj).
  - intros ops [= <-].
    exists [Sample.project "Portfolio" Sample.repo]. reflexivity.
  - exists merged. split; [exact Hopt|].
    split; [apply Hli; reflexivity|].
    split; [apply Hloc; reflexivity|].
    destruct (Hproj [Sample.project "Portfolio" Sample.repo]
                [Some (Sample.project "portfolio" None)] 0%nat
                (Sample.project "portfolio" None) eq_refl eq_refl eq_refl)
      as (mps & Hmps & _ & Hdropped).
    exists mps. split; [exact Hmps|].
    apply (Hdropped eq_refl (Sample.project "Portfolio" Sample.repo));
      [|reflexivity].
    exists [], []. repeat split; simpl; auto; intros q [].
Defined.

End OptimizeExamples.

(** * Failed requests *)

Section FailureClaims.
Import Api.
Context {engine : Js.Engine}.
Variable JSON_stringify : ResumeData.t -> string.
Variable fetch_generate : GenerateInput -> Outcome (Response GenerateResponse).
Variable fetch_enhance : EnhanceInput -> Outcome (Response EnhanceResponse).
Variable fetch_download :
  ResumeData.t -> Download.Format -> Outcome Download.Fetched.


Lemma api_message_text {A} (res : Response A) :
  api_message res = failure_text res.
Proof. reflexivity. Qed.






End FailureClaims.

Section FailureExamples.
#[local] Existing Instance Js.ascii_engine.



End FailureExamples.

(** * The section enhancer *)

Section EnhanceClaims.
Import Api.
Variable fetch_enhance : EnhanceInput -> Outcome (Response EnhanceResponse).

Lemma with_summary_same r :
  r = ResumeData.with_summary (ResumeData.summary r) r.
Proof. now destruct r. Qed.

Lemma with_skills_same r :
  r = ResumeData.with_skills (ResumeData.skills r) r.
Proof. now destruct r. Qed.

(** C4: a call of the section enhancer with the section name "summary"
    replaces at most the summary of the resume the caller holds: on the
    optimize page the optimized resume after the call is the one before with
    its summary set, and the original is untouched; on the create page the
    skills, the generated resume and the form entries are untouched.
    Symmetrically a call with "skills" replaces at most the skills and leaves
    the summary and everything else as it was. *)
Theorem enhance_changes_only_named_section (content : string) :
  (forall st,
     let st' := OptimizePage.handleEnhance fetch_enhance "summary" content st in
     OptimizePage.original st' = OptimizePage.original st
     /\ match OptimizePage.optimized st, OptimizePage.optimized st' with
        | Some r, Some r' =>
            r' = ResumeData.with_summary (ResumeData.summary r') r
            /\ ResumeData.skills r' = ResumeData.skills r
        | None, None => True
        | _, _ => False
        end)
  /\ (forall st,
        let st' :=
          OptimizePage.handleEnhance fetch_enhance "skills" content st in
        OptimizePage.original st' = OptimizePage.original st
        /\ match OptimizePage.optimized st, OptimizePage.optimized st' with
           | Some r, Some r' =>
               r' = ResumeData.with_skills (ResumeData.skills r') r
               /\ ResumeData.summary r' = ResumeData.summary r
           | None, None => True
           | _, _ => False
           end)
  /\ (forall st,
        let st' :=
          CreatePage.handleEnhance fetch_enhance "summary" content st in
        st' = CreatePage.setEnhancingSection None
                (CreatePage.setSummary (CreatePage.summary st') st)
        /\ CreatePage.skills st' = CreatePage.skills st)
  /\ (forall st,
        let st' :=
          CreatePage.handleEnhance fetch_enhance "skills" content st in
        st' = CreatePage.setEnhancingSection None
                (CreatePage.setSkills (CreatePage.skills st') st)
        /\ CreatePage.summary st' = CreatePage.summary st).
Proof.
  repeat split; intros;
    try (unfold CreatePage.handleEnhance, CreatePage.enhance_try;
         destruct (enhanceSection _ _ _ _ _); reflexivity);
    unfold OptimizePage.handleEnhance, OptimizePage.enhance_try;
    destruct (OptimizePage.original st) as [orig|] eqn:Ho;
    try (destruct (enhanceSection _ _ _ _ _); cbn);
    rewrite ?Ho; try reflexivity;
    destruct (OptimizePage.optimized st) as [r|] eqn:Hopt; cbn;
    rewrite ?Hopt; cbn;
    auto using with_summary_same, with_skills_same.
Qed.

(** C5: when the generation request of an enhance call fails, the content
    the caller holds is exactly what it was before the call: on the optimize
    page the optimized resume is unchanged (and the failure is alerted), on
    the create page the summary, the skills and the generated resume are
    unchanged. *)
Theorem failed_enhance_keeps_content section content st orig e cst e' :
  OptimizePage.original st = Some orig ->
  enhanceSection fetch_enhance section content (ResumeData.target_role orig)
    (OptimizePage.jd_or_undefined (OptimizePage.jd st)) = Thrown e ->
  enhanceSection fetch_enhance section content (CreatePage.targetRole cst)
    (CreatePage.jobDescription_or_undefined cst) = Thrown e' ->
  OptimizePage.optimized
    (OptimizePage.handleEnhance fetch_enhance section content st)
  = OptimizePage.optimized st
  /\ OptimizePage.alerts
       (OptimizePage.handleEnhance fetch_enhance section content st)
     = (OptimizePage.alerts st
        ++ ["Enhancement failed: " +:+ message e])%list
  /\ CreatePage.summary
       (CreatePage.handleEnhance fetch_enhance section content cst)
     = CreatePage.summary cst
  /\ CreatePage.skills
       (CreatePage.handleEnhance fetch_enhance section content cst)
     = CreatePage.skills cst
  /\ CreatePage.resumeData
       (CreatePage.handleEnhance fetch_enhance section content cst)
     = CreatePage.resumeData cst
  /\ CreatePage.alerts
       (CreatePage.handleEnhance fetch_enhance section content cst)
     = CreatePage.alerts cst.
Proof.
  intros Ho He He'.
  unfold OptimizePage.handleEnhance, OptimizePage.enhance_try.
  rewrite Ho. cbn [OptimizePage.jd OptimizePage.setEnhancingSection].
  rewrite He. cbn [bind].
  unfold CreatePage.handleEnhance, CreatePage.enhance_try.
  change (CreatePage.jobDescription_or_undefined
            (CreatePage.setEnhancingSection (Some section) cst))
    with (CreatePage.jobDescription_or_undefined cst).
  cbn [CreatePage.targetRole CreatePage.setEnhancingSection].
  rewrite He'. repeat split.
Qed.

End EnhanceClaims.

Example enhance_summary_example :
  OptimizePage.optimized
    (OptimizePage.handleEnhance (Sample.enhance_answers "Sharper summary.")
       "summary" "Engineer with an eye for detail."
       (OptimizePage.setOptimized (Some Sample.original_once)
          (Sample.optimize_state Sample.original_once)))
  = Some (ResumeData.with_summary (Some "Sharper summary.")
            Sample.original_once).
Proof. reflexivity. Qed.

Example enhance_skills_example :
  OptimizePage.optimized
    (OptimizePage.handleEnhance
       (Sample.enhance_answers
          ("Rocq" +:+ String "010"%char (String "010"%char "OCaml")))
       "skills" "TypeScript"
       (OptimizePage.setOptimized (Some Sample.original_once)
          (Sample.optimize_state Sample.original_once)))
  = Some (ResumeData.with_skills (Some ["Rocq"; "OCaml"])
            Sample.original_once).
Proof. reflexivity. Qed.

Lemma failed_enhance_keeps_content_witness :
  OptimizePage.optimized
    (OptimizePage.handleEnhance (Sample.backend_fails EnhanceResponse)
       "summary" "Engineer." (Sample.optimize_state Sample.original_once))
  = None
  /\ CreatePage.summary
       (CreatePage.handleEnhance (Sample.backend_fails EnhanceResponse)
          "summary" "Engineer." CreatePage.initial)
     = Some "".
Proof.
  destruct (failed_enhance_keeps_content
              (Sample.backend_fails EnhanceResponse) "summary" "Engineer."
              (Sample.optimize_state Sample.original_once)
              Sample.original_once
              {| message := Api.api_message
                              (Sample.error_response EnhanceResponse) |}
              CreatePage.initial
              {| message := Api.api_message
                              (Sample.error_response EnhanceResponse) |}
              eq_refl eq_refl eq_refl)
    as (Hopt & _ & Hsum & _).
  split; [exact Hopt|exact Hsum].
Defined.

(** * Collections of a constructed resume *)

(** C6: the resumes the form constructs, the empty resume and the resume
    built from a loaded sample payload, have skills, experience, education,
    projects and certifications present as sequences, never null or
    undefined: a collection the payload lacks is the empty sequence, one it
    has is taken as it is.  [loadSample] either keeps the resume it had or
    stores a resume built this way. *)
Theorem collections_never_null :
  collections_present ResumeForm.emptyResume
  /\ (forall sample,
        let r := ResumeForm.resume_of_sample sample in
        collections_present r
        /\ ResumeData.skills r
           = Some match ResumeForm.s_skills sample with
                  | Some l => l
                  | None => []
                  end
        /\ ResumeData.experience r
           = Some match ResumeForm.s_experience sample with
                  | Some l => l
                  | None => []
                  end
        /\ ResumeData.education r
           = Some match ResumeForm.s_education sample with
                  | Some l => l
                  | None => []
                  end
        /\ ResumeData.projects r
           = Some match ResumeForm.s_projects sample with
                  | Some l => l
                  | None => []
                  end
        /\ ResumeData.certifications r
           = Some match ResumeForm.s_certifications sample with
                  | Some l => l
                  | None => []
                  end)
  /\ (forall fetch_sample st,
        let st' := ResumeForm.loadSample fetch_sample st in
        ResumeForm.data st' = ResumeForm.data st
        \/ exists sample,
             ResumeForm.data st' = ResumeForm.resume_of_sample sample)
  /\ (forall st, ResumeForm.data (ResumeForm.clear st)
                 = ResumeForm.emptyResume).
Proof.
  split; [|split; [|split]].
  - unfold collections_present; cbn; eauto 10.
  - intros sample r. subst r.
    split; [unfold collections_present; cbn; eauto 10|].
    repeat split.
  - intros fetch_sample st st'. subst st'.
    unfold ResumeForm.loadSample, ResumeForm.loadSample_try.
    destruct fetch_sample as [res|e]; cbn [bind]; [|left; reflexivity].
    destruct (Api.ok res); cbn [negb]; [|left; reflexivity].
    destruct (Api.json res) as [sample|e]; cbn [bind];
      [right; exists sample|left]; reflexivity.
  - reflexivity.
Qed.

(** * The date check of [updateExp] *)

Section DateCheck.
Import CreatePage.
Context {engine : Js.Engine}.

Lemma digit_cases (d : Z) :
  0 <= d <= 9 ->
  d = 0 \/ d = 1 \/ d = 2 \/ d = 3 \/ d = 4
  \/ d = 5 \/ d = 6 \/ d = 7 \/ d = 8 \/ d = 9.
Proof. lia. Qed.

Ltac each_digit d H :=
  destruct (digit_cases d H) as [->|[->|[->|[->|[->|[->|[->|[->|[->| ->]]]]]]]]].

Lemma digit_plain d :
  0 <= d <= 9 ->
  Js.is_ascii (digit d) = true
  /\ Js.space1 (digit d) = false
  /\ is_date_sep (digit d) = false
  /\ Js.lower_ascii (digit d) = digit d
  /\ JsDate.digit_of (digit d) = Some d.
Proof. intros H. each_digit d H; repeat split. Qed.

(** ** Numerals *)

Lemma numeral_unseparated ds :
  Forall (fun d => 0 <= d <= 9) ds -> unseparated (numeral ds).
Proof.
  induction 1 as [|d ds Hd _ IH]; [exact I|].
  split; [now apply digit_plain|exact IH].
Qed.

Lemma numeral_ascii ds :
  Forall (fun d => 0 <= d <= 9) ds -> Js.ascii_text (numeral ds) = true.
Proof.
  induction 1 as [|d ds Hd _ IH]; [reflexivity|].
  cbn [numeral fold_right Js.ascii_text]. fold (numeral ds).
  rewrite IH. now destruct (digit_plain d Hd) as (-> & _).
Qed.

Lemma numeral_nonempty ds : decimal ds -> Js.nonempty (numeral ds) = true.
Proof. intros [Hne _]. destruct ds; [contradiction|reflexivity]. Qed.

Lemma trimStart_numeral ds :
  decimal ds -> Js.trimStart (numeral ds) = numeral ds.
Proof.
  intros [Hne Hds]. destruct ds as [|d ds]; [contradiction|].
  apply Forall_cons in Hds as [Hd _].
  rewrite trimStart_eq. cbn [numeral fold_right].
  destruct (digit_plain d Hd) as (Ha & Hs & _).
  now rewrite leading_space_ascii.
Qed.

Lemma digits_numeral ds :
  Forall (fun d => 0 <= d <= 9) ds ->
  forall n,
    JsDate.digits 10 JsDate.digit_of (Some n) (numeral ds)
    = Some (fold_left (fun n d => 10 * n + d) ds n).
Proof.
  induction 1 as [|d ds Hd _ IH]; intros n; [reflexivity|].
  cbn [numeral fold_right JsDate.digits fold_left]. fold (numeral ds).
  destruct (digit_plain d Hd) as (_ & _ & _ & _ & ->).
  cbn [Js.nullish]. apply IH.
Qed.

(** [parseInt] reads a numeral as the number it writes. *)
Lemma parseInt_numeral ds :
  decimal ds -> JsDate.parseInt (numeral ds) = Some (number ds).
Proof.
  intros Hds. unfold JsDate.parseInt. rewrite (trimStart_numeral ds Hds).
  destruct Hds as [Hne Hds]. destruct ds as [|d ds]; [contradiction|].
  apply Forall_cons in Hds as [Hd Hds].
  transitivity
    (option_map (Z.mul 1)
       (JsDate.digits 10 JsDate.digit_of None (numeral (d :: ds)))).
  - cbn [numeral fold_right]. fold (numeral ds).
    destruct ds as [|d2 ds]; [each_digit d Hd; reflexivity|].
    apply Forall_cons in Hds as [Hd2 _].
    cbn [numeral fold_right].
    each_digit d Hd; try reflexivity.
    each_digit d2 Hd2; reflexivity.
  - cbn [numeral fold_right JsDate.digits]. fold (numeral ds).
    destruct (digit_plain d Hd) as (_ & _ & _ & _ & ->).
    cbn [Js.nullish]. rewrite (digits_numeral ds Hds).
    cbn [option_map]. unfold number. cbn [fold_left]. f_equal.
    apply Z.mul_1_l.
Qed.

Lemma split_month_year ms ys sep :
  sep = "/" \/ sep = "-" -> decimal ms -> decimal ys ->
  Js.split is_date_sep (numeral ms +:+ sep +:+ numeral ys)
  = [numeral ms; numeral ys].
Proof.
  intros Hsep [_ Hms] [_ Hys]. unfold Js.split.
  rewrite split_acc_free by now apply numeral_unseparated.
  assert (Hcut : forall cur r,
            Js.split_acc is_date_sep cur (sep +:+ r)
            = String.rev cur :: Js.split_acc is_date_sep EmptyString r).
  { intros cur r. destruct Hsep as [-> | ->]; reflexivity. }
  rewrite Hcut, rev_rev_app. f_equal.
  apply (split_free is_date_sep). now apply numeral_unseparated.
Qed.

(** A date written as a month and a year is parsed as that month of that
    year, as [new Date] takes them. *)
Lemma parseDate_written s m y :
  month_year s m y ->
  parseDate s = Some (JsDate.make (Some y) (Some (m - 1))).
Proof.
  intros (ms & ys & sep & Hsep & Hms & Hys & <- & <- & ->).
  unfold parseDate. rewrite (split_month_year ms ys sep Hsep Hms Hys).
  rewrite !numeral_nonempty by assumption. cbn [andb].
  now rewrite !parseInt_numeral.
Qed.

Lemma make_dated m y :
  dated m y ->
  JsDate.make (Some y) (Some (m - 1)) = Some (12 * y + (m - 1)).
Proof.
  intros [Hm Hy]. unfold JsDate.make, JsDate.min_month, JsDate.max_month.
  replace (0 <=? y) with true by (symmetry; apply Z.leb_le; lia).
  replace (y <=? 99) with false by (symmetry; apply Z.leb_gt; lia).
  cbn [andb].
  replace (12 * -271821 + 4 <=? 12 * y + (m - 1))
    with true by (symmetry; apply Z.leb_le; lia).
  replace (12 * y + (m - 1) <=? 12 * 275760 + 8)
    with true by (symmetry; apply Z.leb_le; lia).
  reflexivity.
Qed.

(** The year rule of [new Date]: a year from 0 to 99 is a year of the
    twentieth century. *)
Lemma make_early m y :
  1 <= m <= 12 -> 0 <= y <= 99 ->
  JsDate.make (Some y) (Some (m - 1)) = Some (12 * (1900 + y) + (m - 1)).
Proof.
  intros Hm Hy. unfold JsDate.make, JsDate.min_month, JsDate.max_month.
  replace (0 <=? y) with true by (symmetry; apply Z.leb_le; lia).
  replace (y <=? 99) with true by (symmetry; apply Z.leb_le; lia).
  cbn [andb].
  replace (12 * -271821 + 4 <=? 12 * (1900 + y) + (m - 1))
    with true by (symmetry; apply Z.leb_le; lia).
  replace (12 * (1900 + y) + (m - 1) <=? 12 * 275760 + 8)
    with true by (symmetry; apply Z.leb_le; lia).
  reflexivity.
Qed.

Lemma ascii_text_append a b :
  Js.ascii_text (a +:+ b) = Js.ascii_text a && Js.ascii_text b.
Proof.
  induction a as [|c a IH]; [reflexivity|].
  rewrite append_String. cbn [Js.ascii_text]. rewrite IH.
  now rewrite andb_assoc.
Qed.

Lemma month_year_ascii s m y :
  month_year s m y -> Js.ascii_text s = true.
Proof.
  intros (ms & ys & sep & Hsep & [_ Hms] & [_ Hys] & _ & _ & ->).
  rewrite !ascii_text_append, !numeral_ascii by assumption.
  now destruct Hsep as [-> | ->].
Qed.

(** ** Dates that read "Present" *)

Lemma is_date_sep_lower c :
  is_date_sep (Js.lower_ascii c) = is_date_sep c.
Proof.
  destruct c as [[] [] [] [] [] [] [] []]; reflexivity.
Qed.

Lemma split_length_lower (s : string) :
  forall cur cur',
    length (Js.split_acc is_date_sep cur (Js.lower s))
    = length (Js.split_acc is_date_sep cur' s).
Proof.
  induction s as [|c s IH]; intros cur cur'; [reflexivity|].
  cbn [Js.lower Js.split_acc]. rewrite is_date_sep_lower.
  destruct (is_date_sep c); cbn [length]; auto.
Qed.

Lemma parseDate_two_parts d x :
  parseDate d = Some x -> length (Js.split is_date_sep d) = 2%nat.
Proof.
  unfold parseDate.
  destruct (Js.split is_date_sep d) as [|p0 [|p1 [|p2 l]]];
    try discriminate. reflexivity.
Qed.

(** The year rule of [Date]: a year written 0099 is read as 1999. *)
Example two_digit_year_is_1900s :
  parseDate "01/0099" = Some (Some (12 * 1999 + 0))
  /\ parseDate "01/0100" = Some (Some (12 * 100 + 0)).
Proof. split; reflexivity. Qed.

(** A date of ASCII characters that parses is not empty and is not
    "Present" in any letter case. *)
Lemma parseDate_not_present d x :
  parseDate d = Some x -> Js.ascii_text d = true ->
  Js.nonempty d = true
  /\ String.eqb (Js.toLowerCase d) "present" = false.
Proof.
  intros H Ha. split.
  - destruct d; [discriminate H|reflexivity].
  - apply String.eqb_neq. rewrite (Js.toLowerCase_ascii d Ha). intros Hp.
    pose proof (parseDate_two_parts _ _ H) as Hlen.
    unfold Js.split in Hlen.
    rewrite <- (split_length_lower d EmptyString EmptyString), Hp in Hlen.
    discriminate Hlen.
Qed.



(** ** The check *)

Lemma rejects_parsed entry s e :
  parseDate (ExpEntry.start_date entry) = Some (Some s) ->
  parseDate (ExpEntry.end_date entry) = Some (Some e) ->
  Js.ascii_text (ExpEntry.end_date entry) = true ->
  rejects entry = (e <? s).
Proof.
  intros Hs He Ha.
  assert (Hsn : Js.nonempty (ExpEntry.start_date entry) = true)
    by (destruct (ExpEntry.start_date entry); [discriminate Hs|reflexivity]).
  destruct (parseDate_not_present _ _ He Ha) as [Hen Hep].
  unfold rejects. rewrite Hsn, Hen, Hep, Hs, He. reflexivity.
Qed.


Lemma updateExp_date_in_range i entry field value st :
  experience st !! i = Some entry ->
  ExpEntry.is_date field = true ->
  updateExp i field value st
  = if rejects (ExpEntry.set field value entry)
    then alert "Start date cannot be after end date." st
    else setExperience
           (<[i := ExpEntry.set field value entry]> (experience st)) st.
Proof.
  intros Hi Hd. unfold updateExp, edited, assign. rewrite Hd, Hi.
  cbn [Js.nullish].
  replace (i <? length (experience st))%nat with true; [reflexivity|].
  symmetry. apply Nat.ltb_lt. eapply lookup_lt_Some, Hi.
Qed.


End DateCheck.

(** On an end date that is ASCII text the check of an edit is the same on
    every engine; the examples below are run on [Js.ascii_engine]. *)
Lemma updateExp_ascii {engine : Js.Engine} i field value st :
  Js.ascii_text
    (ExpEntry.end_date (CreatePage.edited (CreatePage.experience st) i
                          field value)) = true ->
  CreatePage.updateExp i field value st
  = @CreatePage.updateExp Js.ascii_engine i field value st.
Proof.
  intros H. unfold CreatePage.updateExp, CreatePage.rejects.
  now rewrite (Js.toLowerCase_ascii _ H).
Qed.

Section DateCheckExamples.
Import CreatePage.
#[local] Existing Instance Js.ascii_engine.



End DateCheckExamples.

(** * The resume preview and the existing-resume text *)

Section Rendering.
Import Preview.

Lemma descendants_self n : In n (descendants n).
Proof. destruct n; simpl; auto. Qed.

Lemma descendants_child tag href children c d :
  In c children -> In d (descendants c) ->
  In d (descendants (Element tag href children)).
Proof.
  intros Hc Hd. simpl. right. apply in_flat_map. eauto.
Qed.

Lemma all_defined_map_Some {A} what (l : list A) :
  all_defined what (map Some l) = Returned l.
Proof.
  induction l as [|a l IH]; [reflexivity|].
  cbn [map all_defined defined bind]. now rewrite IH.
Qed.

Lemma when_nonempty {A} (l : list A) x n :
  In x l -> In n (when (0 <? length l)%nat n).
Proof. destruct l; [intros []|intros _; simpl; auto]. Qed.

(** When the three collections the component reads without a guard are
    there and no project is null, the preview renders, and every experience
    and every project is rendered in it by [render_experience] and
    [render_project]. *)
Lemma preview_renders_entries props exps ps eds :
  ResumeData.experience (data props) = Some exps ->
  ResumeData.projects (data props) = Some (map Some ps) ->
  ResumeData.education (data props) = Some eds ->
  exists tree,
    ResumePreview props = Returned tree
    /\ (forall exp, In exp exps -> In (render_experience exp) (descendants tree))
    /\ (forall proj, In proj ps -> In (render_project proj) (descendants tree)).
Proof.
  intros He Hp Hd. unfold ResumePreview.
  rewrite He, Hp, Hd. cbn [defined bind].
  rewrite all_defined_map_Some. cbn [bind].
  eexists. split; [reflexivity|]. split.
  - intros exp Hin.
    eapply descendants_child;
      [|eapply descendants_child;
        [|eapply descendants_child; [|apply descendants_self]]].
    + rewrite !in_app_iff. right. right. left.
      eapply when_nonempty, Hin.
    + simpl. right. left. reflexivity.
    + apply in_map, Hin.
  - intros proj Hin.
    eapply descendants_child;
      [|eapply descendants_child;
        [|eapply descendants_child; [|apply descendants_self]]].
    + rewrite !in_app_iff. right. right. right. left.
      eapply when_nonempty, Hin.
    + simpl. right. left. reflexivity.
    + apply in_map, Hin.
Qed.




Lemma anchors_when cond n :
  flat_map anchors (when cond n) = if cond then anchors n else [].
Proof. destruct cond; simpl; [apply app_nil_r|reflexivity]. Qed.

Lemma hasLink_prefix proj :
  hasLink proj
  = match ProjectEntry.link proj with
    | Some l => String.prefix "http" l
    | None => false
    end.
Proof.
  unfold hasLink, Js.startsWith, Js.truthy, Js.or_str, Js.nonempty.
  destruct (ProjectEntry.link proj) as [l|]; [|reflexivity].
  now destruct (String.eqb_spec l "") as [->|_].
Qed.

(** What [render_project] renders, written out. *)
Lemma render_project_written proj :
  render_project proj
  = Element "div" None
      ([ Element "div" None
           (Element "span" None
              match ProjectEntry.title proj with
              | Some t => [Text t]
              | None => []
              end
            :: match ProjectEntry.link proj with
               | Some l =>
                   if String.prefix "http" l
                   then [Element "a" (Some l) [Text "GitHub Link"]]
                   else []
               | None => []
               end) ]
       ++ (let technologies :=
             String.concat ", "
               match ProjectEntry.technologies proj with
               | Some l => l
               | None => []
               end in
           if String.eqb technologies "" then []
           else [Element "div" None
                   [Text "Technologies: "; Text technologies]])
       ++ (if String.eqb (ProjectEntry.description proj) "" then []
           else [Element "ul" None
                   [Element "li" None
                      [Text (ProjectEntry.description proj)]]]))%list.
Proof.
  unfold render_project, techs, el, when, text_opt, Js.nonempty, Js.nullish.
  rewrite hasLink_prefix, join_concat. cbv zeta.
  destruct (ProjectEntry.link proj) as [l|];
    [destruct (String.prefix "http" l)|];
    destruct (String.eqb _ ""), (String.eqb (ProjectEntry.description proj) "");
    reflexivity.
Qed.

(** C10: in the preview a project's link is an anchor exactly when the
    link starts with "http"; a link that is not empty and does not start
    with "http" gives no anchor at all; and the title, the technologies
    (joined by ", " behind "Technologies: ", when there are any) and the
    description (when it is not empty) are rendered whatever the link is. *)
Theorem project_link_needs_http :
  (forall proj,
     render_project proj
     = Element "div" None
         ([ Element "div" None
              (Element "span" None
                 match ProjectEntry.title proj with
                 | Some t => [Text t]
                 | None => []
                 end
               :: match ProjectEntry.link proj with
                  | Some l =>
                      if String.prefix "http" l
                      then [Element "a" (Some l) [Text "GitHub Link"]]
                      else []
                  | None => []
                  end) ]
          ++ (let technologies :=
                String.concat ", "
                  match ProjectEntry.technologies proj with
                  | Some l => l
                  | None => []
                  end in
              if String.eqb technologies "" then []
              else [Element "div" None
                      [Text "Technologies: "; Text technologies]])
          ++ (if String.eqb (ProjectEntry.description proj) "" then []
              else [Element "ul" None
                      [Element "li" None
                         [Text (ProjectEntry.description proj)]]]))%list)
  /\ (forall proj,
        anchors (render_project proj)
        = match ProjectEntry.link proj with
          | Some l => if String.prefix "http" l then [Some l] else []
          | None => []
          end)
  /\ (forall proj l,
        ProjectEntry.link proj = Some l -> l <> "" ->
        ~ (exists rest, l = "http" +:+ rest) ->
        anchors (render_project proj) = [])
  /\ (forall proj l,
        without_anchors (render_project (ProjectEntry.with_link l proj))
        = without_anchors (render_project proj))
  /\ (forall props exps ps eds proj,
        ResumeData.experience (data props) = Some exps ->
        ResumeData.projects (data props) = Some (map Some ps) ->
        ResumeData.education (data props) = Some eds ->
        In proj ps ->
        exists tree,
          ResumePreview props = Returned tree
          /\ In (render_project proj) (descendants tree)).
Proof.
  assert (Hanchors : forall proj,
    anchors (render_project proj)
    = match ProjectEntry.link proj with
      | Some l => if String.prefix "http" l then [Some l] else []
      | None => []
      end).
  { intros proj. rewrite render_project_written. cbv zeta.
    destruct (ProjectEntry.link proj) as [l|];
      [destruct (String.prefix "http" l)|];
      destruct (String.eqb _ ""),
        (String.eqb (ProjectEntry.description proj) ""),
        (ProjectEntry.title proj); reflexivity. }
  split; [exact render_project_written|].
  split; [exact Hanchors|]. split; [|split].
  - intros proj l Hl _ Hnot. rewrite Hanchors, Hl.
    destruct (String.prefix "http" l) eqn:E; [|reflexivity].
    apply prefix_append in E. contradiction.
  - intros proj l. rewrite !render_project_written. cbv zeta.
    cbn [ProjectEntry.with_link ProjectEntry.title ProjectEntry.description
         ProjectEntry.technologies ProjectEntry.link].
    destruct l as [l|]; [destruct (String.prefix "http" l)|];
      (destruct (ProjectEntry.link proj) as [l'|];
       [destruct (String.prefix "http" l')|]);
      destruct (String.eqb _ ""),
        (String.eqb (ProjectEntry.description proj) ""),
        (ProjectEntry.title proj); reflexivity.
  - intros props exps ps eds proj He Hp Hd Hin.
    destruct (preview_renders_entries _ _ _ _ He Hp Hd)
      as (tree & Htree & _ & Hproj).
    exists tree. split; [exact Htree|apply Hproj, Hin].
Qed.

End Rendering.


Lemma project_link_needs_http_witness :
  Preview.anchors
    (Preview.render_project (Sample.project "Portfolio" Sample.bare_link))
  = []
  /\ exists tree,
       Preview.ResumePreview Sample.preview_props = Returned tree
       /\ In (Preview.render_project
                (Sample.project "Portfolio" Sample.bare_link))
            (descendants tree).
Proof.
  destruct project_link_needs_http as (_ & _ & Hbare & _ & Hpreview). split.
  - apply (Hbare (Sample.project "Portfolio" Sample.bare_link)
             "github.com/ada/portfolio" eq_refl).
    + discriminate.
    + intros [rest H]. discriminate H.
  - apply (Hpreview Sample.preview_props [Sample.position None]
             [Sample.project "Portfolio" Sample.bare_link] []
             (Sample.project "Portfolio" Sample.bare_link)
             eq_refl eq_refl eq_refl (or_introl eq_refl)).
Defined.


(** * More on the reconciliation *)

Section ReconciliationMore.
Import OptimizePage.
Context {engine : Js.Engine}.

Lemma with_link_same p : ProjectEntry.with_link (ProjectEntry.link p) p = p.
Proof. now destruct p. Qed.

Lemma patch_only_link m r : only_link_filled r (patch m r).
Proof.
  destruct r as [p|]; [|exact I]. unfold patch.
  destruct (m !! key p) as [o|]; [|now repeat split].
  fold (linked p) (linked o).
  destruct (linked p) eqn:Hp; cbn [negb andb]; [now repeat split|].
  destruct (linked o) eqn:Ho; [|now repeat split].
  repeat split; intros Hq; [congruence|].
  unfold linked in Hq. cbn in Hq. fold (linked o) in Hq. congruence.
Qed.

Lemma map_patch_only_link m rps :
  Forall2 only_link_filled rps (map (patch m) rps).
Proof.
  induction rps as [|r rps IH]; constructor; auto using patch_only_link.
Qed.

Lemma with_contact_same r :
  ResumeData.with_projects (ResumeData.projects r)
    (ResumeData.with_contact (ResumeData.linkedin r) (ResumeData.location r) r)
  = r.
Proof. now destruct r. Qed.

(** What [merge_back] returns, in every case in which it returns. *)
Lemma merge_back_shape orig rewritten merged :
  merge_back orig rewritten = Returned merged ->
  exists mps,
    merged
    = ResumeData.with_projects mps
        (ResumeData.with_contact
           (Some (Js.or_str (Js.or (ResumeData.linkedin rewritten)
                                   (ResumeData.linkedin orig)) ""))
           (Some (Js.or_str (Js.or (ResumeData.location rewritten)
                                   (ResumeData.location orig)) ""))
           rewritten)
    /\ match ResumeData.projects rewritten, mps with
       | Some rps, Some l =>
           (ResumeData.projects orig = None /\ l = rps)
           \/ exists ops m,
                ResumeData.projects orig = Some ops
                /\ byTitle ops = Returned m /\ l = map (patch m) rps
       | None, None => True
       | _, _ => False
       end.
Proof.
  unfold merge_back. cbn [ResumeData.projects ResumeData.with_contact].
  destruct (ResumeData.projects orig) as [ops|] eqn:Ho.
  - destruct (ResumeData.projects rewritten) as [rps|] eqn:Hr.
    + destruct (byTitle ops) as [m|e] eqn:Hm; cbn [bind]; [|discriminate].
      intros [= <-]. exists (Some (map (patch m) rps)). split; [reflexivity|].
      right. exists ops, m. auto.
    + intros [= <-]. exists None. split; [|exact I].
      destruct rewritten; cbn in *; now subst.
  - intros [= <-]. exists (ResumeData.projects rewritten). split.
    + destruct rewritten; reflexivity.
    + destruct (ResumeData.projects rewritten); auto.
Qed.

(** X1: the reconciliation never changes anything but the two contact
    fields and the links of projects: every other field of the merged resume
    is the rewrite's, the contact fields are strings afterwards, and the
    projects keep their number and order, their titles, descriptions and
    technologies; a null entry stays null, and an entry that came with a
    link, or is still without one, is the rewritten entry itself. *)
Theorem reconciliation_touches_links_only orig rewritten merged :
  merge_back orig rewritten = Returned merged ->
  merged
  = ResumeData.with_projects (ResumeData.projects merged)
      (ResumeData.with_contact (ResumeData.linkedin merged)
         (ResumeData.location merged) rewritten)
  /\ is_Some (ResumeData.linkedin merged)
  /\ is_Some (ResumeData.location merged)
  /\ match ResumeData.projects rewritten, ResumeData.projects merged with
     | Some rps, Some mps => Forall2 only_link_filled rps mps
     | None, None => True
     | _, _ => False
     end.
Proof.
  intros H. destruct (merge_back_shape _ _ _ H) as (mps & -> & Hps).
  cbn. repeat split; eauto.
  destruct (ResumeData.projects rewritten) as [rps|], mps as [l|]; auto.
  destruct Hps as [[_ ->]|(ops & m & _ & _ & ->)].
  - clear. induction rps as [|[p|] rps IH]; constructor; auto.
    + repeat split; auto.
    + exact I.
  - apply map_patch_only_link.
Qed.

Lemma or_settled (a b : option string) :
  Js.or_str (Js.or (Some (Js.or_str (Js.or a b) "")) b) ""
  = Js.or_str (Js.or a b) "".
Proof.
  assert (Hs : forall v, Js.or (Some (Js.or_str v "")) b
                         = if Js.truthy v then v else b).
  { intros [x|]; unfold Js.or; cbn; [|reflexivity].
    destruct (Js.nonempty x) eqn:Hx; cbn; now rewrite ?Hx. }
  rewrite Hs. unfold Js.or.
  destruct (Js.truthy a) eqn:Ha; rewrite ?Ha; [reflexivity|].
  destruct (Js.truthy b) eqn:Hb; reflexivity.
Qed.

Lemma patch_twice m r : patch m (patch m r) = patch m r.
Proof.
  destruct r as [p|]; [|reflexivity].
  destruct (m !! key p) as [o|] eqn:Hk.
  - rewrite (patch_found _ _ _ Hk).
    destruct (negb (linked p) && linked o) eqn:E.
    + apply andb_prop in E as [_ Ho].
      rewrite (patch_found m (ProjectEntry.with_link (ProjectEntry.link o) p)
                 o Hk).
      change (linked (ProjectEntry.with_link (ProjectEntry.link o) p))
        with (linked o).
      now rewrite Ho.
    + now rewrite (patch_found _ _ _ Hk), E.
  - unfold patch. rewrite Hk. now rewrite Hk.
Qed.

(** X2: reconciling the merged resume once more against the same original
    changes nothing. *)
Theorem reconciliation_is_idempotent orig rewritten merged :
  merge_back orig rewritten = Returned merged ->
  merge_back orig merged = Returned merged.
Proof.
  intros H. destruct (merge_back_shape _ _ _ H) as (mps & -> & Hps).
  unfold merge_back.
  cbn [ResumeData.linkedin ResumeData.location ResumeData.projects
       ResumeData.with_contact ResumeData.with_projects].
  rewrite !or_settled.
  destruct (ResumeData.projects rewritten) as [rps|] eqn:Hr, mps as [l|];
    try contradiction.
  - destruct Hps as [[-> ->]|(ops & m & -> & Hm & ->)].
    + f_equal; try (destruct rewritten; cbn in *; now subst).
    + rewrite Hm. cbn [bind].
      rewrite map_map, (map_ext _ _ (patch_twice m)). reflexivity.
  - destruct (ResumeData.projects orig); f_equal;
      try (destruct rewritten; cbn in *; now subst).
Qed.

Lemma byTitle_from_null ops :
  In None ops -> forall m, exists e, byTitle_from m ops = Thrown e.
Proof.
  induction ops as [|[p|] ops IH]; intros Hin m.
  - destruct Hin.
  - destruct Hin as [H|H]; [discriminate|]. cbn. apply IH, H.
  - cbn. eauto.
Qed.

(** X4: a rewritten project whose title equals, case-insensitively, the
    non-empty title of no original is returned as it came: in particular an
    original without a title never lends its link. *)
Theorem unmatched_project_is_unchanged orig rewritten ps rps i p :
  ResumeData.projects orig = Some (map Some ps) ->
  ResumeData.projects rewritten = Some rps ->
  rps !! i = Some (Some p) ->
  (forall o, In o ps -> titled o = true -> ~ same_title o p) ->
  exists merged mps,
    merge_back orig rewritten = Returned merged
    /\ ResumeData.projects merged = Some mps
    /\ mps !! i = Some (Some p).
Proof.
  intros Ho Hr Hi Hnone.
  destruct (merge_back_projects _ _ _ _ Ho Hr) as (m & merged & Hm & Hmb & Hp).
  exists merged, (map (patch m) rps). repeat split; try assumption.
  rewrite lookup_map, Hi. cbn [option_map]. f_equal.
  unfold byTitle in Hm. rewrite byTitle_from_foldl in Hm.
  injection Hm as <-. unfold patch.
  rewrite (foldl_set_other ps (key p)), lookup_empty; [reflexivity|].
  intros q Hq Htq Hkq. now apply (Hnone q Hq Htq), same_title_key.
Qed.

End ReconciliationMore.

Section ReconciliationMoreExamples.
Import OptimizePage.
#[local] Existing Instance Js.ascii_engine.

Lemma reconciliation_touches_links_only_witness :
  exists merged,
    merge_back Sample.original_once Sample.rewrite_dropped = Returned merged
    /\ ResumeData.summary merged = ResumeData.summary Sample.rewrite_dropped
    /\ is_Some (ResumeData.linkedin merged).
Proof.
  eexists. split; [reflexivity|].
  destruct (reconciliation_touches_links_only
              Sample.original_once Sample.rewrite_dropped _ eq_refl)
    as (Heq & Hli & _).
  split; [|exact Hli]. now rewrite Heq.
Defined.

Lemma reconciliation_is_idempotent_witness :
  exists merged,
    merge_back Sample.original_twice Sample.rewrite_dropped = Returned merged
    /\ merge_back Sample.original_twice merged = Returned merged.
Proof.
  eexists. split; [reflexivity|].
  apply (reconciliation_is_idempotent
           Sample.original_twice Sample.rewrite_dropped).
  reflexivity.
Defined.

Lemma unmatched_project_is_unchanged_witness :
  exists merged mps,
    OptimizePage.merge_back
      (Sample.resume None None [Some (Sample.project "" Sample.repo)])
      (Sample.resume None None [Some (Sample.project "" None)])
    = Returned merged
    /\ ResumeData.projects merged = Some mps
    /\ mps !! 0%nat = Some (Some (Sample.project "" None)).
Proof.
  apply (unmatched_project_is_unchanged
           (Sample.resume None None [Some (Sample.project "" Sample.repo)])
           (Sample.resume None None [Some (Sample.project "" None)])
           [Sample.project "" Sample.repo]
           [Some (Sample.project "" None)] 0
           (Sample.project "" None) eq_refl eq_refl eq_refl).
  intros o [<-|[]] Ht. discriminate Ht.
Defined.

End ReconciliationMoreExamples.

(** * More on the handlers *)

Section HandlersMore.
Import Api.
Context {engine : Js.Engine}.
Variable JSON_stringify : ResumeData.t -> string.
Variable fetch_generate : GenerateInput -> Outcome (Response GenerateResponse).
Variable fetch_enhance : EnhanceInput -> Outcome (Response EnhanceResponse).

(** X3: when an entry of the original's projects is null and the rewrite
    has a projects array, building the title map throws after the
    generation has succeeded: the generated resume and its score are not
    stored, the failure is alerted and the busy flag is reset. *)
Theorem null_original_project_discards_result st orig res ops rps :
  OptimizePage.original st = Some orig ->
  generateResume fetch_generate
    (OptimizePage.optimize_input JSON_stringify orig (OptimizePage.jd st))
  = Returned res ->
  ResumeData.projects orig = Some ops ->
  In None ops ->
  ResumeData.projects (resume_data res) = Some rps ->
  let st' := OptimizePage.handleOptimize JSON_stringify fetch_generate st in
  OptimizePage.optimized st' = OptimizePage.optimized st
  /\ OptimizePage.optimizedScore st' = OptimizePage.optimizedScore st
  /\ OptimizePage.optimizing st' = false
  /\ exists msg,
       OptimizePage.alerts st'
       = (OptimizePage.alerts st ++ ["Optimization failed: " +:+ msg])%list.
Proof.
  intros Ho Hg Hops Hnull Hrps st'. subst st'.
  unfold OptimizePage.handleOptimize, OptimizePage.optimize_try.
  rewrite Ho. cbn [OptimizePage.jd OptimizePage.setOptimizing].
  rewrite Hg. cbn [bind].
  unfold OptimizePage.merge_back.
  cbn [ResumeData.projects ResumeData.with_contact].
  rewrite Hops, Hrps.
  destruct (byTitle_from_null ops Hnull ∅) as [e He].
  unfold OptimizePage.byTitle. rewrite He. cbn.
  repeat split. eauto.
Qed.

(** X7: whatever the backend answers, a handler that ran has cleared its
    busy flag, and no handler of the optimize page alters the uploaded
    original or the job description. *)
Theorem handlers_clear_their_busy_flag :
  (forall st,
     let st' := OptimizePage.handleOptimize JSON_stringify fetch_generate st in
     OptimizePage.original st' = OptimizePage.original st
     /\ OptimizePage.jd st' = OptimizePage.jd st
     /\ (st' = st \/ OptimizePage.optimizing st' = false))
  /\ (forall section content st,
        let st' :=
          OptimizePage.handleEnhance fetch_enhance section content st in
        OptimizePage.original st' = OptimizePage.original st
        /\ OptimizePage.jd st' = OptimizePage.jd st
        /\ OptimizePage.optimizing st' = OptimizePage.optimizing st
        /\ (st' = st \/ OptimizePage.enhancingSection st' = None))
  /\ (forall section content st,
        CreatePage.enhancingSection
          (CreatePage.handleEnhance fetch_enhance section content st) = None)
  /\ (forall st,
        CreatePage.loading (CreatePage.handleGenerate fetch_generate st)
        = false).
Proof.
  split; [|split; [|split]].
  - intros st st'. subst st'. unfold OptimizePage.handleOptimize.
    destruct (OptimizePage.original st) as [orig|] eqn:Ho; [|auto].
    unfold OptimizePage.optimize_try.
    destruct (generateResume _ _) as [res|e]; cbn [bind];
      [destruct (OptimizePage.merge_back _ _); cbn [bind]|];
      cbn; rewrite ?Ho; auto.
  - intros section content st st'. subst st'.
    unfold OptimizePage.handleEnhance.
    destruct (OptimizePage.original st) as [orig|] eqn:Ho; [|auto].
    unfold OptimizePage.enhance_try.
    destruct (enhanceSection _ _ _ _ _) as [res|e]; cbn [bind];
      [destruct (OptimizePage.optimized _)|];
      cbn; rewrite ?Ho; auto.
  - intros section content st.
    unfold CreatePage.handleEnhance, CreatePage.enhance_try.
    destruct (enhanceSection _ _ _ _ _); reflexivity.
  - intros st. unfold CreatePage.handleGenerate.
    destruct (generateResume _ _) as [res|e]; [|reflexivity].
    destruct (ResumeData.skills (resume_data res)); reflexivity.
Qed.

(** X8: when the generated resume has no skills array, [handleGenerate]
    alerts a failure although it has already stored the resume, its score
    and its summary; the skills text and the step stay as they were. *)
Theorem generation_without_skills_is_half_stored st res :
  generateResume fetch_generate (CreatePage.generate_input st)
  = Returned res ->
  ResumeData.skills (resume_data res) = None ->
  let st' := CreatePage.handleGenerate fetch_generate st in
  CreatePage.resumeData st' = Some (resume_data res)
  /\ CreatePage.atsScore st' = ats_score res
  /\ CreatePage.summary st' = ResumeData.summary (resume_data res)
  /\ CreatePage.skills st' = CreatePage.skills st
  /\ CreatePage.step st' = CreatePage.step st
  /\ exists msg,
       CreatePage.alerts st'
       = (CreatePage.alerts st ++ ["Generation failed: " +:+ msg])%list.
Proof.
  intros Hg Hs st'. subst st'. unfold CreatePage.handleGenerate.
  change (CreatePage.generate_input (CreatePage.setLoading true st))
    with (CreatePage.generate_input st).
  rewrite Hg, Hs. cbn. repeat split. eauto.
Qed.

End HandlersMore.

Section HandlersMoreExamples.
#[local] Existing Instance Js.ascii_engine.

Lemma null_original_project_discards_result_witness :
  OptimizePage.optimized
    (OptimizePage.handleOptimize Sample.stringify
       (Sample.backend_answers Sample.rewrite_dropped)
       (Sample.optimize_state
          (Sample.resume None None
             [Some (Sample.project "Portfolio" Sample.repo); None])))
  = None.
Proof.
  destruct (null_original_project_discards_result Sample.stringify
              (Sample.backend_answers Sample.rewrite_dropped)
              (Sample.optimize_state
                 (Sample.resume None None
                    [Some (Sample.project "Portfolio" Sample.repo); None]))
              (Sample.resume None None
                 [Some (Sample.project "Portfolio" Sample.repo); None])
              {| resume_data := Sample.rewrite_dropped; ats_score := None |}
              [Some (Sample.project "Portfolio" Sample.repo); None]
              [Some (Sample.project "portfolio" None)]
              eq_refl eq_refl eq_refl (or_intror (or_introl eq_refl))
              eq_refl)
    as [H _].
  exact H.
Defined.

Lemma generation_without_skills_is_half_stored_witness :
  CreatePage.resumeData
    (CreatePage.handleGenerate
       (Sample.backend_answers Sample.resume_without_skills)
       CreatePage.initial)
  = Some Sample.resume_without_skills
  /\ CreatePage.step
       (CreatePage.handleGenerate
          (Sample.backend_answers Sample.resume_without_skills)
          CreatePage.initial)
     = 1%nat.
Proof.
  destruct (generation_without_skills_is_half_stored
              (Sample.backend_answers Sample.resume_without_skills)
              CreatePage.initial
              {| resume_data := Sample.resume_without_skills;
                 ats_score := None |}
              eq_refl eq_refl)
    as (Hrd & _ & _ & _ & Hstep & _).
  split; [exact Hrd|exact Hstep].
Defined.

End HandlersMoreExamples.


(** * From generation to download, from sample to prompt *)

Section RoundTrips.
Import Api.
Variable fetch_generate : GenerateInput -> Outcome (Response GenerateResponse).

Lemma with_summary_skills_same rd sk :
  ResumeData.skills rd = Some sk ->
  ResumeData.with_skills (Some sk)
    (ResumeData.with_summary (ResumeData.summary rd) rd) = rd.
Proof. destruct rd; cbn; now intros ->. Qed.

(** X9: when every generated skill is one non-empty line, a generation
    takes the page to step 2 with the skills joined by line feeds, and the
    resume a download then sends, read back from the two text areas, is the
    generated resume itself. *)
Theorem generated_resume_survives_download st res sk :
  generateResume fetch_generate (CreatePage.generate_input st)
  = Returned res ->
  ResumeData.skills (resume_data res) = Some sk ->
  Forall one_line sk ->
  let st' := CreatePage.handleGenerate fetch_generate st in
  CreatePage.step st' = 2%nat
  /\ CreatePage.skills st' = Some (Js.join Sample.line_feed sk)
  /\ CreatePage.alerts st' = CreatePage.alerts st
  /\ Download.create_payload (resume_data res) st'
     = Returned (resume_data res).
Proof.
  intros Hg Hs Hl st'. subst st'. unfold CreatePage.handleGenerate.
  change (CreatePage.generate_input (CreatePage.setLoading true st))
    with (CreatePage.generate_input st).
  rewrite Hg, Hs.
  match goal with |- context [CreatePage.step ?x] => set (st' := x) end.
  assert (Hsk : CreatePage.skills st' = Some (Js.join Sample.line_feed sk))
    by reflexivity.
  assert (Hsum : CreatePage.summary st' = ResumeData.summary (resume_data res))
    by reflexivity.
  split; [reflexivity|]. split; [exact Hsk|]. split; [reflexivity|].
  unfold Download.create_payload. rewrite Hsk, Hsum.
  unfold CreatePage.skills_lines. rewrite (lines_of_joined sk Hl).
  now rewrite with_summary_skills_same.
Qed.

(** X12: loading a sample joins the responsibilities of an entry by line
    feeds, and the text built for the backend splits them again: when each
    responsibility is one non-empty line, the entry gets no bullet if the
    responsibilities are white space only, and otherwise one bullet per
    responsibility, in order, each responsibility without its leading and
    trailing white space. *)
Theorem sample_responsibilities_become_bullets ex :
  let rs := match CreatePage.se_responsibilities ex with
            | Some l => l
            | None => []
            end in
  Forall one_line rs ->
  (blank (String.concat Sample.line_feed rs) ->
   ExistingText.exp_bullets (CreatePage.exp_of_sample ex) = [])
  /\ (~ blank (String.concat Sample.line_feed rs) ->
      exists ts,
        Forall2 stripped rs ts
        /\ ExistingText.exp_bullets (CreatePage.exp_of_sample ex)
           = map (fun t => "  • " +:+ t) ts).
Proof.
  intros rs Hrs. unfold ExistingText.exp_bullets.
  cbn [CreatePage.exp_of_sample ExpEntry.responsibilities].
  change (Js.nullish (CreatePage.se_responsibilities ex) []) with rs.
  change (String "010"%char "") with Sample.line_feed.
  rewrite <- join_concat. split.
  - intros Hb. apply trim_nil in Hb. now rewrite Hb.
  - intros Hb.
    destruct (Js.nonempty (Js.trim (Js.join Sample.line_feed rs))) eqn:E.
    + exists (map Js.trim rs). split.
      * clear. induction rs as [|r rs IH]; constructor;
          [apply trim_stripped|exact IH].
      * rewrite (lines_of_joined rs Hrs), map_map. reflexivity.
    + apply nonempty_false, trim_nil in E. contradiction.
Qed.

End RoundTrips.

Lemma generated_resume_survives_download_witness :
  Download.create_payload Sample.original_once
    (CreatePage.handleGenerate (Sample.backend_answers Sample.original_once)
       CreatePage.initial)
  = Returned Sample.original_once.
Proof.
  destruct (generated_resume_survives_download
              (Sample.backend_answers Sample.original_once)
              CreatePage.initial
              {| resume_data := Sample.original_once; ats_score := None |}
              ["TypeScript"; "Rocq"] eq_refl eq_refl)
    as (_ & _ & _ & H).
  - repeat constructor; discriminate.
  - exact H.
Defined.

Lemma sample_responsibilities_become_bullets_witness :
  exists ts,
    Forall2 stripped ["  Built the engine."; "Wrote the notes. "] ts
    /\ ExistingText.exp_bullets
         (CreatePage.exp_of_sample
            {| CreatePage.se_job_title := Some "Engineer";
               CreatePage.se_company := None;
               CreatePage.se_location := None;
               CreatePage.se_start_date := None;
               CreatePage.se_end_date := None;
               CreatePage.se_responsibilities :=
                 Some ["  Built the engine."; "Wrote the notes. "] |})
       = map (fun t => "  • " +:+ t) ts.
Proof.
  apply (sample_responsibilities_become_bullets
           {| CreatePage.se_job_title := Some "Engineer";
              CreatePage.se_company := None;
              CreatePage.se_location := None;
              CreatePage.se_start_date := None;
              CreatePage.se_end_date := None;
              CreatePage.se_responsibilities :=
                Some ["  Built the engine."; "Wrote the notes. "] |}).
  - repeat constructor; discriminate.
  - intros H. apply trimStart_blank in H. discriminate H.
Defined.

(** * The text of the existing resume *)

Section ExistingTextMore.
Import ExistingText.

Lemma block_nil {A} heading (lines : A -> list string) entries :
  block heading lines entries = [] <-> entries = [].
Proof.
  destruct entries; split; try reflexivity; discriminate.
Qed.

Lemma filter_nil_Forall {A} (P : A -> bool) (l : list A) :
  filter (fun x => P x = true) l = [] <-> Forall (fun x => P x = false) l.
Proof.
  induction l as [|x l IH].
  - split; [constructor|reflexivity].
  - destruct (P x) eqn:Hx.
    + rewrite filter_cons_True by exact Hx. split; [discriminate|].
      intros H. apply Forall_cons in H as [H _]. cbv beta in H. congruence.
    + rewrite filter_cons_False by congruence. rewrite IH. split.
      * intros H. now constructor.
      * intros H. now apply Forall_cons in H as [_ H].
Qed.

(** X13: [buildExistingResumeText] returns undefined exactly when no entry
    is filled in: no education entry has a degree or an institution, no
    experience entry a job title or a company, and no project a title. *)
Theorem existing_text_is_undefined_iff_nothing_filled
  (education : list EduEntry.t) (experience : list ExpEntry.t)
  (projects : list ProjEntry.t) :
  buildExistingResumeText education experience projects = None
  <-> Forall (fun e => EduEntry.degree e = "" /\ EduEntry.institution e = "")
        education
      /\ Forall (fun e => ExpEntry.job_title e = "" /\ ExpEntry.company e = "")
           experience
      /\ Forall (fun p => ProjEntry.title p = "") projects.
Proof.
  assert (Hne : forall s, Js.nonempty s = false <-> s = "").
  { intros s. unfold Js.nonempty.
    destruct (String.eqb_spec s ""); cbn; split; congruence. }
  assert (Hor : forall a b,
             Js.nonempty a || Js.nonempty b = false <-> a = "" /\ b = "").
  { intros a b. rewrite orb_false_iff, !Hne. reflexivity. }
  unfold buildExistingResumeText.
  transitivity (parts education experience projects = []).
  { destruct (parts education experience projects); split;
      congruence. }
  unfold parts. rewrite !app_nil, !block_nil.
  unfold filledEdu, filledExp, filledProj.
  rewrite !filter_nil_Forall.
  split; intros (H1 & H2 & H3); repeat split;
    (eapply Forall_impl; [eassumption|]); intros x; cbv beta;
    rewrite ?Hor, ?Hne; auto.
Qed.


End ExistingTextMore.


(** * Editing the lists of the create page *)

Section ListEdits.
Import CreatePage.
Context {engine : Js.Engine}.

Lemma filter_index_keeps_all {A} (l : list A) :
  forall k t, (t < k)%nat ->
    Js.filter_index (fun idx => negb (idx =? t)%nat) k l = l.
Proof.
  induction l as [|x l IH]; intros k t Hlt; [reflexivity|].
  cbn [Js.filter_index].
  replace (k =? t)%nat with false by (symmetry; apply Nat.eqb_neq; lia).
  cbn [negb]. f_equal. apply IH. lia.
Qed.

Lemma filter_index_delete {A} (l : list A) :
  forall k i t, t = (k + i)%nat ->
    Js.filter_index (fun idx => negb (idx =? t)%nat) k l = delete i l.
Proof.
  induction l as [|x l IH]; intros k i t Ht; [reflexivity|].
  cbn [Js.filter_index]. destruct i as [|i].
  - replace (k =? t)%nat with true by (symmetry; apply Nat.eqb_eq; lia).
    cbn [negb]. apply filter_index_keeps_all. lia.
  - replace (k =? t)%nat with false by (symmetry; apply Nat.eqb_neq; lia).
    cbn [negb]. cbn [delete list_delete]. f_equal. apply IH. lia.
Qed.

Lemma remove_at_delete {A} (i : nat) (l : list A) :
  remove_at i l = delete i l.
Proof. apply filter_index_delete. reflexivity. Qed.

(** X16: the remove button of an entry takes out exactly that entry and
    keeps the others in order; as it is only there when the list has more
    than one entry, the list it leaves is not empty.  An index past the end
    removes nothing, and removing the entry an add button has just appended
    gives the list back. *)
Theorem removing_an_entry {A} (i : nat) (l : list A) (x : A) :
  remove_at i l = (take i l ++ drop (S i) l)%list
  /\ (removable l = true -> (i < length l)%nat ->
      S (length (remove_at i l)) = length l /\ remove_at i l <> [])
  /\ ((length l <= i)%nat -> remove_at i l = l)
  /\ remove_at (length l) (l ++ [x]) = l.
Proof.
  rewrite !remove_at_delete. split; [apply delete_take_drop|].
  split; [|split].
  - intros Hr Hi. unfold removable in Hr. apply Nat.ltb_lt in Hr.
    pose proof (length_delete l i) as Hlen.
    assert (is_Some (l !! i)) as Hs by now apply lookup_lt_is_Some.
    specialize (Hlen Hs). split; [lia|].
    intros Hnil. rewrite Hnil in Hlen. cbn in Hlen. lia.
  - intros Hi. rewrite delete_take_drop.
    rewrite take_ge, drop_ge by lia. apply app_nil_r.
  - rewrite delete_take_drop.
    rewrite take_app_length, drop_ge by (rewrite length_app; cbn; lia).
    apply app_nil_r.
Qed.

Lemma lookup_imap_at {A} (f : A -> A) (i j : nat) (l : list A) :
  imap (fun idx e => if (idx =? i)%nat then f e else e) l !! j
  = if (j =? i)%nat then f <$> l !! j else l !! j.
Proof.
  rewrite list_lookup_imap.
  destruct (j =? i)%nat; [reflexivity|].
  now destruct (l !! j).
Qed.

(** X15: an edit of a field changes the addressed entry only: the list
    keeps its length, every other entry is what it was, and the addressed
    entry is the old one with the field set; for the two dates of an
    experience the entry may also stay as it was, when the edit is
    rejected. *)
Theorem edits_touch_one_entry (i j : nat) (st : State) :
  (forall field value,
     let l' := education (updateEdu i field value st) in
     length l' = length (education st)
     /\ (j <> i -> l' !! j = education st !! j)
     /\ l' !! i = EduEntry.set field value <$> education st !! i)
  /\ (forall field value,
        let l' := projects (updateProj i field value st) in
        length l' = length (projects st)
        /\ (j <> i -> l' !! j = projects st !! j)
        /\ l' !! i = ProjEntry.set field value <$> projects st !! i)
  /\ (forall field value,
        (i < length (experience st))%nat ->
        let l' := experience (updateExp i field value st) in
        length l' = length (experience st)
        /\ (j <> i -> l' !! j = experience st !! j)
        /\ (l' !! i = ExpEntry.set field value <$> experience st !! i
            \/ (ExpEntry.is_date field = true
                /\ l' !! i = experience st !! i))).
Proof.
  split; [|split].
  - intros field value l'. subst l'. unfold updateEdu.
    cbn [education setEducation]. split; [apply length_imap|].
    split; [intros Hj|]; rewrite lookup_imap_at.
    + now replace (j =? i)%nat with false
        by (symmetry; now apply Nat.eqb_neq).
    + now rewrite Nat.eqb_refl.
  - intros field value l'. subst l'. unfold updateProj.
    cbn [projects setProjects]. split; [apply length_imap|].
    split; [intros Hj|]; rewrite lookup_imap_at.
    + now replace (j =? i)%nat with false
        by (symmetry; now apply Nat.eqb_neq).
    + now rewrite Nat.eqb_refl.
  - intros field value Hi l'. subst l'. unfold updateExp.
    destruct (ExpEntry.is_date field) eqn:Hd.
    + destruct (rejects _) eqn:Hr.
      * cbn [experience alert]. repeat split; auto.
      * cbn [experience setExperience]. unfold assign.
        replace (i <? length (experience st))%nat with true
          by (symmetry; now apply Nat.ltb_lt).
        split; [apply length_insert|].
        split; [intros Hj; now apply list_lookup_insert_ne|].
        left. rewrite list_lookup_insert_eq by assumption.
        unfold edited.
        destruct (lookup_lt_is_Some_2 _ _ Hi) as [e He].
        now rewrite He.
    + cbn [experience setExperience]. split; [apply length_imap|].
      split; [intros Hj|left]; rewrite lookup_imap_at.
      * now replace (j =? i)%nat with false
          by (symmetry; now apply Nat.eqb_neq).
      * now rewrite Nat.eqb_refl.
Qed.

End ListEdits.

Section ListEditsExamples.
Import CreatePage.
#[local] Existing Instance Js.ascii_engine.

Lemma removing_an_entry_witness :
  S (length (remove_at 0 [emptyExp; Sample.job "03/2019" ""])) = 2%nat
  /\ remove_at 0 [emptyExp; Sample.job "03/2019" ""] <> [].
Proof.
  destruct (removing_an_entry 0 [emptyExp; Sample.job "03/2019" ""] emptyExp)
    as (_ & H & _).
  apply H; [reflexivity|cbn; lia].
Defined.

Lemma edits_touch_one_entry_witness :
  experience
    (updateExp 1 ExpEntry.k_company "Babbage & Co"
       (Sample.create_state [emptyExp; Sample.job "03/2019" ""])) !! 0%nat
  = Some emptyExp.
Proof.
  destruct (edits_touch_one_entry 1 0
              (Sample.create_state [emptyExp; Sample.job "03/2019" ""]))
    as (_ & _ & H).
  destruct (H ExpEntry.k_company "Babbage & Co") as (_ & Hother & _).
  - cbn. lia.
  - now rewrite Hother.
Defined.

End ListEditsExamples.

(** * More on the date check *)

Section DateCheckMore.
Import CreatePage DatePicker.
Context {engine : Js.Engine}.

Lemma digit_char_digit d : 0 <= d <= 9 -> digit_char d = digit d.
Proof.
  intros H.
  destruct (digit_cases d H)
    as [->|[->|[->|[->|[->|[->|[->|[->|[->| ->]]]]]]]]]; reflexivity.
Qed.

Lemma digit_of_div (n k : Z) : 0 <= n / k mod 10 <= 9.
Proof. pose proof (Z.mod_pos_bound (n / k) 10). lia. Qed.

Lemma digit_of_mod (n : Z) : 0 <= n mod 10 <= 9.
Proof. pose proof (Z.mod_pos_bound n 10). lia. Qed.

Lemma decimal2 n : 0 <= n <= 99 -> 10 * (n / 10 mod 10) + n mod 10 = n.
Proof. intros H. Z.div_mod_to_equations. lia. Qed.

Lemma decimal4 n :
  0 <= n <= 9999 ->
  10 * (10 * (10 * (n / 1000 mod 10) + n / 100 mod 10) + n / 10 mod 10)
  + n mod 10 = n.
Proof. intros H. Z.div_mod_to_equations. lia. Qed.

(** What the picker produces is the month on two digits, a slash and the
    year on four. *)
Lemma format_written date :
  0 <= month date <= 99 -> 0 <= year date <= 9999 ->
  month_year (format date) (month date) (year date).
Proof.
  intros Hm Hy.
  exists [month date / 10 mod 10; month date mod 10],
    [year date / 1000 mod 10; year date / 100 mod 10;
     year date / 10 mod 10; year date mod 10], "/".
  split; [now left|].
  split; [split; [discriminate|repeat constructor;
                               apply digit_of_div || apply digit_of_mod]|].
  split; [split; [discriminate|repeat constructor;
                               apply digit_of_div || apply digit_of_mod]|].
  split; [unfold number; cbn [fold_left]; rewrite <- (decimal2 _ Hm) at 3; lia|].
  split; [unfold number; cbn [fold_left]; rewrite <- (decimal4 _ Hy) at 5; lia|].
  unfold format, pad4, pad2.
  rewrite !digit_char_digit by (apply digit_of_div || apply digit_of_mod).
  reflexivity.
Qed.

(** A date the picker produces parses as its month and year. *)
Lemma parseDate_format date :
  plausible date ->
  parseDate (format date)
  = Some (Some (12 * year date + (month date - 1))).
Proof.
  intros [Hm Hy].
  rewrite (parseDate_written _ (month date) (year date))
    by (apply format_written; lia).
  f_equal. apply make_dated. split; lia.
Qed.

Lemma format_ascii date :
  0 <= month date <= 99 -> 0 <= year date <= 9999 ->
  Js.ascii_text (format date) = true.
Proof.
  intros Hm Hy. eapply month_year_ascii. now apply format_written.
Qed.

Lemma later_ltb a b :
  plausible a -> plausible b ->
  (12 * year b + (month b - 1) <? 12 * year a + (month a - 1)) = true
  <-> later a b.
Proof.
  intros [? ?] [? ?]. rewrite Z.ltb_lt. unfold later. lia.
Qed.

(** X17: on the dates the picker produces (years 100 to 9999) the check
    is exactly the comparison of the two months: an edit of the start or of
    the end date is rejected when the start month is then later than the end
    month, and applied to the entry otherwise, the same month included. *)
Theorem picked_dates_are_rejected_iff_inverted i entry st a b :
  experience st !! i = Some entry ->
  plausible a -> plausible b ->
  (ExpEntry.end_date entry = format b ->
   (later a b ->
    updateExp i ExpEntry.k_start_date (changed (Some a)) st
    = alert "Start date cannot be after end date." st)
   /\ (~ later a b ->
       updateExp i ExpEntry.k_start_date (changed (Some a)) st
       = setExperience
           (<[i := ExpEntry.set ExpEntry.k_start_date (format a) entry]>
              (experience st)) st))
  /\ (ExpEntry.start_date entry = format a ->
      (later a b ->
       updateExp i ExpEntry.k_end_date (changed (Some b)) st
       = alert "Start date cannot be after end date." st)
      /\ (~ later a b ->
          updateExp i ExpEntry.k_end_date (changed (Some b)) st
          = setExperience
              (<[i := ExpEntry.set ExpEntry.k_end_date (format b) entry]>
                 (experience st)) st)).
Proof.
  intros Hi Ha Hb. cbn [changed].
  pose proof (later_ltb a b Ha Hb) as Hl.
  split; intros Hother.
  - rewrite (updateExp_date_in_range i entry ExpEntry.k_start_date
               (format a) st Hi eq_refl).
    rewrite (rejects_parsed _ (12 * year a + (month a - 1))
               (12 * year b + (month b - 1)));
      cbn [ExpEntry.set ExpEntry.start_date ExpEntry.end_date];
      rewrite ?Hother;
      try first [now apply parseDate_format
                |apply format_ascii; unfold plausible in *; lia].
    destruct (12 * year b + (month b - 1) <? 12 * year a + (month a - 1));
      split; intros H; try reflexivity.
    + contradiction H. now apply Hl.
    + apply Hl in H. discriminate.
  - rewrite (updateExp_date_in_range i entry ExpEntry.k_end_date
               (format b) st Hi eq_refl).
    rewrite (rejects_parsed _ (12 * year a + (month a - 1))
               (12 * year b + (month b - 1)));
      cbn [ExpEntry.set ExpEntry.start_date ExpEntry.end_date];
      rewrite ?Hother;
      try first [now apply parseDate_format
                |apply format_ascii; unfold plausible in *; lia].
    destruct (12 * year b + (month b - 1) <? 12 * year a + (month a - 1));
      split; intros H; try reflexivity.
    + contradiction H. now apply Hl.
    + apply Hl in H. discriminate.
Qed.

Lemma parseDate_unseparated d : unseparated d -> parseDate d = None.
Proof.
  intros H. unfold parseDate. now rewrite (split_free _ d H).
Qed.

(** X18: an edit after which a date of the entry is empty, or has neither
    a slash nor a hyphen (a date such as "Jan 2020", or "Present"), is not
    checked: it is applied to the entry and nothing is alerted. *)
Theorem unchecked_dates_are_applied i entry field value st :
  experience st !! i = Some entry ->
  ExpEntry.is_date field = true ->
  let entry' := ExpEntry.set field value entry in
  ExpEntry.start_date entry' = ""
  \/ ExpEntry.end_date entry' = ""
  \/ unseparated (ExpEntry.start_date entry')
  \/ unseparated (ExpEntry.end_date entry') ->
  updateExp i field value st
  = setExperience (<[i := entry']> (experience st)) st.
Proof.
  intros Hi Hd entry' Hcase.
  rewrite (updateExp_date_in_range i entry field value st Hi Hd).
  fold entry'.
  replace (rejects entry') with false; [reflexivity|].
  symmetry. unfold rejects.
  destruct Hcase as [H|[H|[H|H]]].
  - now rewrite H.
  - rewrite H. cbn. now rewrite andb_false_r.
  - rewrite (parseDate_unseparated _ H). cbn. now rewrite andb_false_r.
  - rewrite (parseDate_unseparated _ H).
    unfold starts_after.
    destruct (parseDate (ExpEntry.start_date entry'));
      now rewrite andb_false_r.
Qed.

Lemma parseDate_format_early d :
  1 <= month d <= 12 -> 0 <= year d <= 99 ->
  parseDate (format d) = Some (Some (12 * (1900 + year d) + (month d - 1))).
Proof.
  intros Hm Hy.
  rewrite (parseDate_written _ (month d) (year d))
    by (apply format_written; lia).
  f_equal. now apply make_early.
Qed.

(** X19: a picked date in a year from 0 to 99 is read as a date of the
    years 1900 to 1999.  So against an end date in such a year a start date
    in a year from 100 to 1899, although later, is not rejected: the edit
    is applied. *)
Theorem early_years_are_read_as_1900s i entry st a b :
  experience st !! i = Some entry ->
  ExpEntry.end_date entry = format b ->
  1 <= month b <= 12 -> 0 <= year b <= 99 ->
  plausible a -> year a < 1900 ->
  later a b
  /\ parseDate (format b)
     = Some (Some (12 * (1900 + year b) + (month b - 1)))
  /\ updateExp i ExpEntry.k_start_date (changed (Some a)) st
     = setExperience
         (<[i := ExpEntry.set ExpEntry.k_start_date (format a) entry]>
            (experience st)) st.
Proof.
  intros Hi Hend Hm Hy Ha Hlt. cbn [changed].
  split; [destruct Ha; left; lia|].
  split; [now apply parseDate_format_early|].
  rewrite (updateExp_date_in_range i entry ExpEntry.k_start_date
             (format a) st Hi eq_refl).
  rewrite (rejects_parsed _ (12 * year a + (month a - 1))
             (12 * (1900 + year b) + (month b - 1)));
    cbn [ExpEntry.set ExpEntry.start_date ExpEntry.end_date];
    rewrite ?Hend;
    [|now apply parseDate_format|now apply parseDate_format_early
     |apply format_ascii; lia].
  replace (12 * (1900 + year b) + (month b - 1)
           <? 12 * year a + (month a - 1)) with false; [reflexivity|].
  symmetry. apply Z.ltb_ge. destruct Ha. lia.
Qed.

End DateCheckMore.

Section DateCheckMoreExamples.
#[local] Existing Instance Js.ascii_engine.

Lemma picked_dates_are_rejected_iff_inverted_witness :
  CreatePage.updateExp 0 ExpEntry.k_end_date "01/2020"
    (Sample.create_state [Sample.job "01/2020" ""])
  = CreatePage.setExperience [Sample.job "01/2020" "01/2020"]
      (Sample.create_state [Sample.job "01/2020" ""]).
Proof.
  assert (Hp : DatePicker.plausible
                 {| DatePicker.month := 1; DatePicker.year := 2020 |})
    by (split; cbn; lia).
  destruct (picked_dates_are_rejected_iff_inverted 0
              (Sample.job "01/2020" "")
              (Sample.create_state [Sample.job "01/2020" ""])
              {| DatePicker.month := 1; DatePicker.year := 2020 |}
              {| DatePicker.month := 1; DatePicker.year := 2020 |}
              eq_refl Hp Hp)
    as [_ Hend].
  destruct (Hend eq_refl) as [_ Happlied].
  apply Happlied. unfold DatePicker.later. cbn. lia.
Defined.

Lemma unchecked_dates_are_applied_witness :
  CreatePage.updateExp 0 ExpEntry.k_start_date "05/2021"
    (Sample.create_state [Sample.job "" "Jan 2020"])
  = CreatePage.setExperience [Sample.job "05/2021" "Jan 2020"]
      (Sample.create_state [Sample.job "" "Jan 2020"]).
Proof.
  apply (unchecked_dates_are_applied 0 (Sample.job "" "Jan 2020")
           ExpEntry.k_start_date "05/2021"
           (Sample.create_state [Sample.job "" "Jan 2020"])
           eq_refl eq_refl).
  right. right. right. cbn. repeat split.
Defined.

Lemma early_years_are_read_as_1900s_witness :
  CreatePage.updateExp 0 ExpEntry.k_start_date "01/0100"
    (Sample.create_state [Sample.job "" "01/0099"])
  = CreatePage.setExperience [Sample.job "01/0100" "01/0099"]
      (Sample.create_state [Sample.job "" "01/0099"]).
Proof.
  assert (Hp : DatePicker.plausible
                 {| DatePicker.month := 1; DatePicker.year := 100 |})
    by (split; cbn; lia).
  destruct (early_years_are_read_as_1900s 0 (Sample.job "" "01/0099")
              (Sample.create_state [Sample.job "" "01/0099"])
              {| DatePicker.month := 1; DatePicker.year := 100 |}
              {| DatePicker.month := 1; DatePicker.year := 99 |}
              eq_refl eq_refl ltac:(cbn; lia) ltac:(cbn; lia) Hp
              ltac:(cbn; lia))
    as (_ & _ & H).
  exact H.
Defined.

End DateCheckMoreExamples.

(** * More on the preview *)

Section PreviewMore.
Import Preview.
Context {engine : Js.Engine}.

Lemma all_defined_Returned {A} what (l : list (option A)) ps :
  all_defined what l = Returned ps -> l = map Some ps.
Proof.
  revert ps; induction l as [|[a|] l IH]; intros ps; cbn.
  - now intros [= <-].
  - destruct (all_defined what l) as [r|e]; cbn; [|discriminate].
    intros [= <-]. cbn. f_equal. now apply IH.
  - discriminate.
Qed.

Lemma preview_returns_iff props :
  (exists tree, ResumePreview props = Returned tree)
  <-> is_Some (ResumeData.experience (data props))
      /\ is_Some (ResumeData.education (data props))
      /\ exists ps, ResumeData.projects (data props) = Some (map Some ps).
Proof.
  split.
  - intros [tree H]. unfold ResumePreview in H.
    destruct (ResumeData.experience (data props)) as [exps|];
      cbn [defined bind] in H; [|discriminate].
    destruct (ResumeData.projects (data props)) as [l|];
      cbn [defined bind] in H; [|discriminate].
    destruct (all_defined "link" l) as [ps|] eqn:Hps;
      cbn [bind] in H; [|discriminate].
    destruct (ResumeData.education (data props)) as [eds|];
      cbn [defined bind] in H; [|discriminate].
    repeat split; eauto. exists ps. f_equal.
    now apply all_defined_Returned in Hps.
  - intros ([exps He] & [eds Hd] & [ps Hp]).
    destruct (preview_renders_entries props exps ps eds He Hp Hd)
      as (tree & Htree & _).
    eauto.
Qed.

(** X20: the preview throws, and shows nothing, for a resume that lacks
    its experience, its education or its projects array, or has a null entry
    among its projects. *)
Theorem preview_throws_without_collections props :
  ResumeData.experience (data props) = None
  \/ ResumeData.education (data props) = None
  \/ ResumeData.projects (data props) = None
  \/ (exists l, ResumeData.projects (data props) = Some l /\ In None l) ->
  exists e, ResumePreview props = Thrown e.
Proof.
  intros H. unfold ResumePreview.
  destruct (ResumeData.experience (data props)) as [exps|];
    cbn [defined bind]; [|eauto].
  destruct (ResumeData.projects (data props)) as [l|];
    cbn [defined bind]; [|eauto].
  destruct (all_defined "link" l) as [ps|] eqn:Hps; cbn [bind]; [|eauto].
  destruct (ResumeData.education (data props)) as [eds|];
    cbn [defined bind]; [|eauto].
  exfalso. destruct H as [H|[H|[H|(l' & [= <-] & Hin)]]]; try discriminate.
  apply all_defined_Returned in Hps. subst l.
  apply in_map_iff in Hin as (x & Hx & _). discriminate.
Qed.

Lemma Forall2_only_link_defined rps mps :
  Forall2 only_link_filled rps mps ->
  (exists ps, rps = map Some ps) <-> (exists qs, mps = map Some qs).
Proof.
  induction 1 as [|r m rps mps Hrm _ IH].
  - split; intros _; exists []; reflexivity.
  - destruct r as [p|], m as [q|]; try contradiction.
    + split; intros [[|x l] Hl]; try discriminate;
        injection Hl as _ Hl.
      * destruct (proj1 IH (ex_intro _ l Hl)) as [qs ->].
        now exists (q :: qs).
      * destruct (proj2 IH (ex_intro _ l Hl)) as [ps ->].
        now exists (p :: ps).
    + split; intros [[|x l] Hl]; discriminate.
Qed.

(** X6: the reconciliation does not change whether the preview of the
    optimized resume renders: it renders for the merged resume exactly when
    it would for the rewrite as it came from the backend. *)
Theorem reconciliation_keeps_the_preview_rendering
  orig rewritten merged so sk :
  OptimizePage.merge_back orig rewritten = Returned merged ->
  (exists tree,
     ResumePreview {| data := merged; summaryOverride := so;
                      skillsOverride := sk |} = Returned tree)
  <-> (exists tree,
         ResumePreview {| data := rewritten; summaryOverride := so;
                          skillsOverride := sk |} = Returned tree).
Proof.
  intros H. rewrite !preview_returns_iff. cbn [data].
  destruct (merge_back_shape _ _ _ H) as (mps & -> & Hps).
  cbn [ResumeData.experience ResumeData.education ResumeData.projects
       ResumeData.with_projects ResumeData.with_contact].
  assert (Hproj :
    (exists ps, mps = Some (map Some ps))
    <-> (exists ps, ResumeData.projects rewritten = Some (map Some ps))).
  { destruct (ResumeData.projects rewritten) as [rps|], mps as [l|];
      try contradiction; [|reflexivity].
    assert (HF : Forall2 only_link_filled rps l).
    { destruct Hps as [[_ ->]|(ops & m & _ & _ & ->)].
      - clear. induction rps as [|[p|] rps IH]; constructor; auto.
        + repeat split; auto.
        + exact I.
      - apply map_patch_only_link. }
    pose proof (Forall2_only_link_defined _ _ HF) as Hd.
    split; intros [ps Hl]; injection Hl as Hl.
    - destruct (proj2 Hd (ex_intro _ ps Hl)) as [qs ->]. eauto.
    - destruct (proj1 Hd (ex_intro _ ps Hl)) as [qs ->]. eauto. }
  now rewrite Hproj.
Qed.

Lemma anchors_render_project proj :
  anchors (render_project proj)
  = match ProjectEntry.link proj with
    | Some l => if String.prefix "http" l then [Some l] else []
    | None => []
    end.
Proof.
  assert (Hhas : hasLink proj
                 = match ProjectEntry.link proj with
                   | Some l => String.prefix "http" l
                   | None => false
                   end).
  { unfold hasLink, Js.startsWith, Js.truthy, Js.or_str, Js.nonempty.
    destruct (ProjectEntry.link proj) as [l|]; [|reflexivity].
    now destruct (String.eqb_spec l "") as [->|_]. }
  transitivity (if hasLink proj then [ProjectEntry.link proj] else []).
  - unfold render_project.
    destruct (hasLink proj), (Js.nonempty (techs proj)),
      (Js.nonempty (ProjectEntry.description proj)),
      (ProjectEntry.title proj); reflexivity.
  - rewrite Hhas. destruct (ProjectEntry.link proj) as [l|]; reflexivity.
Qed.

(** X5: hyperlink preservation end to end: when the rewrite dropped the
    link of a project and the last original of the same title has a link
    that starts with "http", the merged project is rendered in the preview
    with an anchor to that link, next to what the rewritten project shows. *)
Theorem restored_link_is_rendered orig rewritten ps rps i p o l :
  ResumeData.projects orig = Some (map Some ps) ->
  ResumeData.projects rewritten = Some rps ->
  rps !! i = Some (Some p) ->
  linked p = false ->
  last_match ps o p ->
  ProjectEntry.link o = Some l ->
  (exists rest, l = "http" +:+ rest) ->
  exists merged mps q,
    OptimizePage.merge_back orig rewritten = Returned merged
    /\ ResumeData.projects merged = Some mps
    /\ mps !! i = Some (Some q)
    /\ anchors (render_project q) = [Some l]
    /\ without_anchors (render_project q)
       = without_anchors (render_project p).
Proof.
  intros Ho Hr Hi Hp Hlast Hl Hhttp.
  destruct (merge_back_projects _ _ _ _ Ho Hr) as (m & merged & Hm & Hmb & Hps).
  destruct (byTitle_last_match _ _ _ Hlast) as (m' & Hm' & Hlk).
  rewrite Hm in Hm'. injection Hm' as <-.
  assert (Hlo : linked o = true).
  { unfold linked. rewrite Hl. destruct Hhttp as [rest ->]. reflexivity. }
  exists merged, (map (OptimizePage.patch m) rps),
    (ProjectEntry.with_link (Some l) p).
  split; [exact Hmb|]. split; [exact Hps|]. split; [|split].
  - rewrite lookup_map, Hi. cbn [option_map].
    now rewrite (patch_found _ _ _ Hlk), Hp, Hlo, Hl.
  - rewrite anchors_render_project. cbn [ProjectEntry.link
      ProjectEntry.with_link].
    now rewrite (proj2 (prefix_append "http" l) Hhttp).
  - unfold render_project.
    change (techs (ProjectEntry.with_link (Some l) p)) with (techs p).
    cbn [ProjectEntry.with_link ProjectEntry.title ProjectEntry.description].
    destruct (hasLink (ProjectEntry.with_link (Some l) p)), (hasLink p),
      (Js.nonempty (techs p)), (Js.nonempty (ProjectEntry.description p)),
      (ProjectEntry.title p); reflexivity.
Qed.

Lemma headings_el tag children :
  String.eqb tag "h2" = false ->
  headings (el tag children) = flat_map headings children.
Proof. intros H. cbn. now rewrite H. Qed.

Lemma headings_when cond n :
  flat_map headings (when cond n) = if cond then headings n else [].
Proof. destruct cond; cbn; [apply app_nil_r|reflexivity]. Qed.

Lemma headings_map_nil {A} (f : A -> Node) (l : list A) :
  (forall x, headings (f x) = []) -> flat_map headings (map f l) = [].
Proof.
  intros Hf. induction l as [|x l IH]; [reflexivity|].
  cbn [map flat_map]. now rewrite Hf, IH.
Qed.

Lemma headings_section heading body :
  headings (section heading body) = heading :: headings body.
Proof. cbn. now rewrite app_nil_r. Qed.

Lemma headings_render_experience exp : headings (render_experience exp) = [].
Proof.
  unfold render_experience. cbn.
  rewrite (headings_map_nil (fun r => el "li" [Text r])) by reflexivity.
  now destruct (ExperienceEntry.location exp).
Qed.

Lemma headings_render_project proj : headings (render_project proj) = [].
Proof.
  unfold render_project.
  destruct (hasLink proj), (Js.nonempty (techs proj)),
    (Js.nonempty (ProjectEntry.description proj)),
    (ProjectEntry.title proj); reflexivity.
Qed.

Lemma headings_render_education edu : headings (render_education edu) = [].
Proof.
  unfold render_education. cbn.
  now destruct (EducationEntry.location edu).
Qed.

(** X21: the preview shows its sections in the order Summary, Experience,
    Projects, Skills, Education, Certifications, and shows the heading of a
    section exactly when the section has content: a non-empty summary, at
    least one entry.  The summary and the skills are those of the override
    when one is passed, even an empty one. *)
Theorem preview_sections_in_order props exps ps eds :
  ResumeData.experience (data props) = Some exps ->
  ResumeData.projects (data props) = Some (map Some ps) ->
  ResumeData.education (data props) = Some eds ->
  let summary := match summaryOverride props with
                 | Some s => Some s
                 | None => ResumeData.summary (data props)
                 end in
  let skills := match skillsOverride props with
                | Some l => l
                | None => Js.nullish (ResumeData.skills (data props)) []
                end in
  let certifications :=
    Js.nullish (ResumeData.certifications (data props)) [] in
  exists tree,
    ResumePreview props = Returned tree
    /\ headings tree
       = ((if Js.truthy summary then ["Summary"] else [])
          ++ (if (0 <? length exps)%nat then ["Experience"] else [])
          ++ (if (0 <? length ps)%nat then ["Projects"] else [])
          ++ (if (0 <? length skills)%nat then ["Skills"] else [])
          ++ (if (0 <? length eds)%nat then ["Education"] else [])
          ++ (if (0 <? length certifications)%nat
              then ["Certifications"] else []))%list.
Proof.
  intros He Hp Hd summary skills certifications.
  unfold ResumePreview. rewrite He, Hp, Hd. cbn [defined bind].
  rewrite all_defined_map_Some. cbn [bind].
  eexists. split; [reflexivity|].
  rewrite headings_el by reflexivity.
  rewrite !flat_map_app, !headings_when, !headings_section.
  rewrite !headings_el by reflexivity.
  rewrite !(headings_map_nil render_experience)
    by apply headings_render_experience.
  rewrite !(headings_map_nil render_project)
    by apply headings_render_project.
  rewrite !(headings_map_nil render_education)
    by apply headings_render_education.
  rewrite (headings_map_nil (fun skill => el "li" [Text (cleanSkill skill)]))
    by reflexivity.
  rewrite (headings_map_nil (fun cert => el "li" [Text cert]))
    by reflexivity.
  assert (Hsk : Js.nullish
                  match skillsOverride props with
                  | Some l => Some l
                  | None => ResumeData.skills (data props)
                  end [] = skills).
  { subst skills. now destruct (skillsOverride props). }
  rewrite Hsk. fold summary. fold certifications.
  assert (Hcontact : forall l,
    flat_map headings
      [el "h1" [Text (ResumeData.full_name (data props))]; el "div" l]
    = flat_map headings l).
  { intros l. cbn. now rewrite app_nil_r. }
  rewrite Hcontact. rewrite !flat_map_app, !headings_when.
  assert (Htext : forall s : option string,
            flat_map headings (text_opt s) = []).
  { intros [s|]; reflexivity. }
  rewrite Htext.
  assert (Hlocation :
    headings (el "span"
                (Text " | " :: text_opt (ResumeData.location (data props))))
    = []).
  { now destruct (ResumeData.location (data props)). }
  rewrite Hlocation.
  destruct (Js.nonempty (ResumeData.email (data props))),
    (Js.truthy (ResumeData.linkedin (data props))),
    (Js.truthy (ResumeData.location (data props))); reflexivity.
Qed.

End PreviewMore.

Section PreviewMoreExamples.
#[local] Existing Instance Js.ascii_engine.

Lemma reconciliation_keeps_the_preview_rendering_witness :
  exists merged,
    OptimizePage.merge_back Sample.original_once Sample.rewrite_dropped
    = Returned merged
    /\ exists tree,
         Preview.ResumePreview
           {| Preview.data := merged; Preview.summaryOverride := None;
              Preview.skillsOverride := None |} = Returned tree.
Proof.
  eexists. split; [reflexivity|].
  apply (reconciliation_keeps_the_preview_rendering
           Sample.original_once Sample.rewrite_dropped _ None None eq_refl).
  eexists. reflexivity.
Defined.

Lemma restored_link_is_rendered_witness :
  exists merged mps q,
    OptimizePage.merge_back Sample.original_once Sample.rewrite_dropped
    = Returned merged
    /\ ResumeData.projects merged = Some mps
    /\ mps !! 0%nat = Some (Some q)
    /\ Preview.anchors (Preview.render_project q) = [Sample.repo].
Proof.
  destruct (restored_link_is_rendered
              Sample.original_once Sample.rewrite_dropped
              [Sample.project "Portfolio" Sample.repo]
              [Some (Sample.project "portfolio" None)] 0
              (Sample.project "portfolio" None)
              (Sample.project "Portfolio" Sample.repo)
              "https://github.com/ada/portfolio"
              eq_refl eq_refl eq_refl eq_refl)
    as (merged & mps & q & Hm & Hp & Hq & Ha & _).
  - exists [], []. repeat split; simpl; auto; intros x [].
  - reflexivity.
  - exists "s://github.com/ada/portfolio". reflexivity.
  - exists merged, mps, q. auto.
Defined.

Lemma preview_sections_in_order_witness :
  exists tree,
    Preview.ResumePreview Sample.preview_props = Returned tree
    /\ headings tree = ["Summary"; "Experience"; "Projects"; "Skills"].
Proof.
  apply (preview_sections_in_order Sample.preview_props
           [Sample.position None]
           [Sample.project "Portfolio" Sample.bare_link] []
           eq_refl eq_refl eq_refl).
Defined.

End PreviewMoreExamples.

(** * Downloads *)

Section DownloadMore.
Import Download.

Lemma suffix_spaceless (dot : string) format :
  dot = "_optimized." \/ dot = "." ->
  spaceless (dot +:+ extension format)
  /\ head_continues (dot +:+ extension format) = false.
Proof.
  intros [-> | ->]; destruct format; (split; [no_white_space|reflexivity]).
Qed.

Lemma underscore_from_kept (a rest : string) in_run :
  spaceless a -> head_continues rest = false ->
  Js.underscore_from in_run (a +:+ rest)
  = a +:+ Js.underscore_from
            match a with EmptyString => in_run | String _ _ => false end rest.
Proof.
  intros Ha Hrest. revert in_run.
  induction a as [|c a IH]; intros in_run; [reflexivity|].
  apply spaceless_cons in Ha as [Hc Ha].
  rewrite underscore_from_eq. rewrite append_String.
  rewrite <- append_String.
  rewrite leading_space_append;
    [|now apply not_starts_white|discriminate|exact Hrest].
  rewrite append_String. f_equal. rewrite (IH Ha). now destruct a.
Qed.

Lemma underscore_from_run (ws rest : string) :
  blank ws ->
  Js.underscore_from true (ws +:+ rest) = Js.underscore_from true rest.
Proof.
  induction 1 as [|w s Hw _ IH]; [reflexivity|].
  rewrite append_assoc, underscore_from_eq.
  rewrite (leading_space_white w (s +:+ rest) Hw).
  destruct (w +:+ s +:+ rest) eqn:E.
  - apply append_nil in E as [E _]. now apply white_nonempty in Hw.
  - exact IH.
Qed.

(** X23: the name under which a resume is saved never contains white
    space: a run of white space in the candidate's name has become one
    underscore, and a name without white space is kept as it is, followed by
    "_optimized." on the optimize page or "." on the create page and the
    format. *)
Theorem download_names_have_no_spaces data cst format :
  spaceless (optimize_name data format)
  /\ spaceless (create_name cst format)
  /\ (spaceless (ResumeData.full_name data) ->
      optimize_name data format
      = ResumeData.full_name data +:+ "_optimized." +:+ extension format)
  /\ (spaceless (CreatePage.fullName cst) ->
      create_name cst format
      = CreatePage.fullName cst +:+ "." +:+ extension format)
  /\ (forall first ws last,
        spaceless first -> blank ws -> ws <> "" -> spaceless last ->
        (ResumeData.full_name data = first +:+ ws +:+ last ->
         optimize_name data format
         = first +:+ "_" +:+ last +:+ "_optimized." +:+ extension format)
        /\ (CreatePage.fullName cst = first +:+ ws +:+ last ->
            create_name cst format
            = first +:+ "_" +:+ last +:+ "." +:+ extension format)).
Proof.
  unfold optimize_name, create_name, Js.underscore_spaces.
  destruct (suffix_spaceless "_optimized." format (or_introl eq_refl))
    as [Ho Hoh].
  destruct (suffix_spaceless "." format (or_intror eq_refl)) as [Hc Hch].
  assert (Hrun : forall first ws last,
            spaceless first -> blank ws -> ws <> "" -> spaceless last ->
            Js.underscore_from false (first +:+ ws +:+ last)
            = first +:+ "_" +:+ last).
  { intros first ws last Hf Hws Hne Hl.
    destruct Hws as [|w s Hw Hs]; [contradiction|].
    rewrite underscore_from_kept;
      [|exact Hf|apply (leading_space_head _ (s +:+ last));
                  rewrite append_assoc; now apply leading_space_white].
    f_equal. rewrite append_assoc, underscore_from_eq.
    rewrite (leading_space_white w (s +:+ last) Hw).
    destruct (w +:+ s +:+ last) eqn:E.
    { apply append_nil in E as [E _]. now apply white_nonempty in Hw. }
    replace match first with EmptyString => false | String _ _ => false end
      with false by now destruct first.
    cbn [Js.mark]. rewrite append_String, append_empty. f_equal.
    rewrite underscore_from_run by exact Hs.
    rewrite <- (append_nil_r last) at 1.
    rewrite underscore_from_kept by (exact Hl || reflexivity).
    cbn [Js.underscore_from]. apply append_nil_r. }
  split; [|split; [|split; [|split]]].
  - apply spaceless_append; [apply underscore_from_spaceless|exact Ho|exact Hoh].
  - apply spaceless_append; [apply underscore_from_spaceless|exact Hc|exact Hch].
  - intros H. now rewrite underscore_from_same.
  - intros H. now rewrite underscore_from_same.
  - intros first ws last Hf Hws Hne Hl.
    split; intros ->; rewrite (Hrun first ws last Hf Hws Hne Hl);
      now rewrite !append_assoc.
Qed.

Lemma download_names_have_no_spaces_witness :
  optimize_name (ResumeData.with_summary None Sample.resume_without_skills) pdf
  = "Ada_Lovelace_optimized.pdf"
  /\ create_name CreatePage.initial docx = ".docx".
Proof.
  destruct (download_names_have_no_spaces
              (ResumeData.with_summary None Sample.resume_without_skills)
              CreatePage.initial docx) as (_ & _ & _ & Hcreate & _).
  destruct (download_names_have_no_spaces
              (ResumeData.with_summary None Sample.resume_without_skills)
              CreatePage.initial pdf) as (_ & _ & _ & _ & Hrun).
  split.
  - apply (Hrun "Ada" " " "Lovelace"); try no_white_space.
    + apply (blank_more " " ""); [is_white|constructor].
    + discriminate.
    + reflexivity.
  - apply Hcreate. apply spaceless_nil.
Defined.

Variable fetch_download : ResumeData.t -> Format -> Outcome Fetched.

(** A download of the optimize page sends the optimized resume when
    there is one and the original otherwise; it saves one file when the
    backend answers and none when it fails, in which case the failure is
    alerted; it never changes the resumes of the page, and without any
    resume it does nothing. *)
Lemma optimize_download_sends_the_latest format
  (st : Page OptimizePage.State) :
  let st' := handleDownload_optimize fetch_download format st in
  OptimizePage.original (page st') = OptimizePage.original (page st)
  /\ OptimizePage.optimized (page st') = OptimizePage.optimized (page st)
  /\ match OptimizePage.optimized (page st), OptimizePage.original (page st)
     with
     | None, None => st' = st
     | Some d, _ | None, Some d =>
         match downloadResume fetch_download d format with
         | Returned b =>
             saved st'
             = (saved st ++ [{| content := b;
                                download := optimize_name d format |}])%list
             /\ OptimizePage.alerts (page st')
                = OptimizePage.alerts (page st)
         | Thrown e =>
             saved st' = saved st
             /\ OptimizePage.alerts (page st')
                = (OptimizePage.alerts (page st)
                   ++ ["Download failed: " +:+ message e])%list
         end
     end.
Proof.
  intros st'. subst st'. unfold handleDownload_optimize, optimize_data.
  destruct (OptimizePage.optimized (page st)) as [d|] eqn:Hopt.
  - destruct (downloadResume fetch_download d format); cbn;
      rewrite ?Hopt; auto.
  - destruct (OptimizePage.original (page st)) as [d|] eqn:Ho.
    + destruct (downloadResume fetch_download d format); cbn;
        rewrite ?Hopt, ?Ho; auto.
    + rewrite Hopt, Ho. auto.
Qed.

End DownloadMore.

(** * The chat *)

Section ChatMore.
Import ChatPage.
Variable fetch_chat : ChatInput -> Outcome Fetched.

Lemma fold_append (l : list string) :
  forall acc, fold_left String.append l acc = acc +:+ Js.join "" l.
Proof.
  induction l as [|x l IH]; intros acc; [now rewrite append_nil_r|].
  cbn [fold_left]. rewrite IH. destruct l as [|y l].
  - cbn [Js.join]. now rewrite append_nil_r.
  - change (Js.join "" (x :: y :: l)) with (x +:+ "" +:+ Js.join "" (y :: l)).
    rewrite append_empty. apply append_assoc.
Qed.

(** X24: a message that is blank, or sent while an answer is streaming,
    is ignored: the page stays exactly as it is and the backend is not
    called. *)
Theorem blank_or_busy_message_is_ignored text st :
  blank text \/ streaming st = true ->
  sendMessage fetch_chat text st = st.
Proof.
  intros [Hb|Hs]; unfold sendMessage.
  - unfold Js.trim. rewrite (trimStart_blank text Hb). reflexivity.
  - rewrite Hs. now rewrite orb_true_r.
Qed.

(** X25: a message that is not blank, sent while no answer is streaming,
    extends the conversation by exactly two messages and leaves the earlier
    ones untouched: the question of the user without the white space around
    it, and one answer of the assistant.  The answer is the concatenation
    of the chunks streamed when the stream ends normally, and the apology
    when the request or the stream fails, the chunks received until then
    being discarded.  The input is cleared and the page is no longer
    streaming. *)
Theorem sent_message_adds_question_and_answer text st :
  ~ blank text ->
  streaming st = false ->
  exists asked,
    stripped text asked
    /\ let question := {| role := user; content := asked |} in
       let stream :=
         chatStream fetch_chat (messages st ++ [question])
           (or_undefined (jd st)) (or_undefined (resumeContext st)) in
       let st' := sendMessage fetch_chat text st in
       messages st'
       = (messages st
          ++ [question;
              match thrown stream with
              | Some _ => sorry
              | None => {| role := assistant;
                           content := String.concat "" (yielded stream) |}
              end])%list
       /\ input st' = ""
       /\ streaming st' = false
       /\ showContext st' = false.
Proof.
  intros Ht Hs. exists (Js.trim text). split; [apply trim_stripped|].
  intros question stream st'. subst st'. unfold sendMessage.
  rewrite Hs.
  replace (Js.nonempty (Js.trim text)) with true
    by (symmetry; apply nonempty_true; now rewrite trim_nil).
  cbn [negb orb]. cbn [messages input streaming showContext].
  split; [|repeat split].
  fold question. fold stream. unfold answered.
  destruct (thrown stream); rewrite <- app_assoc; [reflexivity|].
  now rewrite fold_append, append_empty, join_concat.
Qed.

End ChatMore.

Lemma blank_or_busy_message_is_ignored_witness :
  ChatPage.sendMessage Sample.chat_answers "   " Sample.chat_state
  = Sample.chat_state.
Proof.
  apply (blank_or_busy_message_is_ignored Sample.chat_answers "   "
           Sample.chat_state).
  left. apply trimStart_nil_blank. reflexivity.
Defined.

Lemma sent_message_adds_question_and_answer_witness :
  ChatPage.messages
    (ChatPage.sendMessage Sample.chat_answers " Any advice? "
       Sample.chat_state)
  = [ {| ChatPage.role := ChatPage.user;
         ChatPage.content := "Any advice?" |};
      {| ChatPage.role := ChatPage.assistant;
         ChatPage.content := "Use numbers." |} ]
  /\ ChatPage.messages
       (ChatPage.sendMessage Sample.chat_breaks " Any advice? "
          Sample.chat_state)
     = [ {| ChatPage.role := ChatPage.user;
            ChatPage.content := "Any advice?" |};
         ChatPage.sorry ].
Proof.
  assert (Hasked : ~ blank " Any advice? ")
    by (intros H; apply trimStart_blank in H; discriminate H).
  split.
  - destruct (sent_message_adds_question_and_answer Sample.chat_answers
                " Any advice? " Sample.chat_state Hasked eq_refl)
      as (asked & Hstripped & H & _).
    apply stripped_trim in Hstripped. subst asked. exact H.
  - destruct (sent_message_adds_question_and_answer Sample.chat_breaks
                " Any advice? " Sample.chat_state Hasked eq_refl)
      as (asked & Hstripped & H & _).
    apply stripped_trim in Hstripped. subst asked. exact H.
Defined.

(** * Skills as lines *)

Section SkillsMore.
Import Api.
Variable fetch_enhance : EnhanceInput -> Outcome (Response EnhanceResponse).

Lemma filter_nonempty_Forall (l : list string) :
  Forall (fun s => s <> "")
    (filter (fun s => Js.nonempty s = true) l).
Proof.
  induction l as [|x l IH]; [constructor|].
  destruct (Js.nonempty x) eqn:Hx.
  - rewrite filter_cons_True by exact Hx. constructor; [|exact IH].
    intros ->. discriminate Hx.
  - rewrite filter_cons_False by congruence. exact IH.
Qed.

(** X10: after a successful enhancement of the skills on the optimize
    page the skills are an array without empty entries, whatever the backend
    sent (no content at all gives the empty array); and when the backend
    sends back lines that are each one non-empty line, the skills are
    exactly those lines, in order. *)
Theorem enhanced_skills_are_the_lines content st orig r res :
  OptimizePage.original st = Some orig ->
  OptimizePage.optimized st = Some r ->
  enhanceSection fetch_enhance "skills" content (ResumeData.target_role orig)
    (OptimizePage.jd_or_undefined (OptimizePage.jd st)) = Returned res ->
  exists l,
    OptimizePage.optimized
      (OptimizePage.handleEnhance fetch_enhance "skills" content st)
    = Some (ResumeData.with_skills (Some l) r)
    /\ Forall (fun s => s <> "") l
    /\ (enhanced_content res = None -> l = [])
    /\ (forall lines,
          Forall one_line lines ->
          enhanced_content res = Some (Js.join Sample.line_feed lines) ->
          l = lines).
Proof.
  intros Ho Hopt He.
  exists (OptimizePage.skills_of_content (enhanced_content res)).
  split; [|split; [|split]].
  - unfold OptimizePage.handleEnhance, OptimizePage.enhance_try.
    rewrite Ho. cbn [OptimizePage.jd OptimizePage.setEnhancingSection].
    rewrite He. cbn [bind].
    change (OptimizePage.optimized
              (OptimizePage.setEnhancingSection (Some "skills") st))
      with (OptimizePage.optimized st).
    rewrite Hopt. reflexivity.
  - apply filter_nonempty_Forall.
  - intros ->. reflexivity.
  - intros lines Hl ->. unfold OptimizePage.skills_of_content.
    destruct lines as [|x lines]; [reflexivity|].
    replace (Js.or_str (Some (Js.join Sample.line_feed (x :: lines))) "")
      with (Js.join Sample.line_feed (x :: lines)).
    + now apply lines_of_joined.
    + unfold Js.or_str.
      now destruct (Js.nonempty (Js.join Sample.line_feed (x :: lines))) eqn:E;
        [|unfold Js.nonempty in E;
          destruct (String.eqb_spec (Js.join Sample.line_feed (x :: lines)) "")
            as [->|]; [reflexivity|discriminate]].
Qed.

(** X11: on the create page an enhancement of the skills whose answer has
    no content leaves the skills undefined, and a download then fails before
    any request is made: nothing is saved and the failure is alerted. *)
Theorem enhancement_without_content_breaks_download
  (fetch_download : ResumeData.t -> Download.Format -> Outcome Download.Fetched)
  content st rd format saved :
  enhanceSection fetch_enhance "skills" content (CreatePage.targetRole st)
    (CreatePage.jobDescription_or_undefined st)
  = Returned {| enhanced_content := None |} ->
  CreatePage.resumeData st = Some rd ->
  let st' := CreatePage.handleEnhance fetch_enhance "skills" content st in
  let after :=
    Download.handleDownload_create fetch_download format
      {| Download.page := st'; Download.downloading := false;
         Download.saved := saved |} in
  CreatePage.skills st' = None
  /\ Download.saved after = saved
  /\ exists msg,
       CreatePage.alerts (Download.page after)
       = (CreatePage.alerts st ++ ["Download failed: " +:+ msg])%list.
Proof.
  intros He Hrd st' after.
  assert (Hst : st' = CreatePage.setEnhancingSection None
                        (CreatePage.setSkills None st)).
  { subst st'. unfold CreatePage.handleEnhance, CreatePage.enhance_try.
    change (CreatePage.jobDescription_or_undefined
              (CreatePage.setEnhancingSection (Some "skills") st))
      with (CreatePage.jobDescription_or_undefined st).
    cbn [CreatePage.targetRole CreatePage.setEnhancingSection].
    rewrite He. reflexivity. }
  subst after. rewrite Hst. split; [reflexivity|].
  unfold Download.handleDownload_create. cbn [Download.page].
  cbn [CreatePage.resumeData CreatePage.setEnhancingSection
       CreatePage.setSkills]. rewrite Hrd.
  unfold Download.create_payload. cbn. eauto.
Qed.

End SkillsMore.

Lemma enhanced_skills_are_the_lines_witness :
  OptimizePage.optimized
    (OptimizePage.handleEnhance
       (Sample.enhance_answers
          ("Rocq" +:+ Sample.line_feed +:+ "OCaml"))
       "skills" "TypeScript"
       (OptimizePage.setOptimized (Some Sample.original_once)
          (Sample.optimize_state Sample.original_once)))
  = Some (ResumeData.with_skills (Some ["Rocq"; "OCaml"])
            Sample.original_once).
Proof.
  destruct (enhanced_skills_are_the_lines
              (Sample.enhance_answers
                 ("Rocq" +:+ Sample.line_feed +:+ "OCaml"))
              "TypeScript"
              (OptimizePage.setOptimized (Some Sample.original_once)
                 (Sample.optimize_state Sample.original_once))
              Sample.original_once Sample.original_once
              {| enhanced_content :=
                   Some ("Rocq" +:+ Sample.line_feed +:+ "OCaml") |}
              eq_refl eq_refl eq_refl)
    as (l & Hopt & _ & _ & Hlines).
  rewrite Hopt. do 2 f_equal. f_equal.
  apply (Hlines ["Rocq"; "OCaml"]); [|reflexivity].
  repeat constructor; discriminate.
Defined.

Lemma enhancement_without_content_breaks_download_witness :
  Download.saved
    (Download.handleDownload_create
       (fun _ _ => Thrown {| message := "offline" |}) Download.pdf
       {| Download.page :=
            CreatePage.handleEnhance
              (fun _ => Returned
                 (Sample.ok_response {| enhanced_content := None |}))
              "skills" "TypeScript"
              (CreatePage.handleGenerate
                 (Sample.backend_answers Sample.original_once)
                 CreatePage.initial);
          Download.downloading := false;
          Download.saved := [] |})
  = [].
Proof.
  destruct (enhancement_without_content_breaks_download
              (fun _ => Returned
                 (Sample.ok_response {| enhanced_content := None |}))
              (fun _ _ => Thrown {| message := "offline" |})
              "TypeScript"
              (CreatePage.handleGenerate
                 (Sample.backend_answers Sample.original_once)
                 CreatePage.initial)
              Sample.original_once Download.pdf [] eq_refl eq_refl)
    as (_ & H & _).
  exact H.
Defined.

(** * Sample payloads, bullets and chat failures *)

Section LoadingMore.
Import Api.

Lemma map_entries_Some {A B} first (f : A -> B) (l : list A) :
  CreatePage.map_entries first f (map Some l) = Returned (map f l).
Proof.
  induction l as [|x l IH]; [reflexivity|].
  cbn [map CreatePage.map_entries]. now rewrite IH.
Qed.

Lemma map_entries_null {A B} first (f : A -> B) (l : list (option A)) :
  In None l -> exists e, CreatePage.map_entries first f l = Thrown e.
Proof.
  induction l as [|[x|] l IH]; intros Hin.
  - destruct Hin.
  - destruct Hin as [Hx|Hin]; [discriminate|].
    destruct (IH Hin) as [e He]. exists e.
    cbn [CreatePage.map_entries]. now rewrite He.
  - eexists. reflexivity.
Qed.

(** X27: loading the sample is all or nothing on the resume form, and on
    the create page as long as the payload does not arrive: either the form
    takes the payload, or it is exactly what it was, with one alert that
    starts with "Failed to load sample payload: " (a status that is not ok is
    reported with its code).  Once the payload has arrived, the create page
    has taken its name, phone, e-mail and target role whatever follows; it
    takes the three arrays when none of their entries is null; and on a null
    entry it stops halfway: with a null experience entry the three lists stay
    as they were, next to the contact fields already taken, and the failure
    is alerted. *)
Theorem sample_load_can_stop_halfway
  (fetch_form : Outcome (Response ResumeForm.Sample))
  (fetch_create : Outcome (Response CreatePage.Sample)) fst cst :
  (let st' := ResumeForm.loadSample fetch_form fst in
   (exists res sample,
      fetch_form = Returned res /\ ok res = true
      /\ json res = Returned sample
      /\ st' = {| ResumeForm.data := ResumeForm.resume_of_sample sample;
                  ResumeForm.alerts := ResumeForm.alerts fst |})
   \/ (exists msg,
         st' = {| ResumeForm.data := ResumeForm.data fst;
                  ResumeForm.alerts :=
                    ResumeForm.alerts fst
                    ++ ["Failed to load sample payload: " +:+ msg] |}
         /\ forall res, fetch_form = Returned res -> ok res = false ->
              msg = "Failed to load sample: " +:+ pretty (status res)))
  /\ (let st' := CreatePage.loadSample fetch_create cst in
      ((forall res sample, fetch_create = Returned res -> ok res = true ->
                           json res <> Returned sample) ->
       exists msg,
         st' = CreatePage.alert
                 ("Failed to load sample payload: " +:+ msg) cst
         /\ forall res, fetch_create = Returned res -> ok res = false ->
              msg = "Failed to load sample: " +:+ pretty (status res))
      /\ (forall res sample,
            fetch_create = Returned res -> ok res = true ->
            json res = Returned sample ->
            (CreatePage.fullName st'
             = match CreatePage.s_full_name sample with
               | Some v => v | None => "" end
             /\ CreatePage.phone st'
                = match CreatePage.s_phone sample with
                  | Some v => v | None => "" end
             /\ CreatePage.email st'
                = match CreatePage.s_email sample with
                  | Some v => v | None => "" end
             /\ CreatePage.targetRole st'
                = match CreatePage.s_target_role sample with
                  | Some v => v | None => "" end)
            /\ (forall exps edus projs,
                  CreatePage.s_experience sample
                  = option_map (map Some) exps ->
                  CreatePage.s_education sample
                  = option_map (map Some) edus ->
                  CreatePage.s_projects sample
                  = option_map (map Some) projs ->
                  CreatePage.experience st'
                  = taken CreatePage.exp_of_sample exps
                      (CreatePage.experience cst)
                  /\ CreatePage.education st'
                     = taken CreatePage.edu_of_sample edus
                         (CreatePage.education cst)
                  /\ CreatePage.projects st'
                     = taken CreatePage.proj_of_sample projs
                         (CreatePage.projects cst)
                  /\ CreatePage.alerts st' = CreatePage.alerts cst)
            /\ (forall l,
                  CreatePage.s_experience sample = Some l -> In None l ->
                  CreatePage.experience st' = CreatePage.experience cst
                  /\ CreatePage.education st' = CreatePage.education cst
                  /\ CreatePage.projects st' = CreatePage.projects cst
                  /\ exists msg,
                       CreatePage.alerts st'
                       = (CreatePage.alerts cst
                          ++ ["Failed to load sample payload: " +:+ msg])%list))).
Proof.
  split.
  - unfold ResumeForm.loadSample, ResumeForm.loadSample_try.
    destruct fetch_form as [res|e]; cbn [bind].
    + destruct (ok res) eqn:Hok; cbn [negb].
      * destruct (json res) as [sample|e] eqn:Hj; cbn [bind].
        -- left. exists res, sample. auto.
        -- right. exists (message e). split; [reflexivity|].
           intros res' [= <-]. congruence.
      * right. eexists. split; [reflexivity|].
        now intros res' [= <-].
    + right. exists (message e). split; [reflexivity|]. discriminate.
  - unfold CreatePage.loadSample, CreatePage.loadSample_try. split.
    + intros Hno. destruct fetch_create as [res|e]; cbn [bind].
      * destruct (ok res) eqn:Hok; cbn [negb].
        -- destruct (json res) as [sample|e] eqn:Hj.
           ++ now contradiction (Hno res sample eq_refl Hok).
           ++ exists (message e). split; [reflexivity|].
              intros res' [= <-]. congruence.
        -- eexists. split; [reflexivity|]. now intros res' [= <-].
      * exists (message e). split; [reflexivity|]. discriminate.
    + intros res sample -> Hok Hj. cbn [bind]. rewrite Hok. cbn [negb].
      rewrite Hj. cbn [run].
      split; [|split].
      * unfold CreatePage.loadExperience, CreatePage.loadEducation,
          CreatePage.loadProjects.
        destruct (CreatePage.s_experience sample) as [l1|];
          [destruct (CreatePage.map_entries "job_title" _ l1)|];
          cbn [bind]; try (repeat split; fail);
          (destruct (CreatePage.s_education sample) as [l2|];
           [destruct (CreatePage.map_entries "degree" _ l2)|];
           cbn [bind]; try (repeat split; fail);
           (destruct (CreatePage.s_projects sample) as [l3|];
            [destruct (CreatePage.map_entries "title" _ l3)|];
            cbn [bind]; repeat split)).
      * intros exps edus projs He Hd Hp.
        unfold CreatePage.loadExperience, CreatePage.loadEducation,
          CreatePage.loadProjects. rewrite He, Hd, Hp.
        destruct exps as [exps|], edus as [edus|], projs as [projs|];
          cbn [option_map]; rewrite ?map_entries_Some; cbn [bind];
          repeat split.
      * intros l He Hnull.
        unfold CreatePage.loadExperience. rewrite He.
        destruct (map_entries_null "job_title" CreatePage.exp_of_sample l
                    Hnull) as [e ->].
        cbn [bind]. repeat split. eauto.
Qed.

End LoadingMore.

Section BulletsMore.
Import Preview.

Lemma substring_all (s : string) : String.substring 0 (String.length s) s = s.
Proof.
  induction s as [|c s IH]; [reflexivity|].
  cbn [String.length String.substring]. now rewrite IH.
Qed.

Lemma substring_skip (p s : string) (n : nat) :
  String.substring (String.length p) n (p +:+ s) = String.substring 0 n s.
Proof.
  induction p as [|c p IH]; [reflexivity|].
  rewrite append_String. cbn [String.length String.substring]. exact IH.
Qed.

Lemma strip_prefix_append (p s : string) : strip_prefix p (p +:+ s) = Some s.
Proof.
  unfold strip_prefix.
  rewrite (proj2 (prefix_append p (p +:+ s)) (ex_intro _ s eq_refl)).
  rewrite substring_skip, length_append.
  replace (String.length p + String.length s - String.length p)%nat
    with (String.length s) by lia.
  now rewrite substring_all.
Qed.

(** X22: a skill that starts with one of the bullets of legacy data, a
    round bullet or a hyphen, is shown without that bullet and without the
    white space after it, up to the first character that is not white
    space; only the first bullet is taken off, and a skill that starts with
    none of the three is shown as it is. *)
Theorem leading_bullet_is_stripped (b ws s : string) :
  b = "•" \/ b = "●" \/ b = "-" ->
  blank ws ->
  ~ starts_white s ->
  cleanSkill (b +:+ ws +:+ s) = s
  /\ ((forall rest, s <> "•" +:+ rest /\ s <> "●" +:+ rest
                    /\ s <> "-" +:+ rest) ->
      cleanSkill s = s).
Proof.
  intros Hb Hws Hs. split.
  - unfold cleanSkill.
    destruct Hb as [->|[->| ->]].
    + rewrite strip_prefix_append.
      now rewrite trimStart_blank_append, trimStart_fixed.
    + replace (strip_prefix "•" ("●" +:+ ws +:+ s)) with (@None string).
      * rewrite strip_prefix_append.
        now rewrite trimStart_blank_append, trimStart_fixed.
      * rewrite !append_String, append_empty. reflexivity.
    + replace (strip_prefix "•" ("-" +:+ ws +:+ s)) with (@None string)
        by (rewrite !append_String, append_empty; reflexivity).
      replace (strip_prefix "●" ("-" +:+ ws +:+ s)) with (@None string)
        by (rewrite !append_String, append_empty; reflexivity).
      rewrite strip_prefix_append.
      now rewrite trimStart_blank_append, trimStart_fixed.
  - intros Hnone.
    assert (Hno : forall p, p = "•" \/ p = "●" \/ p = "-" ->
                            strip_prefix p s = None).
    { intros p Hp. unfold strip_prefix.
      destruct (String.prefix p s) eqn:E; [|reflexivity].
      apply prefix_append in E as [rest E].
      destruct (Hnone rest) as (H1 & H2 & H3).
      destruct Hp as [->|[->| ->]]; contradiction. }
    unfold cleanSkill. now rewrite !Hno by auto.
Qed.

End BulletsMore.

Lemma leading_bullet_is_stripped_witness :
  Preview.cleanSkill "•  - Python" = "- Python".
Proof.
  apply (leading_bullet_is_stripped "•" "  " "- Python").
  - now left.
  - apply trimStart_nil_blank. reflexivity.
  - apply not_starts_white. reflexivity.
Defined.

Section ChatFailures.
Import ChatPage Api.
Variable fetch_chat : ChatInput -> Outcome Fetched.

Lemma sendMessage_messages text st :
  Js.trim text <> "" ->
  streaming st = false ->
  messages (sendMessage fetch_chat text st)
  = answered
      (messages st ++ [{| role := user; content := Js.trim text |}])
      (chatStream fetch_chat
         (messages st ++ [{| role := user; content := Js.trim text |}])
         (or_undefined (jd st)) (or_undefined (resumeContext st))).
Proof.
  intros Ht Hs. unfold sendMessage. rewrite Hs.
  replace (Js.nonempty (Js.trim text)) with true
    by (unfold Js.nonempty; now destruct (String.eqb_spec (Js.trim text) "")).
  reflexivity.
Qed.

(** X26: what the assistant's message is after a message that is not
    blank, sent while nothing is streaming, whose request did not stream an
    answer: the apology when the request is rejected or the response has a
    status that is not ok, and an empty message, not an apology, when an ok
    response has no body. *)
Theorem chat_without_stream text st :
  ~ blank text ->
  streaming st = false ->
  exists asked,
    stripped text asked
    /\ let request :=
         {| ci_messages :=
              messages st ++ [{| role := user; content := asked |}];
            ci_job_description := or_undefined (jd st);
            ci_resume_context := or_undefined (resumeContext st) |} in
       let st' := sendMessage fetch_chat text st in
       ((exists e, fetch_chat request = Thrown e)
        \/ (exists f, fetch_chat request = Returned f
                      /\ ok (response f) = false) ->
        last (messages st') = Some sorry)
       /\ ((exists f, fetch_chat request = Returned f
                      /\ ok (response f) = true /\ body f = None) ->
           last (messages st')
           = Some {| role := assistant; content := "" |}).
Proof.
  intros Hb Hs. exists (Js.trim text). split; [apply trim_stripped|].
  intros request st'. subst st'.
  assert (Ht : Js.trim text <> "") by now rewrite trim_nil.
  rewrite (sendMessage_messages text st Ht Hs).
  unfold chatStream. fold request. split.
  - intros [[e He]|(f & Hf & Hok)]; rewrite ?He, ?Hf; cbn [bind].
    + unfold answered. cbn [thrown]. apply last_snoc.
    + unfold checkedFetch. cbn [bind]. rewrite Hok. cbn [negb bind].
      unfold answered. cbn [thrown]. apply last_snoc.
  - intros (f & Hf & Hok & Hbody). rewrite Hf. cbn [bind].
    unfold checkedFetch. cbn [bind]. rewrite Hok. cbn [negb bind].
    rewrite Hbody. unfold answered. cbn [thrown yielded fold_left].
    apply last_snoc.
Qed.

End ChatFailures.

Lemma chat_without_stream_witness :
  last (ChatPage.messages
          (ChatPage.sendMessage
             (fun _ => Returned
                {| ChatPage.response := Sample.error_response unit;
                   ChatPage.body := None |})
             "Any advice?" Sample.chat_state))
  = Some ChatPage.sorry.
Proof.
  destruct (chat_without_stream
              (fun _ => Returned
                 {| ChatPage.response := Sample.error_response unit;
                    ChatPage.body := None |})
              "Any advice?" Sample.chat_state)
    as (asked & Hstripped & H & _);
    [intros Hb; apply trimStart_blank in Hb; discriminate Hb|reflexivity|].
  apply H. right. eexists. split; reflexivity.
Defined.

Lemma sample_load_can_stop_halfway_witness :
  CreatePage.fullName
    (CreatePage.loadSample
       (Returned (Sample.ok_response Sample.payload_with_null))
       CreatePage.initial)
  = "Ada Lovelace"
  /\ CreatePage.experience
       (CreatePage.loadSample
          (Returned (Sample.ok_response Sample.payload_with_null))
          CreatePage.initial)
     = [emptyExp]
  /\ CreatePage.alerts
       (CreatePage.loadSample
          (Returned (Sample.ok_response Sample.payload_with_null))
          CreatePage.initial)
     = ["Failed to load sample payload: Cannot read properties of null (reading 'job_title')"].
Proof.
  destruct (sample_load_can_stop_halfway
              (Returned (Sample.error_response ResumeForm.Sample))
              (Returned (Sample.ok_response Sample.payload_with_null))
              ResumeForm.initial CreatePage.initial)
    as [_ [_ Hpayload]].
  destruct (Hpayload (Sample.ok_response Sample.payload_with_null)
              Sample.payload_with_null eq_refl eq_refl eq_refl)
    as ((Hname & _) & _ & Hnull).
  destruct (Hnull [None] eq_refl (or_introl eq_refl)) as (Hexp & _).
  split; [exact Hname|]. split; [exact Hexp|reflexivity].
Defined.

Lemma existing_text_is_undefined_iff_nothing_filled_witness :
  ExistingText.buildExistingResumeText [emptyEdu] [emptyExp] [emptyProj]
  = None.
Proof.
  apply (existing_text_is_undefined_iff_nothing_filled
           [emptyEdu] [emptyExp] [emptyProj]).
  repeat split; repeat constructor.
Defined.

Lemma preview_throws_without_collections_witness :
  exists e,
    Preview.ResumePreview
      {| Preview.data := ResumeData.with_projects None Sample.original_once;
         Preview.summaryOverride := None;
         Preview.skillsOverride := None |} = Thrown e.
Proof.
  apply preview_throws_without_collections.
  right. right. left. reflexivity.
Defined.

(** * The no-break space

    U+00A0 is white space to [trim], to [\s] and to [parseInt] as the space
    of ASCII is; four runs on texts that hold it. *)

Example no_break_space_is_trimmed :
  Js.trim (bytes [194; 160] +:+ "Ada" +:+ bytes [32; 194; 160]) = "Ada"
  /\ Js.trim (bytes [194; 160]) = ""
  /\ JsDate.parseInt (bytes [194; 160] +:+ "2020") = Some 2020.
Proof. repeat split. Qed.

Example no_break_space_is_underscored :
  Js.underscore_spaces ("Ada" +:+ bytes [194; 160; 32] +:+ "Lovelace")
  = "Ada_Lovelace".
Proof. reflexivity. Qed.

Example no_break_space_after_bullet :
  Preview.cleanSkill ("•" +:+ bytes [32; 194; 160] +:+ "Python") = "Python".
Proof. reflexivity. Qed.

Example no_break_space_is_no_message :
  ChatPage.sendMessage Sample.chat_answers (bytes [194; 160]) Sample.chat_state
  = Sample.chat_state
  /\ ExistingText.exp_bullets
       (CreatePage.exp_of_sample
          {| CreatePage.se_job_title := Some "Engineer";
             CreatePage.se_company := None;
             CreatePage.se_location := None;
             CreatePage.se_start_date := None;
             CreatePage.se_end_date := None;
             CreatePage.se_responsibilities := Some [bytes [194; 160]] |})
     = [].
Proof. split; reflexivity. Qed.
